(** * Food-portfolio REST API: request handlers, repositories, data access
    helper and AI gateway, embedded as Rocq functions.

    Layout of the development:
    - JavaScript values and the built-ins the handlers use
      (truthiness, [ToString], [ToNumber], [parseInt],
      [Array.prototype.slice], [String.prototype.trim],
      [RegExp.prototype.test], [Date.prototype.setDate]);
    - the process state and the monad of handlers (state + exceptions);
    - the hosted database client and [dbHelpers]   (server/config/supabase.js);
    - [DishModel] (server/models/Dish.js), [ContactModel] (server/models/Contact.js);
    - [GeminiService]                                (server/config/gemini.js);
    - the three controllers                          (server/controllers/*.js);
    - the properties. *)

From stdpp Require Import gmap strings list fin_maps.
From Stdlib Require Import ZArith Ascii Lia.
From Stdlib Require String SpecFloat.

#[local] Set Warnings "-register-all".
#[local] Open Scope Z_scope.

(* ===================================================================== *)
(** * JavaScript values *)
(* ===================================================================== *)

(** Strings are sequences of code units; the model keeps code units below
    256 (one [ascii] each).  Numbers are the integers together with [NaN]
    and the two infinities: every number the handlers compute with comes
    out of [parseInt] or is an array length. *)
Inductive jsval : Type :=
  | JUndefined
  | JNull
  | JBool (b : bool)
  | JNum (z : Z)
  | JNaN
  | JInf (negative : bool)
  | JStr (s : string)
  | JArr (l : list jsval)
  | JObj (o : gmap string jsval).

(** An object literal or a parsed JSON object. *)
Abbreviation jsobj := (gmap string jsval).

(** [o.k]: reading a property that is not there gives [undefined]. *)
Definition get (o : jsobj) (k : string) : jsval := default JUndefined (o !! k).

(** [{ k1: v1, ..., kn: vn }] *)
Definition obj (fields : list (string * jsval)) : jsobj := list_to_map fields.

(** ToBoolean. *)
Definition truthy (v : jsval) : bool :=
  match v with
  | JUndefined | JNull | JNaN => false
  | JBool b => b
  | JNum z => negb (z =? 0)
  | JStr s => negb (String.eqb s "")
  | JInf _ | JArr _ | JObj _ => true
  end.

(** [a || b] *)
Definition js_or (a b : jsval) : jsval := if truthy a then a else b.

(** [a === b] where one side is a primitive literal, which is how the
    handlers use it; two distinct array or object references are never
    identical. *)
Definition strict_eq (a b : jsval) : bool :=
  match a, b with
  | JUndefined, JUndefined => true
  | JNull, JNull => true
  | JBool x, JBool y => Bool.eqb x y
  | JNum x, JNum y => x =? y
  | JInf x, JInf y => Bool.eqb x y
  | JStr x, JStr y => String.eqb x y
  | _, _ => false
  end.

(** Destructuring default [{ k = d } = o]: [d] replaces [undefined] only. *)
Definition get_default (o : jsobj) (k : string) (d : jsval) : jsval :=
  match get o k with
  | JUndefined => d
  | v => v
  end.

(* --------------------------------------------------------------------- *)
(** ** Strings *)
(* --------------------------------------------------------------------- *)

Definition char_code (c : ascii) : Z := Z.of_N (N_of_ascii c).

(** White space and line terminators among the code units below 256:
    TAB, LF, VT, FF, CR, SP and NBSP.  This is the class [\s] of regular
    expressions and the class [trim] and [parseInt] strip. *)
Definition is_space (c : ascii) : bool :=
  let n := char_code c in
  ((9 <=? n) && (n <=? 13)) || (n =? 32) || (n =? 160).

Fixpoint trim_start (s : string) : string :=
  match s with
  | String c s' => if is_space c then trim_start s' else s
  | EmptyString => EmptyString
  end.

Definition string_rev (s : string) : string :=
  String.string_of_list_ascii (rev (String.list_ascii_of_string s)).

(** [s.trim()] *)
Definition trim (s : string) : string :=
  string_rev (trim_start (string_rev (trim_start s))).

(** [s.length] *)
Definition str_length (s : string) : Z := Z.of_nat (String.length s).

(** [s.includes(t)] *)
Fixpoint includes (s t : string) : bool :=
  String.prefix t s ||
  match s with
  | String _ s' => includes s' t
  | EmptyString => false
  end.

Definition digit_char (d : Z) : ascii := ascii_of_N (Z.to_N (48 + d)).

(** Decimal digits of a non-negative integer, most significant first. *)
Fixpoint digits (fuel : nat) (n : Z) : string :=
  match fuel with
  | O => EmptyString
  | S fuel' =>
      (if n <? 10 then EmptyString else digits fuel' (n / 10))
      +:+ String (digit_char (n mod 10)) EmptyString
  end.

(** Number::toString on integers. *)
Definition decimal (z : Z) : string :=
  if z <? 0 then "-" +:+ digits (S (Z.to_nat (Z.log2 (- z)))) (- z)
  else digits (S (Z.to_nat (Z.log2 z))) z.

(** ToString.  Inside [Array.prototype.join] the elements [undefined] and
    [null] are printed as the empty string. *)
Fixpoint to_string (v : jsval) : string :=
  match v with
  | JUndefined => "undefined"
  | JNull => "null"
  | JBool true => "true"
  | JBool false => "false"
  | JNum z => decimal z
  | JNaN => "NaN"
  | JInf false => "Infinity"
  | JInf true => "-Infinity"
  | JStr s => s
  | JArr l =>
      String.concat ","
        (map (fun x => match x with
                       | JUndefined | JNull => EmptyString
                       | _ => to_string x
                       end) l)
  | JObj _ => "[object Object]"
  end.

(** Value of a digit in the given radix, if it is one. *)
Definition digit_value (radix : Z) (c : ascii) : option Z :=
  let n := char_code c in
  let d := if (48 <=? n) && (n <=? 57) then n - 48
           else if (97 <=? n) && (n <=? 122) then n - 87
           else if (65 <=? n) && (n <=? 90) then n - 55
           else radix in
  if d <? radix then Some d else None.

(** The longest prefix of digits, read in the given radix. *)
Fixpoint read_digits (radix : Z) (s : string) (acc : Z) : Z :=
  match s with
  | String c s' =>
      match digit_value radix c with
      | Some d => read_digits radix s' (acc * radix + d)
      | None => acc
      end
  | EmptyString => acc
  end.

(** The Number value of an integer: the nearest binary64 value, a tie
    going to the even mantissa; every integer below [2^53] in magnitude is
    its own value, and the result is infinite from [2^1024 - 2^970] on. *)
Definition js_number (z : Z) : jsval :=
  let a := Z.abs z in
  if a <? 2 ^ 53 then JNum z
  else
    let e := Z.log2 a - 52 in
    let q := a / 2 ^ e in
    let r := a mod 2 ^ e in
    let half := 2 ^ (e - 1) in
    let q' := if (half <? r) || ((half =? r) && Z.odd q) then q + 1 else q in
    if 2 ^ 1024 <=? q' * 2 ^ e then JInf (z <? 0)
    else JNum (Z.sgn z * (q' * 2 ^ e)).

(** [parseInt(v)] with no radix argument: ToString, strip leading white
    space, an optional sign, an optional [0x] prefix, then the longest
    prefix of digits, whose value is rounded to a Number; [NaN] when there
    is no digit. *)
Definition parseInt (v : jsval) : jsval :=
  let s1 := trim_start (to_string v) in
  let '(sign, s2) :=
    match s1 with
    | String "-"%char r => (-1, r)
    | String "+"%char r => (1, r)
    | _ => (1, s1)
    end in
  let '(radix, s3) :=
    match s2 with
    | String "0"%char (String "x"%char r) => (16, r)
    | String "0"%char (String "X"%char r) => (16, r)
    | _ => (10, s2)
    end in
  match s3 with
  | String c _ =>
      match digit_value radix c with
      | Some _ => js_number (sign * read_digits radix s3 0)
      | None => JNaN
      end
  | EmptyString => JNaN
  end.

(** [x++] on a counter: the handlers that increment count the elements of
    an array, an array has fewer than [2^32] elements, and sums of integers
    that small are exact. *)
Definition js_add (a b : jsval) : jsval :=
  match a, b with
  | JNum x, JNum y => JNum (x + y)
  | _, _ => JNaN
  end.

(** [a + b] on numbers: the sum is rounded to a Number; the infinities
    absorb, and cancel to [NaN]. *)
Definition js_plus (a b : jsval) : jsval :=
  match a, b with
  | JNum x, JNum y => js_number (x + y)
  | JInf s, JNum _ | JNum _, JInf s => JInf s
  | JInf s, JInf s' => if Bool.eqb s s' then JInf s else JNaN
  | _, _ => JNaN
  end.

(** [a < b] on numbers; any comparison with [NaN] is false. *)
Definition js_lt (a b : jsval) : bool :=
  match a, b with
  | JNum x, JNum y => x <? y
  | JNum _, JInf s => negb s
  | JInf s, JNum _ => s
  | JInf s, JInf s' => s && negb s'
  | _, _ => false
  end.

(* --------------------------------------------------------------------- *)
(** ** Arrays *)
(* --------------------------------------------------------------------- *)

(** Relative index of [slice]: a negative index counts from the end, and
    the result is clamped to [0, len]. *)
Definition clamp_index (len i : Z) : Z :=
  if i <? 0 then Z.max (len + i) 0 else Z.min i len.

(** ToIntegerOrInfinity on the numbers of the model, then the relative
    index: [NaN] becomes 0, the infinities the two ends. *)
Definition relative_index (len : Z) (v : jsval) : Z :=
  match v with
  | JNum z => clamp_index len z
  | JInf negative => if negative then 0 else len
  | _ => clamp_index len 0
  end.

(** [l.slice(start, end)] *)
Definition slice {A} (l : list A) (start stop : jsval) : list A :=
  let len := Z.of_nat (length l) in
  let k := relative_index len start in
  let final := relative_index len stop in
  take (Z.to_nat (Z.max (final - k) 0)) (drop (Z.to_nat k) l).

(** [l.length] *)
Definition arr_length {A} (l : list A) : jsval := JNum (Z.of_nat (length l)).

(* --------------------------------------------------------------------- *)
(** ** Regular expressions *)
(* --------------------------------------------------------------------- *)

(** The fragment of the regular-expression language the source uses:
    character classes, concatenation and [+], matched against the whole
    string (the source anchors its pattern with [^] and [$]). *)
Inductive regex : Type :=
  | RNone
  | REps
  | RClass (p : ascii -> bool)
  | RCat (r1 r2 : regex)
  | RAlt (r1 r2 : regex)
  | RStar (r : regex).

Definition RPlus (r : regex) : regex := RCat r (RStar r).
Definition RChar (c : ascii) : regex := RClass (Ascii.eqb c).

Fixpoint nullable (r : regex) : bool :=
  match r with
  | RNone => false
  | REps => true
  | RClass _ => false
  | RCat r1 r2 => nullable r1 && nullable r2
  | RAlt r1 r2 => nullable r1 || nullable r2
  | RStar _ => true
  end.

(** Brzozowski derivative. *)
Fixpoint deriv (c : ascii) (r : regex) : regex :=
  match r with
  | RNone | REps => RNone
  | RClass p => if p c then REps else RNone
  | RCat r1 r2 =>
      if nullable r1 then RAlt (RCat (deriv c r1) r2) (deriv c r2)
      else RCat (deriv c r1) r2
  | RAlt r1 r2 => RAlt (deriv c r1) (deriv c r2)
  | RStar r1 => RCat (deriv c r1) (RStar r1)
  end.

Fixpoint matches (r : regex) (s : string) : bool :=
  match s with
  | EmptyString => nullable r
  | String c s' => matches (deriv c r) s'
  end.

(** [re.test(v)] for an anchored pattern: the argument goes through
    ToString first. *)
Definition regex_test (r : regex) (v : jsval) : bool := matches r (to_string v).

(* --------------------------------------------------------------------- *)
(** ** Dates *)
(* --------------------------------------------------------------------- *)

(** A [Date] holds a time value in milliseconds since the epoch, or is
    invalid. *)
Definition date := option Z.

Definition ms_per_day : Z := 86400000.
Definition max_time : Z := 8640000000000000.

Definition make_date (t : Z) : date :=
  if (- max_time <=? t) && (t <=? max_time) then Some t else None.

(** Year, month and day of a day number counted from 1970-01-01. *)
Definition civil_from_days (z : Z) : Z * Z * Z :=
  let z := z + 719468 in
  let era := z / 146097 in
  let doe := z - era * 146097 in
  let yoe := (doe - doe / 1460 + doe / 36524 - doe / 146096) / 365 in
  let doy := doe - (365 * yoe + yoe / 4 - yoe / 100) in
  let mp := (5 * doy + 2) / 153 in
  let d := doy - (153 * mp + 2) / 5 + 1 in
  let m := if mp <? 10 then mp + 3 else mp - 9 in
  let y := yoe + era * 400 in
  (if m <=? 2 then y + 1 else y, m, d).

(** [n] written with at least [width] decimal digits. *)
Fixpoint pad (width : nat) (n : Z) : string :=
  match width with
  | O => EmptyString
  | S O => decimal n
  | S w => if n <? 10 ^ Z.of_nat w
           then String "0"%char (pad w n)
           else decimal n
  end.

Definition iso_year (y : Z) : string :=
  if (0 <=? y) && (y <=? 9999) then pad 4 y
  else if y <? 0 then "-" +:+ pad 6 (- y)
  else "+" +:+ pad 6 y.

(** The text [YYYY-MM-DDTHH:mm:ss.sssZ] of a time value. *)
Definition iso_string (t : Z) : string :=
  let '(y, m, d) := civil_from_days (t / ms_per_day) in
  let r := t mod ms_per_day in
  iso_year y +:+ "-" +:+ pad 2 m +:+ "-" +:+ pad 2 d +:+ "T"
  +:+ pad 2 (r / 3600000) +:+ ":" +:+ pad 2 (r / 60000 mod 60) +:+ ":"
  +:+ pad 2 (r / 1000 mod 60) +:+ "." +:+ pad 3 (r mod 1000) +:+ "Z".

(* --------------------------------------------------------------------- *)
(** ** ToNumber *)
(* --------------------------------------------------------------------- *)

(** The operands of [-] go through ToNumber, whose result can be any
    binary64 value; these are the [spec_float] of the Standard Library,
    with 53 bits of precision and the exponents of binary64. *)
Definition double : Type := SpecFloat.spec_float.

Definition double_of_Z (z : Z) : double :=
  SpecFloat.binary_normalize 53 1024 z 0 false.

(** [a - b], rounded. *)
Definition double_sub (a b : double) : double := SpecFloat.SFsub 53 1024 a b.

(** The quotient of two positive integers, rounded once. *)
Definition double_of_ratio (negative : bool) (m d : Z) : double :=
  let '(q, e, l) := SpecFloat.SFdiv_core_binary 53 1024 m 0 d 0 in
  SpecFloat.binary_round_aux 53 1024 negative q e l.

(** The value [m * 10^e] of a decimal literal that has [n] digits. *)
Definition decimal_value (negative : bool) (m e n : Z) : double :=
  if m =? 0 then SpecFloat.S754_zero negative
  else if 400 <? e then SpecFloat.S754_infinity negative
  else if e + n <? -400 then SpecFloat.S754_zero negative
  else if 0 <=? e
  then SpecFloat.binary_normalize 53 1024
         (if negative then - (m * 10 ^ e) else m * 10 ^ e) 0 false
  else double_of_ratio negative m (10 ^ (- e)).

(** ToIntegerOrInfinity of a finite value: the fraction is dropped. *)
Definition double_trunc (x : double) : option Z :=
  match x with
  | SpecFloat.S754_zero _ => Some 0
  | SpecFloat.S754_finite negative m e =>
      let a := if 0 <=? e then Z.pos m * 2 ^ e else Z.pos m / 2 ^ (- e) in
      Some (if negative then - a else a)
  | _ => None
  end.

Definition is_digit (c : ascii) : bool :=
  (48 <=? char_code c) && (char_code c <=? 57).

(** The longest prefix of characters that satisfy [p], and the rest. *)
Fixpoint span (p : ascii -> bool) (s : string) : string * string :=
  match s with
  | String c r =>
      if p c then let '(a, b) := span p r in (String c a, b)
      else (EmptyString, s)
  | EmptyString => (EmptyString, EmptyString)
  end.

Fixpoint all_digits (radix : Z) (s : string) : bool :=
  match s with
  | String c r =>
      match digit_value radix c with
      | Some _ => all_digits radix r
      | None => false
      end
  | EmptyString => true
  end.

(** The digits after [0x], [0o] or [0b]. *)
Definition integer_literal (radix : Z) (s : string) : double :=
  if negb (String.eqb s "") && all_digits radix s
  then double_of_Z (read_digits radix s 0)
  else SpecFloat.S754_nan.

(** The exponent after [e] or [E]: an optional sign and at least one
    digit. *)
Definition exponent_part (s : string) : option Z :=
  let '(negative, r) :=
    match s with
    | String "-"%char r => (true, r)
    | String "+"%char r => (false, r)
    | _ => (false, s)
    end in
  let '(ds, rest) := span is_digit r in
  if String.eqb ds "" || negb (String.eqb rest "") then None
  else Some (if negative then - read_digits 10 ds 0 else read_digits 10 ds 0).

(** A signed decimal literal: [Infinity], or digits with an optional
    fraction and an optional exponent, with a digit on one side of the
    point at least. *)
Definition decimal_literal (s : string) : double :=
  let '(negative, u) :=
    match s with
    | String "-"%char r => (true, r)
    | String "+"%char r => (false, r)
    | _ => (false, s)
    end in
  if String.eqb u "Infinity" then SpecFloat.S754_infinity negative
  else
    let '(ip, r1) := span is_digit u in
    let '(fp, r2) :=
      match r1 with
      | String "."%char r => span is_digit r
      | _ => (EmptyString, r1)
      end in
    if String.eqb ip "" && String.eqb fp "" then SpecFloat.S754_nan
    else
      let exponent :=
        match r2 with
        | EmptyString => Some 0
        | String c r =>
            if Ascii.eqb c "e" || Ascii.eqb c "E" then exponent_part r
            else None
        end in
      match exponent with
      | Some e =>
          decimal_value negative (read_digits 10 (ip +:+ fp) 0)
                        (e - str_length fp) (str_length (ip +:+ fp))
      | None => SpecFloat.S754_nan
      end.

(** StringToNumber: white space is stripped at both ends; the empty string
    is 0; what is not a numeric literal is [NaN]. *)
Definition string_to_number (s : string) : double :=
  let t := trim s in
  match t with
  | EmptyString => SpecFloat.S754_zero false
  | String "0"%char (String c r) =>
      if Ascii.eqb c "x" || Ascii.eqb c "X" then integer_literal 16 r
      else if Ascii.eqb c "o" || Ascii.eqb c "O" then integer_literal 8 r
      else if Ascii.eqb c "b" || Ascii.eqb c "B" then integer_literal 2 r
      else decimal_literal t
  | _ => decimal_literal t
  end.

(** ToNumber; an array goes through its text, and a plain object is
    [NaN]. *)
Definition to_number (v : jsval) : double :=
  match v with
  | JUndefined | JNaN | JObj _ => SpecFloat.S754_nan
  | JNull | JBool false => SpecFloat.S754_zero false
  | JBool true => double_of_Z 1
  | JNum z => double_of_Z z
  | JInf negative => SpecFloat.S754_infinity negative
  | JStr s => string_to_number s
  | JArr _ => string_to_number (to_string v)
  end.

(** [d.getDate()], the server clock running in UTC. *)
Definition day_of_month (t : Z) : Z :=
  let '(_, _, d) := civil_from_days (t / ms_per_day) in d.

(** [d.setDate(d.getDate() - days)], the server clock running in UTC:
    [days] is coerced to a number and the difference loses its fraction;
    the date then moves to that day of the month, counted from the
    month it is in.  A difference that is not finite invalidates the
    date. *)
Definition days_before (d : date) (days : jsval) : date :=
  match d with
  | Some t =>
      match to_number days with
      | SpecFloat.S754_nan | SpecFloat.S754_infinity _ => None
      | x =>
          let day := day_of_month t in
          match double_trunc (double_sub (double_of_Z day) x) with
          | Some dt => make_date (t + (dt - day) * ms_per_day)
          | None => None
          end
      end
  | None => None
  end.

(* ===================================================================== *)
(** * The process state and the monad of handlers *)
(* ===================================================================== *)

(** A thrown or returned error; the handlers read its [message] only. *)
Record jserror : Type := Error { err_message : string }.

(** ** The hosted database client: queries as the builder assembles them *)

Inductive row_filter : Type :=
  | Eq (column : string) (value : jsval)
  | Gte (column : string) (value : jsval)
  | OrFilter (conditions : string).

Inductive operation : Type :=
  | Select (columns : string)
  | Insert (record : jsobj)
  | Update (changes : jsobj)
  | Delete.

Record store_query : Type := StoreQuery {
  q_table : string;
  q_operation : operation;
  q_filters : list row_filter;
  q_order : option (string * bool);
  q_returning : bool
}.

(** The builder methods of the client [supabase]. *)
Module supabase.

(** [supabase.from(table).select(columns)] and the like. *)
Definition from (table : string) (op : operation) : store_query :=
  {| q_table := table; q_operation := op; q_filters := [];
     q_order := None; q_returning := false |}.

Definition add_filter (f : row_filter) (q : store_query) : store_query :=
  {| q_table := q_table q; q_operation := q_operation q;
     q_filters := q_filters q ++ [f];
     q_order := q_order q; q_returning := q_returning q |}.

(** [.eq(column, value)], [.gte(column, value)], [.or(conditions)] *)
Definition eq (column : string) (value : jsval) : store_query -> store_query :=
  add_filter (Eq column value).
Definition gte (column : string) (value : jsval) : store_query -> store_query :=
  add_filter (Gte column value).
Definition or (conditions : string) : store_query -> store_query :=
  add_filter (OrFilter conditions).

(** [.order(column, { ascending })] *)
Definition order (column : string) (ascending : bool) (q : store_query) : store_query :=
  {| q_table := q_table q; q_operation := q_operation q;
     q_filters := q_filters q;
     q_order := Some (column, ascending); q_returning := q_returning q |}.

(** [.select()] after [insert] or [update]: return the affected rows. *)
Definition returning (q : store_query) : store_query :=
  {| q_table := q_table q; q_operation := q_operation q;
     q_filters := q_filters q;
     q_order := q_order q; q_returning := true |}.

End supabase.

(** ** The state *)

(** What the network does to one request to the database service: it goes
    through, the service answers with an error, or the call itself throws. *)
Inductive fault : Type :=
  | NoFault
  | Rejected (e : jserror)
  | Broken (e : jserror).

(** What the generation service does with one prompt. *)
Inductive reply : Type :=
  | Generated (text : string)
  | Failed (e : jserror).

(** Requests that left the process. *)
Inductive event : Type :=
  | StoreRequest (q : store_query)
  | GenerateContent (prompt : string).

(** The singleton of server/config/gemini.js. *)
Record gemini_service : Type := GeminiInstance {
  apiKey : option string;
  genAI : option string;
  model : option string
}.

(** The hosted database: its tables, and the next identifier it hands out. *)
Record database : Type := Database {
  tables : gmap string (list jsobj);
  next_id : Z
}.

(** The process and its surroundings.  [faults], [clock] and [replies] are
    what the surroundings will answer to the next database requests, clock
    readings and prompts; [trace] is what the process has sent so far. *)
Record world : Type := World {
  store : database;
  faults : list fault;
  clock : list Z;
  replies : list reply;
  gemini : gemini_service;
  trace : list event
}.

Definition set_store (d : database) (w : world) : world :=
  {| store := d; faults := faults w; clock := clock w;
     replies := replies w; gemini := gemini w; trace := trace w |}.
Definition set_faults (f : list fault) (w : world) : world :=
  {| store := store w; faults := f; clock := clock w;
     replies := replies w; gemini := gemini w; trace := trace w |}.
Definition set_clock (c : list Z) (w : world) : world :=
  {| store := store w; faults := faults w; clock := c;
     replies := replies w; gemini := gemini w; trace := trace w |}.
Definition set_replies (r : list reply) (w : world) : world :=
  {| store := store w; faults := faults w; clock := clock w;
     replies := r; gemini := gemini w; trace := trace w |}.
Definition log (e : event) (w : world) : world :=
  {| store := store w; faults := faults w; clock := clock w;
     replies := replies w; gemini := gemini w; trace := trace w ++ [e] |}.

(** ** The monad: state passing with exceptions *)

Inductive outcome (A : Type) : Type :=
  | Ret (a : A)
  | Throw (e : jserror).
Arguments Ret {A} a.
Arguments Throw {A} e.

Definition M (A : Type) : Type := world -> outcome A * world.

Definition ret {A} (a : A) : M A := fun w => (Ret a, w).

Definition bind {A B} (m : M A) (k : A -> M B) : M B :=
  fun w => match m w with
           | (Ret a, w') => k a w'
           | (Throw e, w') => (Throw e, w')
           end.

(** [throw e] *)
Definition throw {A} (e : jserror) : M A := fun w => (Throw e, w).

(** [try { body } catch (error) { handler }] *)
Definition try_catch {A} (body : M A) (handler : jserror -> M A) : M A :=
  fun w => match body w with
           | (Ret a, w') => (Ret a, w')
           | (Throw e, w') => handler e w'
           end.

Declare Scope js_scope.
Delimit Scope js_scope with js.
Notation "x <- m ;; k" := (bind m (fun x => k))
  (at level 100, m at next level, right associativity) : js_scope.
#[local] Open Scope js_scope.

(** [new Date()]: the next clock reading, which is a valid date. *)
Definition new_Date : M date :=
  fun w => (Ret (Some (default 0 (head (clock w)))), set_clock (tail (clock w)) w).

(** [d.toISOString()] throws a RangeError on an invalid date. *)
Definition toISOString (d : date) : M jsval :=
  match d with
  | Some t => ret (JStr (iso_string t))
  | None => throw (Error "Invalid time value")
  end.

(** [new Date().toISOString()] *)
Definition now_iso : M jsval := d <- new_Date ;; toISOString d.

(* ===================================================================== *)
(** * The hosted database *)
(* ===================================================================== *)

(** Modelled from the spec: the hosted relational database behind the
    client library, which is not part of the repository.  Section 4.1 of
    the specification fixes what the four kinds of request do: a selection
    returns the rows that satisfy every filter; an insertion stores one
    record and returns it with its generated identifier; an update changes
    the rows whose [id] matches and returns them, an empty sequence when
    none matches; a deletion removes the matching rows and is not an error
    when none matches.  Column defaults other than the identifier and the
    triggers of the schema are left out. *)

(** The body of a request is JSON: properties that are [undefined] are
    not sent. *)
Definition is_defined (v : jsval) : bool :=
  match v with
  | JUndefined => false
  | _ => true
  end.

Definition serialise (r : jsobj) : jsobj :=
  filter (fun kv => is_defined kv.2 = true) r.

Definition to_lower (c : ascii) : ascii :=
  let n := char_code c in
  if (65 <=? n) && (n <=? 90) then ascii_of_N (Z.to_N (n + 32)) else c.

Definition any_char : regex := RClass (fun _ => true).

(** The pattern language of [ilike]: [%] (also written [*]) stands for any
    sequence of characters, [_] for any one character; letters match
    without regard to case. *)
Fixpoint like_regex (pattern : string) : regex :=
  match pattern with
  | EmptyString => REps
  | String c rest =>
      RCat (if Ascii.eqb c "%" || Ascii.eqb c "*" then RStar any_char
            else if Ascii.eqb c "_" then any_char
            else RClass (fun x => Ascii.eqb (to_lower x) (to_lower c)))
           (like_regex rest)
  end.

Definition ilike (pattern : string) (v : jsval) : bool :=
  match v with
  | JStr s => matches (like_regex pattern) s
  | _ => false
  end.

Fixpoint split (sep : ascii) (s : string) : list string :=
  match s with
  | EmptyString => [EmptyString]
  | String c s' =>
      if Ascii.eqb c sep then EmptyString :: split sep s'
      else match split sep s' with
           | h :: t => String c h :: t
           | [] => [String c EmptyString]
           end
  end.

(** One condition [column.ilike.pattern] of an [or] filter. *)
Definition parse_condition (c : string) : option (string * string) :=
  match split "." c with
  | column :: op :: p :: ps =>
      if String.eqb op "ilike" then Some (column, String.concat "." (p :: ps))
      else None
  | _ => None
  end.

Definition well_formed (f : row_filter) : bool :=
  match f with
  | OrFilter conditions =>
      forallb (fun c => bool_decide (is_Some (parse_condition c)))
              (split "," conditions)
  | _ => true
  end.

(** Does the row satisfy the filter?  Filter values travel as text, and a
    column that is null satisfies no comparison. *)
Definition row_matches (f : row_filter) (r : jsobj) : bool :=
  match f with
  | Eq column value =>
      match get r column with
      | JUndefined | JNull => false
      | x => String.eqb (to_string x) (to_string value)
      end
  | Gte column value =>
      match get r column with
      | JUndefined | JNull => false
      | x => String.leb (to_string value) (to_string x)
      end
  | OrFilter conditions =>
      existsb (fun c => match parse_condition c with
                        | Some (column, pattern) => ilike pattern (get r column)
                        | None => false
                        end)
              (split "," conditions)
  end.

Definition hit (q : store_query) (r : jsobj) : bool :=
  forallb (fun f => row_matches f r) (q_filters q).

Fixpoint insert_sorted (le : jsobj -> jsobj -> bool) (r : jsobj)
    (l : list jsobj) : list jsobj :=
  match l with
  | [] => [r]
  | x :: l' => if le r x then r :: l else x :: insert_sorted le r l'
  end.

Definition sort_rows (o : option (string * bool)) (rows : list jsobj)
    : list jsobj :=
  match o with
  | None => rows
  | Some (column, ascending) =>
      let key r := to_string (get r column) in
      let le a b := if ascending then String.leb (key a) (key b)
                    else String.leb (key b) (key a) in
      foldr (insert_sorted le) [] rows
  end.

Definition rows_of (d : database) (table : string) : list jsobj :=
  default [] (tables d !! table).

(** The answer of the database to a request, and its next state.  A
    selection that asks for no order is answered in the order of the stored
    list.  The specification leaves that order to the database: the order
    of the list stands for the order of the one answer at hand, and the
    properties below compare the rows of two answers only under the
    hypothesis that both came in the same order. *)
Definition exec (q : store_query) (d : database)
    : jserror + (jsval * database) :=
  if negb (forallb well_formed (q_filters q))
  then inl (Error "failed to parse logic tree")
  else
    let rows := rows_of d (q_table q) in
    match q_operation q with
    | Select _ =>
        inr (JArr (JObj <$> sort_rows (q_order q) (List.filter (hit q) rows)), d)
    | Insert record =>
        let row := serialise record ∪ {[ "id" := JStr (decimal (next_id d)) ]} in
        inr (if q_returning q then JArr [JObj row] else JNull,
             {| tables := <[q_table q := rows ++ [row]]> (tables d);
                next_id := next_id d + 1 |})
    | Update changes =>
        let change r := serialise changes ∪ r in
        inr (if q_returning q
             then JArr (JObj <$> (change <$> List.filter (hit q) rows))
             else JNull,
             {| tables := alter (map (fun r => if hit q r then change r else r))
                                (q_table q) (tables d);
                next_id := next_id d |})
    | Delete =>
        inr (JNull,
             {| tables := alter (List.filter (fun r => negb (hit q r)))
                                (q_table q) (tables d);
                next_id := next_id d |})
    end.

(** The [{ data, error }] objects of the client and of every layer above. *)
Record result : Type := Result {
  data : jsval;
  error : option jserror
}.

(** What happens to the next request to the database: the head of
    [faults]; once the list is used up every request goes through. *)
Definition next_fault (w : world) : fault := default NoFault (head (faults w)).

(** The state once a request has left the process. *)
Definition sent (q : store_query) (w : world) : world :=
  set_faults (tail (faults w)) (log (StoreRequest q) w).

(** [await query]: the request leaves the process and [next_fault] says
    whether it reaches the database. *)
Definition send (q : store_query) : M result :=
  fun w =>
    match next_fault w with
    | Broken e => (Throw e, sent q w)
    | Rejected e => (Ret {| data := JNull; error := Some e |}, sent q w)
    | NoFault =>
        match exec q (store w) with
        | inl e => (Ret {| data := JNull; error := Some e |}, sent q w)
        | inr (rows, d) =>
            (Ret {| data := rows; error := None |}, set_store d (sent q w))
        end
    end.

(* ===================================================================== *)
(** * server/config/supabase.js: [dbHelpers] *)
(* ===================================================================== *)

Module dbHelpers.

Definition select (table columns : string) (filters : jsobj) : M result :=
  try_catch
    (let query :=
       foldl (fun q '(key, value) =>
                if negb (strict_eq value JUndefined) && negb (strict_eq value JNull)
                then supabase.eq key value q else q)
             (supabase.from table (Select columns))
             (map_to_list filters) in
     r <- send query ;;
     match error r with
     | Some e => throw e
     | None => ret {| data := data r; error := None |}
     end)
    (fun e => ret {| data := JNull; error := Some e |}).

Definition insert (table : string) (record : jsobj) : M result :=
  try_catch
    (r <- send (supabase.returning (supabase.from table (Insert record))) ;;
     match error r with
     | Some e => throw e
     | None => ret {| data := data r; error := None |}
     end)
    (fun e => ret {| data := JNull; error := Some e |}).

Definition update (table : string) (id : jsval) (changes : jsobj) : M result :=
  try_catch
    (r <- send (supabase.returning
                  (supabase.eq "id" id (supabase.from table (Update changes)))) ;;
     match error r with
     | Some e => throw e
     | None => ret {| data := data r; error := None |}
     end)
    (fun e => ret {| data := JNull; error := Some e |}).

(** [delete] answers [{ error }]: there is no [data] property. *)
Definition delete (table : string) (id : jsval) : M result :=
  try_catch
    (r <- send (supabase.eq "id" id (supabase.from table Delete)) ;;
     match error r with
     | Some e => throw e
     | None => ret {| data := JUndefined; error := None |}
     end)
    (fun e => ret {| data := JUndefined; error := Some e |}).

End dbHelpers.

(** [a[0]] where [a] is an array. *)
Definition first (v : jsval) : jsval :=
  match v with
  | JArr (x :: _) => x
  | _ => JUndefined
  end.

(** [v.k]: reading a property of [undefined] or [null] throws a TypeError. *)
Definition prop (v : jsval) (k : string) : M jsval :=
  match v with
  | JObj o => ret (get o k)
  | JUndefined | JNull =>
      throw (Error ("Cannot read properties of " +:+ to_string v
                    +:+ " (reading '" +:+ k +:+ "')"))
  | _ => ret JUndefined
  end.

(* ===================================================================== *)
(** * server/models/Dish.js *)
(* ===================================================================== *)

Module DishModel.

Definition tableName : string := "dishes".

(** [getAll(category = null)] *)
Definition getAll (category : jsval) : M result :=
  let category := match category with JUndefined => JNull | c => c end in
  let filters := if truthy category then obj [("category", category)] else obj [] in
  dbHelpers.select tableName "*" filters.

Definition getById (id : jsval) : M result :=
  r <- dbHelpers.select tableName "*" (obj [("id", id)]) ;;
  ret {| data := if truthy (data r) then first (data r) else JNull;
         error := error r |}.

(** The object literal reads its properties in order, outside any [try]:
    on [null] or [undefined] the first read throws. *)
Definition create (dishData : jsval) : M result :=
  title <- prop dishData "title" ;;
  description <- prop dishData "description" ;;
  category <- prop dishData "category" ;;
  image_url <- prop dishData "image_url" ;;
  price <- prop dishData "price" ;;
  ingredients <- prop dishData "ingredients" ;;
  is_featured <- prop dishData "is_featured" ;;
  is_available <- prop dishData "is_available" ;;
  created_at <- now_iso ;;
  updated_at <- now_iso ;;
  let dish := obj [
    ("title", title);
    ("description", description);
    ("category", category);
    ("image_url", js_or image_url JNull);
    ("price", js_or price JNull);
    ("ingredients", js_or ingredients (JArr []));
    ("is_featured", js_or is_featured (JBool false));
    ("is_available", JBool (negb (strict_eq is_available (JBool false))));
    ("created_at", created_at);
    ("updated_at", updated_at) ] in
  dbHelpers.insert tableName dish.

Definition update (id : jsval) (dishData : jsobj) : M result :=
  updated_at <- now_iso ;;
  let updateData := <["updated_at" := updated_at]> dishData in
  dbHelpers.update tableName id updateData.

Definition delete (id : jsval) : M result :=
  dbHelpers.delete tableName id.

Definition getByCategory (category : jsval) : M result :=
  dbHelpers.select tableName "*" (obj [("category", category)]).

Definition getFeatured : M result :=
  dbHelpers.select tableName "*" (obj [("is_featured", JBool true)]).

Definition getAvailable : M result :=
  dbHelpers.select tableName "*" (obj [("is_available", JBool true)]).

Definition search (searchTerm : jsval) : M result :=
  try_catch
    (r <- send (supabase.or
                  ("title.ilike.%" +:+ to_string searchTerm
                   +:+ "%,description.ilike.%" +:+ to_string searchTerm +:+ "%")
                  (supabase.from tableName (Select "*"))) ;;
     match error r with
     | Some e => throw e
     | None => ret {| data := data r; error := None |}
     end)
    (fun e => ret {| data := JNull; error := Some e |}).

End DishModel.

(* ===================================================================== *)
(** * server/models/Contact.js *)
(* ===================================================================== *)

Module ContactModel.

Definition tableName : string := "contact_messages".

(** The object literal reads its properties in order, outside any [try]:
    on [null] or [undefined] the first read throws. *)
Definition create (contactData : jsval) : M result :=
  name <- prop contactData "name" ;;
  email <- prop contactData "email" ;;
  phone <- prop contactData "phone" ;;
  eventType <- prop contactData "eventType" ;;
  guests <- prop contactData "guests" ;;
  preferred_date <- prop contactData "date" ;;
  message <- prop contactData "message" ;;
  created_at <- now_iso ;;
  updated_at <- now_iso ;;
  let contact := obj [
    ("name", name);
    ("email", email);
    ("phone", js_or phone JNull);
    ("event_type", js_or eventType JNull);
    ("guests", js_or guests JNull);
    ("preferred_date", js_or preferred_date JNull);
    ("message", message);
    ("status", JStr "new");
    ("created_at", created_at);
    ("updated_at", updated_at) ] in
  dbHelpers.insert tableName contact.

(** [getAll(status = null)] *)
Definition getAll (status : jsval) : M result :=
  let status := match status with JUndefined => JNull | s => s end in
  let filters := if truthy status then obj [("status", status)] else obj [] in
  dbHelpers.select tableName "*" filters.

Definition getById (id : jsval) : M result :=
  r <- dbHelpers.select tableName "*" (obj [("id", id)]) ;;
  ret {| data := if truthy (data r) then first (data r) else JNull;
         error := error r |}.

Definition updateStatus (id status : jsval) : M result :=
  updated_at <- now_iso ;;
  let updateData := obj [("status", status); ("updated_at", updated_at)] in
  dbHelpers.update tableName id updateData.

Definition delete (id : jsval) : M result :=
  dbHelpers.delete tableName id.

Definition getByStatus (status : jsval) : M result :=
  dbHelpers.select tableName "*" (obj [("status", status)]).

(** [getRecent(days = 30)] *)
Definition getRecent (days : jsval) : M result :=
  let days := match days with JUndefined => JNum 30 | d => d end in
  try_catch
    (today <- new_Date ;;
     let dateThreshold := days_before today days in
     threshold <- toISOString dateThreshold ;;
     r <- send (supabase.order "created_at" false
                  (supabase.gte "created_at" threshold
                     (supabase.from tableName (Select "*")))) ;;
     match error r with
     | Some e => throw e
     | None => ret {| data := data r; error := None |}
     end)
    (fun e => ret {| data := JNull; error := Some e |}).

Definition search (searchTerm : jsval) : M result :=
  try_catch
    (r <- send (supabase.order "created_at" false
                  (supabase.or
                     ("name.ilike.%" +:+ to_string searchTerm
                      +:+ "%,email.ilike.%" +:+ to_string searchTerm +:+ "%")
                     (supabase.from tableName (Select "*")))) ;;
     match error r with
     | Some e => throw e
     | None => ret {| data := data r; error := None |}
     end)
    (fun e => ret {| data := JNull; error := Some e |}).

End ContactModel.

(* ===================================================================== *)
(** * server/config/gemini.js *)
(* ===================================================================== *)

Definition nl : string := String "010"%char EmptyString.
Definition dq : string := String "034"%char EmptyString.

(** The text of a template literal that spans several lines. *)
Definition lines (l : list string) : string := String.concat nl l.

(** [l.join(sep)] *)
Definition join (sep : string) (l : list jsval) : string :=
  String.concat sep
    (map (fun x => match x with
                   | JUndefined | JNull => EmptyString
                   | _ => to_string x
                   end) l).

(** [v.length > 0] *)
Definition has_length (v : jsval) : M bool :=
  match v with
  | JArr l => ret (negb (bool_decide (l = [])))
  | JStr s => ret (negb (String.eqb s ""))
  | _ => len <- prop v "length" ;; ret (js_lt (JNum 0) len)
  end.

Module GeminiService.

(** The constructor, run once when the module is loaded; [key] is
    [process.env.GEMINI_API_KEY]. *)
Definition new (key : option string) : gemini_service :=
  let apiKey := key in
  if negb (truthy (from_option JStr JUndefined apiKey))
  then {| apiKey := apiKey; genAI := None; model := None |}
  else {| apiKey := apiKey; genAI := apiKey; model := Some "gemini-1.5-flash" |}.

Definition isAvailable : M bool :=
  fun w => (Ret (bool_decide (genAI (gemini w) ≠ None)), w).

(** [await this.model.generateContent(prompt)], then the text of the
    response: the prompt leaves the process. *)
Definition generateContent (prompt : string) : M string :=
  fun w =>
    match model (gemini w) with
    | None =>
        (Throw (Error "Cannot read properties of undefined (reading 'generateContent')"), w)
    | Some _ =>
        let w1 := log (GenerateContent prompt) w in
        match replies w1 with
        | Generated text :: rest => (Ret text, set_replies rest w1)
        | Failed e :: rest => (Throw e, set_replies rest w1)
        | [] => (Throw (Error "fetch failed"), w1)
        end
    end.

Definition systemContext : string :=
  lines [
    "";
    "You are a helpful AI assistant for " +:+ dq +:+ "Culinary Creations" +:+ dq
      +:+ ", a premium food portfolio website. ";
    "Your role is to help customers with:";
    "- Information about our dishes and menu items";
    "- Culinary advice and cooking tips";
    "- Event planning and catering inquiries";
    "- Food recommendations based on preferences";
    "- General information about our services";
    "";
    "Always be friendly, professional, and knowledgeable about food and cooking.";
    "If asked about specific dishes, refer to the portfolio context provided.";
    "If you don't know something specific about our business, politely redirect them to contact us directly.";
    "" ].

(** The body of [portfolioContext.forEach(dish => ...)]. *)
Fixpoint menu_items (dishes : list jsval) : M string :=
  match dishes with
  | [] => ret EmptyString
  | dish :: rest =>
      title <- prop dish "title" ;;
      description <- prop dish "description" ;;
      category <- prop dish "category" ;;
      more <- menu_items rest ;;
      ret ("- " +:+ to_string title +:+ ": " +:+ to_string description
           +:+ " (" +:+ to_string category +:+ ")" +:+ nl +:+ more)
  end.

(** [generateResponse(message, portfolioContext = null)] *)
Definition generateResponse (message portfolioContext : jsval) : M jsobj :=
  let portfolioContext :=
    match portfolioContext with JUndefined => JNull | c => c end in
  available <- isAvailable ;;
  if negb available
  then throw (Error "Gemini AI service is not available. Please check your API key.")
  else
    try_catch
      (let contextPrompt := systemContext in
       nonempty <- (if truthy portfolioContext then has_length portfolioContext
                    else ret false) ;;
       contextPrompt <-
         (if nonempty
          then match portfolioContext with
               | JArr dishes =>
                   items <- menu_items dishes ;;
                   ret (contextPrompt +:+ nl +:+ nl +:+ "Our Current Menu Items:"
                        +:+ nl +:+ items)
               | _ => throw (Error "portfolioContext.forEach is not a function")
               end
          else ret contextPrompt) ;;
       let contextPrompt :=
         contextPrompt +:+ nl +:+ nl +:+ "Customer Question: " +:+ to_string message in
       text <- generateContent contextPrompt ;;
       timestamp <- now_iso ;;
       ret (obj [("success", JBool true); ("message", JStr text);
                 ("timestamp", timestamp)]))
      (fun e =>
         if includes (err_message e) "API_KEY_INVALID"
         then throw (Error "Invalid Gemini API key. Please check your configuration.")
         else if includes (err_message e) "RATE_LIMIT_EXCEEDED"
         then throw (Error "Rate limit exceeded. Please try again later.")
         else throw (Error "Failed to generate response. Please try again.")).

(** [generateFoodRecommendation(preferences, dietaryRestrictions = [])] *)
Definition generateFoodRecommendation (preferences dietaryRestrictions : jsval)
    : M jsobj :=
  let dietaryRestrictions :=
    match dietaryRestrictions with JUndefined => JArr [] | r => r end in
  available <- isAvailable ;;
  if negb available
  then throw (Error "Gemini AI service is not available.")
  else
    try_catch
      (nonempty <- has_length dietaryRestrictions ;;
       restrictions <-
         (if nonempty
          then match dietaryRestrictions with
               | JArr l => ret (join ", " l)
               | _ => throw (Error "dietaryRestrictions.join is not a function")
               end
          else ret "None") ;;
       let prompt := lines [
         "";
         "As a culinary expert for Culinary Creations, recommend dishes based on these preferences:";
         "- Customer preferences: " +:+ to_string preferences;
         "- Dietary restrictions: " +:+ restrictions;
         "";
         "Please provide 2-3 specific dish recommendations with brief descriptions.";
         "Focus on dishes that would fit our upscale food portfolio.";
         "Be creative but realistic for a premium restaurant.";
         "" ] in
       text <- generateContent prompt ;;
       timestamp <- now_iso ;;
       ret (obj [("success", JBool true); ("recommendations", JStr text);
                 ("timestamp", timestamp)]))
      (fun _ => throw (Error "Failed to generate food recommendations.")).

Definition generateCookingTip (topic : jsval) : M jsobj :=
  available <- isAvailable ;;
  if negb available
  then throw (Error "Gemini AI service is not available.")
  else
    try_catch
      (let prompt := lines [
         "";
         "As a professional chef from Culinary Creations, provide a helpful cooking tip about: "
           +:+ to_string topic;
         "";
         "Make it practical, professional, and suitable for both home cooks and culinary enthusiasts.";
         "Keep it concise but informative.";
         "" ] in
       text <- generateContent prompt ;;
       timestamp <- now_iso ;;
       ret (obj [("success", JBool true); ("tip", JStr text);
                 ("timestamp", timestamp)]))
      (fun _ => throw (Error "Failed to generate cooking tip.")).

Definition testConnection : M jsobj :=
  available <- isAvailable ;;
  if negb available
  then ret (obj [("success", JBool false);
                 ("message", JStr "Gemini API key not configured")])
  else
    try_catch
      (text <- generateContent "Hello! Please respond with a brief greeting." ;;
       ret (obj [("success", JBool true);
                 ("message", JStr "Gemini AI connection successful");
                 ("testResponse", JStr text)]))
      (fun e =>
         ret (obj [("success", JBool false);
                   ("message", JStr "Failed to connect to Gemini AI");
                   ("error", JStr (err_message e))])).

End GeminiService.

(* ===================================================================== *)
(** * Requests and responses *)
(* ===================================================================== *)

(** [req.params], [req.query] and [req.body]; the values of a query string
    are strings. *)
Record request : Type := Request {
  params : jsobj;
  query : jsobj;
  body : jsobj
}.

Record response : Type := Response {
  status : Z;
  json : jsobj
}.

(** [res.status(code).json({ ... })] *)
Definition respond (code : Z) (fields : list (string * jsval)) : M response :=
  ret {| status := code; json := obj fields |}.

(** [result.error.message] *)
Definition error_message (e : jserror) : jsval := JStr (err_message e).

(** The elements of [result.data], which is an array or null. *)
Definition elements (v : jsval) : list jsval :=
  match v with
  | JArr l => l
  | _ => []
  end.

(** [result.data[0]]: indexing [null] throws a TypeError. *)
Definition first_of (v : jsval) : M jsval :=
  match v with
  | JUndefined | JNull =>
      throw (Error ("Cannot read properties of " +:+ to_string v +:+ " (reading '0')"))
  | _ => ret (first v)
  end.

(** [v.trim()] *)
Definition js_trim (v : jsval) : M string :=
  match v with
  | JStr s => ret (trim s)
  | JUndefined | JNull =>
      throw (Error ("Cannot read properties of " +:+ to_string v +:+ " (reading 'trim')"))
  | _ => throw (Error "trim is not a function")
  end.

(** [!v || v.trim().length === 0] *)
Definition blank (v : jsval) : M bool :=
  if negb (truthy v) then ret true
  else s <- js_trim v ;; ret (str_length s =? 0).

(** The properties every object inherits from [Object.prototype]; they are
    functions, so that [o[k]++] on one of them stores [NaN] in [o]. *)
Definition object_prototype_keys : list string :=
  ["constructor"; "toString"; "toLocaleString"; "valueOf"; "hasOwnProperty";
   "isPrototypeOf"; "propertyIsEnumerable"; "__defineGetter__";
   "__defineSetter__"; "__lookupGetter__"; "__lookupSetter__"].

(** [if (counts[key] !== undefined) counts[key]++] *)
Definition count (counts : jsobj) (key : jsval) : jsobj :=
  let k := to_string key in
  match counts !! k with
  | Some v => if strict_eq v JUndefined then counts
              else <[k := js_add v (JNum 1)]> counts
  | None => if bool_decide (k ∈ object_prototype_keys)
            then <[k := JNaN]> counts else counts
  end.

(** [rows.forEach(row => { if (counts[row.k] !== undefined) counts[row.k]++ })] *)
Fixpoint count_by (k : string) (rows : list jsval) (counts : jsobj) : M jsobj :=
  match rows with
  | [] => ret counts
  | row :: rest => key <- prop row k ;; count_by k rest (count counts key)
  end.

(* ===================================================================== *)
(** * server/controllers/portfolioController.js *)
(* ===================================================================== *)

Module PortfolioController.

Definition internal_error (e : jserror) : M response :=
  respond 500 [("success", JBool false);
               ("message", JStr "Internal server error");
               ("error", error_message e)].

Definition getAllDishes (req : request) : M response :=
  try_catch
    (let category := get (query req) "category" in
     let featured := get (query req) "featured" in
     let available := get (query req) "available" in
     let search := get (query req) "search" in
     result <-
       (if truthy search then DishModel.search search
        else if strict_eq featured (JStr "true") then DishModel.getFeatured
        else if strict_eq available (JStr "true") then DishModel.getAvailable
        else if truthy category then DishModel.getByCategory category
        else DishModel.getAll JUndefined) ;;
     match error result with
     | Some e =>
         respond 500 [("success", JBool false);
                      ("message", JStr "Error fetching dishes");
                      ("error", error_message e)]
     | None =>
         respond 200 [("success", JBool true);
                      ("data", js_or (data result) (JArr []));
                      ("count", if truthy (data result)
                                then arr_length (elements (data result))
                                else JNum 0)]
     end)
    internal_error.

Definition getDishById (req : request) : M response :=
  try_catch
    (let id := get (params req) "id" in
     result <- DishModel.getById id ;;
     match error result with
     | Some e =>
         respond 500 [("success", JBool false);
                      ("message", JStr "Error fetching dish");
                      ("error", error_message e)]
     | None =>
         if negb (truthy (data result))
         then respond 404 [("success", JBool false);
                           ("message", JStr "Dish not found")]
         else respond 200 [("success", JBool true); ("data", data result)]
     end)
    internal_error.

Definition createDish (req : request) : M response :=
  try_catch
    (let dishData := body req in
     if negb (truthy (get dishData "title"))
        || negb (truthy (get dishData "description"))
        || negb (truthy (get dishData "category"))
     then respond 400 [("success", JBool false);
                       ("message", JStr "Title, description, and category are required")]
     else
       result <- DishModel.create (JObj dishData) ;;
       match error result with
       | Some e =>
           respond 500 [("success", JBool false);
                        ("message", JStr "Error creating dish");
                        ("error", error_message e)]
       | None =>
           created <- first_of (data result) ;;
           respond 201 [("success", JBool true);
                        ("message", JStr "Dish created successfully");
                        ("data", created)]
       end)
    internal_error.

Definition updateDish (req : request) : M response :=
  try_catch
    (let id := get (params req) "id" in
     let dishData := body req in
     result <- DishModel.update id dishData ;;
     match error result with
     | Some e =>
         respond 500 [("success", JBool false);
                      ("message", JStr "Error updating dish");
                      ("error", error_message e)]
     | None =>
         if negb (truthy (data result))
            || strict_eq (arr_length (elements (data result))) (JNum 0)
         then respond 404 [("success", JBool false);
                           ("message", JStr "Dish not found")]
         else
           updated <- first_of (data result) ;;
           respond 200 [("success", JBool true);
                        ("message", JStr "Dish updated successfully");
                        ("data", updated)]
     end)
    internal_error.

Definition deleteDish (req : request) : M response :=
  try_catch
    (let id := get (params req) "id" in
     result <- DishModel.delete id ;;
     match error result with
     | Some e =>
         respond 500 [("success", JBool false);
                      ("message", JStr "Error deleting dish");
                      ("error", error_message e)]
     | None =>
         respond 200 [("success", JBool true);
                      ("message", JStr "Dish deleted successfully")]
     end)
    internal_error.

Definition category (id name description : string) : jsval :=
  JObj (obj [("id", JStr id); ("name", JStr name);
             ("description", JStr description)]).

Definition getCategories (req : request) : M response :=
  try_catch
    (let categories := [
       category "appetizers" "Appetizers" "Start your meal with these delicious options";
       category "mains" "Main Courses" "Our signature main dishes";
       category "desserts" "Desserts" "Sweet endings to your perfect meal";
       category "drinks" "Beverages" "Refreshing drinks and specialty cocktails";
       category "specials" "Chef Specials" "Limited time seasonal offerings" ] in
     respond 200 [("success", JBool true); ("data", JArr categories)])
    internal_error.

(** The three repository calls of [Promise.all] start in this order. *)
Definition getStats (req : request) : M response :=
  try_catch
    (allDishes <- DishModel.getAll JUndefined ;;
     featuredDishes <- DishModel.getFeatured ;;
     availableDishes <- DishModel.getAvailable ;;
     let size r := if truthy (data r) then arr_length (elements (data r))
                   else JNum 0 in
     let categories := obj [("appetizers", JNum 0); ("mains", JNum 0);
                            ("desserts", JNum 0); ("drinks", JNum 0);
                            ("specials", JNum 0)] in
     categories <-
       (if truthy (data allDishes)
        then count_by "category" (elements (data allDishes)) categories
        else ret categories) ;;
     respond 200 [("success", JBool true);
                  ("data", JObj (obj [
                     ("total_dishes", size allDishes);
                     ("featured_dishes", size featuredDishes);
                     ("available_dishes", size availableDishes);
                     ("categories", JObj categories) ]))])
    internal_error.

End PortfolioController.

(* ===================================================================== *)
(** * server/controllers/contactController.js *)
(* ===================================================================== *)

Module ContactController.

Definition internal_error (e : jserror) : M response :=
  respond 500 [("success", JBool false);
               ("message", JStr "Internal server error");
               ("error", error_message e)].

(** [[^\s@]] *)
Definition plain_char (c : ascii) : bool :=
  negb (is_space c) && negb (Ascii.eqb c "@").

(** [/^[^\s@]+@[^\s@]+\.[^\s@]+$/] *)
Definition emailRegex : regex :=
  RCat (RPlus (RClass plain_char))
    (RCat (RChar "@")
       (RCat (RPlus (RClass plain_char))
          (RCat (RChar ".") (RPlus (RClass plain_char))))).

Definition submitContact (req : request) : M response :=
  try_catch
    (let contactData := body req in
     if negb (truthy (get contactData "name"))
        || negb (truthy (get contactData "email"))
        || negb (truthy (get contactData "message"))
     then respond 400 [("success", JBool false);
                       ("message", JStr "Name, email, and message are required")]
     else if negb (regex_test emailRegex (get contactData "email"))
     then respond 400 [("success", JBool false);
                       ("message", JStr "Please provide a valid email address")]
     else
       result <- ContactModel.create (JObj contactData) ;;
       match error result with
       | Some e =>
           respond 500 [("success", JBool false);
                        ("message", JStr "Error submitting contact form");
                        ("error", error_message e)]
       | None =>
           created <- first_of (data result) ;;
           id <- prop created "id" ;;
           name <- prop created "name" ;;
           email <- prop created "email" ;;
           created_at <- prop created "created_at" ;;
           respond 201 [("success", JBool true);
                        ("message", JStr "Thank you for your message! We will get back to you soon.");
                        ("data", JObj (obj [("id", id); ("name", name);
                                            ("email", email);
                                            ("created_at", created_at)]))]
       end)
    internal_error.

Definition getAllMessages (req : request) : M response :=
  try_catch
    (let status := get (query req) "status" in
     let limit := get_default (query req) "limit" (JNum 50) in
     let offset := get_default (query req) "offset" (JNum 0) in
     result <-
       (if truthy status then ContactModel.getByStatus status
        else ContactModel.getAll JUndefined) ;;
     match error result with
     | Some e =>
         respond 500 [("success", JBool false);
                      ("message", JStr "Error fetching contact messages");
                      ("error", error_message e)]
     | None =>
         let startIndex := parseInt offset in
         let endIndex := js_plus startIndex (parseInt limit) in
         let paginatedData :=
           if truthy (data result)
           then slice (elements (data result)) startIndex endIndex
           else [] in
         respond 200 [
           ("success", JBool true);
           ("data", JArr paginatedData);
           ("pagination", JObj (obj [
              ("total", if truthy (data result)
                        then arr_length (elements (data result))
                        else JNum 0);
              ("limit", parseInt limit);
              ("offset", parseInt offset);
              ("has_more", JBool (if truthy (data result)
                                  then js_lt endIndex
                                         (arr_length (elements (data result)))
                                  else false)) ])) ]
     end)
    internal_error.

Definition getMessageById (req : request) : M response :=
  try_catch
    (let id := get (params req) "id" in
     result <- ContactModel.getById id ;;
     match error result with
     | Some e =>
         respond 500 [("success", JBool false);
                      ("message", JStr "Error fetching contact message");
                      ("error", error_message e)]
     | None =>
         if negb (truthy (data result))
         then respond 404 [("success", JBool false);
                           ("message", JStr "Contact message not found")]
         else respond 200 [("success", JBool true); ("data", data result)]
     end)
    internal_error.

Definition validStatuses : list jsval :=
  [JStr "new"; JStr "in_progress"; JStr "completed"; JStr "archived"].

Definition updateMessageStatus (req : request) : M response :=
  try_catch
    (let id := get (params req) "id" in
     let status := get (body req) "status" in
     if negb (existsb (strict_eq status) validStatuses)
     then respond 400 [("success", JBool false);
                       ("message", JStr ("Invalid status. Must be one of: "
                                         +:+ join ", " validStatuses))]
     else
       result <- ContactModel.updateStatus id status ;;
       match error result with
       | Some e =>
           respond 500 [("success", JBool false);
                        ("message", JStr "Error updating message status");
                        ("error", error_message e)]
       | None =>
           if negb (truthy (data result))
              || strict_eq (arr_length (elements (data result))) (JNum 0)
           then respond 404 [("success", JBool false);
                             ("message", JStr "Contact message not found")]
           else
             updated <- first_of (data result) ;;
             respond 200 [("success", JBool true);
                          ("message", JStr "Message status updated successfully");
                          ("data", updated)]
       end)
    internal_error.

Definition deleteMessage (req : request) : M response :=
  try_catch
    (let id := get (params req) "id" in
     result <- ContactModel.delete id ;;
     match error result with
     | Some e =>
         respond 500 [("success", JBool false);
                      ("message", JStr "Error deleting message");
                      ("error", error_message e)]
     | None =>
         respond 200 [("success", JBool true);
                      ("message", JStr "Message deleted successfully")]
     end)
    internal_error.

Definition getRecentMessages (req : request) : M response :=
  try_catch
    (let days := get_default (query req) "days" (JNum 30) in
     result <- ContactModel.getRecent (parseInt days) ;;
     match error result with
     | Some e =>
         respond 500 [("success", JBool false);
                      ("message", JStr "Error fetching recent messages");
                      ("error", error_message e)]
     | None =>
         respond 200 [("success", JBool true);
                      ("data", js_or (data result) (JArr []));
                      ("count", if truthy (data result)
                                then arr_length (elements (data result))
                                else JNum 0);
                      ("days", parseInt days)]
     end)
    internal_error.

Definition searchMessages (req : request) : M response :=
  try_catch
    (let searchTerm := get (query req) "q" in
     if negb (truthy searchTerm)
     then respond 400 [("success", JBool false);
                       ("message", JStr "Search term is required")]
     else
       result <- ContactModel.search searchTerm ;;
       match error result with
       | Some e =>
           respond 500 [("success", JBool false);
                        ("message", JStr "Error searching messages");
                        ("error", error_message e)]
       | None =>
           respond 200 [("success", JBool true);
                        ("data", js_or (data result) (JArr []));
                        ("count", if truthy (data result)
                                  then arr_length (elements (data result))
                                  else JNum 0);
                        ("search_term", searchTerm)]
       end)
    internal_error.

(** The three repository calls of [Promise.all] start in this order. *)
Definition getContactStats (req : request) : M response :=
  try_catch
    (allMessages <- ContactModel.getAll JUndefined ;;
     newMessages <- ContactModel.getByStatus (JStr "new") ;;
     recentMessages <- ContactModel.getRecent (JNum 30) ;;
     let size r := if truthy (data r) then arr_length (elements (data r))
                   else JNum 0 in
     let status_breakdown := obj [("new", JNum 0); ("in_progress", JNum 0);
                                  ("completed", JNum 0); ("archived", JNum 0)] in
     status_breakdown <-
       (if truthy (data allMessages)
        then count_by "status" (elements (data allMessages)) status_breakdown
        else ret status_breakdown) ;;
     respond 200 [("success", JBool true);
                  ("data", JObj (obj [
                     ("total_messages", size allMessages);
                     ("new_messages", size newMessages);
                     ("recent_messages", size recentMessages);
                     ("status_breakdown", JObj status_breakdown) ]))])
    internal_error.

End ContactController.

(* ===================================================================== *)
(** * server/controllers/chatbotController.js *)
(* ===================================================================== *)

Module ChatbotController.

(** [dishesResult.data.map(dish => ({ title, description, category, price }))];
    the result set is an array. *)
Fixpoint context_of (dishes : list jsval) : M (list jsval) :=
  match dishes with
  | [] => ret []
  | dish :: rest =>
      title <- prop dish "title" ;;
      description <- prop dish "description" ;;
      category <- prop dish "category" ;;
      price <- prop dish "price" ;;
      more <- context_of rest ;;
      ret (JObj (obj [("title", title); ("description", description);
                      ("category", category); ("price", price)]) :: more)
  end.

Definition chat (req : request) : M response :=
  try_catch
    (let message := get (body req) "message" in
     let includeContext := get_default (body req) "includeContext" (JBool true) in
     empty <- blank message ;;
     if empty
     then respond 400 [("success", JBool false);
                       ("message", JStr "Message is required")]
     else
       available <- GeminiService.isAvailable ;;
       if negb available
       then respond 503 [("success", JBool false);
                         ("message", JStr "AI chatbot service is currently unavailable. Please contact us directly for assistance.")]
       else
         let portfolioContext := JNull in
         portfolioContext <-
           (if truthy includeContext
            then try_catch
                   (dishesResult <- DishModel.getAvailable ;;
                    if truthy (data dishesResult)
                    then context <- context_of (elements (data dishesResult)) ;;
                         ret (JArr context)
                    else ret portfolioContext)
                   (fun contextError => ret portfolioContext)
            else ret portfolioContext) ;;
         aiResponse <- GeminiService.generateResponse message portfolioContext ;;
         respond 200 [("success", JBool true);
                      ("data", JObj (obj [
                         ("userMessage", message);
                         ("aiResponse", get aiResponse "message");
                         ("timestamp", get aiResponse "timestamp");
                         ("contextIncluded",
                          JBool (negb (strict_eq portfolioContext JNull))) ]))])
    (fun e =>
       respond 500 [("success", JBool false);
                    ("message", js_or (error_message e)
                                  (JStr "Failed to process your message. Please try again."));
                    ("fallbackMessage", JStr "I apologize, but I'm having trouble right now. Please feel free to contact us directly through our contact form for immediate assistance.")]).

Definition getFoodRecommendation (req : request) : M response :=
  try_catch
    (let preferences := get (body req) "preferences" in
     let dietaryRestrictions :=
       get_default (body req) "dietaryRestrictions" (JArr []) in
     empty <- blank preferences ;;
     if empty
     then respond 400 [("success", JBool false);
                       ("message", JStr "Food preferences are required")]
     else
       available <- GeminiService.isAvailable ;;
       if negb available
       then respond 503 [("success", JBool false);
                         ("message", JStr "Recommendation service is currently unavailable")]
       else
         recommendation <-
           GeminiService.generateFoodRecommendation preferences dietaryRestrictions ;;
         respond 200 [("success", JBool true);
                      ("data", JObj (obj [
                         ("preferences", preferences);
                         ("dietaryRestrictions", dietaryRestrictions);
                         ("recommendations", get recommendation "recommendations");
                         ("timestamp", get recommendation "timestamp") ]))])
    (fun e =>
       respond 500 [("success", JBool false);
                    ("message", js_or (error_message e)
                                  (JStr "Failed to generate recommendations"))]).

Definition getCookingTip (req : request) : M response :=
  try_catch
    (let topic := get (body req) "topic" in
     empty <- blank topic ;;
     if empty
     then respond 400 [("success", JBool false);
                       ("message", JStr "Cooking topic is required")]
     else
       available <- GeminiService.isAvailable ;;
       if negb available
       then respond 503 [("success", JBool false);
                         ("message", JStr "Cooking tips service is currently unavailable")]
       else
         tip <- GeminiService.generateCookingTip topic ;;
         respond 200 [("success", JBool true);
                      ("data", JObj (obj [
                         ("topic", topic);
                         ("tip", get tip "tip");
                         ("timestamp", get tip "timestamp") ]))])
    (fun e =>
       respond 500 [("success", JBool false);
                    ("message", js_or (error_message e)
                                  (JStr "Failed to generate cooking tip"))]).

Definition testAI (req : request) : M response :=
  try_catch
    (result <- GeminiService.testConnection ;;
     ret {| status := if truthy (get result "success") then 200 else 503;
            json := result |})
    (fun e =>
       respond 500 [("success", JBool false);
                    ("message", JStr "Failed to test AI connection");
                    ("error", error_message e)]).

Definition capabilities : list jsval :=
  [JStr "General food and cooking questions";
   JStr "Menu item information";
   JStr "Food recommendations";
   JStr "Cooking tips and advice";
   JStr "Event planning assistance"].

Definition getStatus (req : request) : M response :=
  try_catch
    (isAvailable <- GeminiService.isAvailable ;;
     lastUpdated <- now_iso ;;
     respond 200 [("success", JBool true);
                  ("data", JObj (obj [
                     ("aiAvailable", JBool isAvailable);
                     ("capabilities", JArr capabilities);
                     ("apiStatus", JStr (if isAvailable then "connected"
                                         else "disconnected"));
                     ("lastUpdated", lastUpdated) ]))])
    (fun e =>
       respond 500 [("success", JBool false);
                    ("message", JStr "Failed to check chatbot status")]).

Definition getConversationHistory (req : request) : M response :=
  try_catch
    (respond 200 [("success", JBool true);
                  ("data", JObj (obj [
                     ("conversations", JArr []);
                     ("message", JStr "Conversation history feature coming soon") ]))])
    (fun e =>
       respond 500 [("success", JBool false);
                    ("message", JStr "Failed to retrieve conversation history")]).

End ChatbotController.

(* ===================================================================== *)
(** * server/routes/*.js and server/index.js *)
(* ===================================================================== *)

(** The routes of the three routers, as mounted under [/api]. *)
Inductive route : Type :=
  | GET_portfolio | GET_portfolio_stats | GET_portfolio_categories
  | GET_portfolio_id | POST_portfolio | PUT_portfolio_id | DELETE_portfolio_id
  | POST_contact | GET_contact | GET_contact_stats | GET_contact_recent
  | GET_contact_search | GET_contact_id | PUT_contact_id_status
  | DELETE_contact_id
  | POST_chatbot_chat | POST_chatbot_recommend | POST_chatbot_cooking_tip
  | GET_chatbot_status | GET_chatbot_test | GET_chatbot_history.

Definition handler (r : route) : request -> M response :=
  match r with
  | GET_portfolio => PortfolioController.getAllDishes
  | GET_portfolio_stats => PortfolioController.getStats
  | GET_portfolio_categories => PortfolioController.getCategories
  | GET_portfolio_id => PortfolioController.getDishById
  | POST_portfolio => PortfolioController.createDish
  | PUT_portfolio_id => PortfolioController.updateDish
  | DELETE_portfolio_id => PortfolioController.deleteDish
  | POST_contact => ContactController.submitContact
  | GET_contact => ContactController.getAllMessages
  | GET_contact_stats => ContactController.getContactStats
  | GET_contact_recent => ContactController.getRecentMessages
  | GET_contact_search => ContactController.searchMessages
  | GET_contact_id => ContactController.getMessageById
  | PUT_contact_id_status => ContactController.updateMessageStatus
  | DELETE_contact_id => ContactController.deleteMessage
  | POST_chatbot_chat => ChatbotController.chat
  | POST_chatbot_recommend => ChatbotController.getFoodRecommendation
  | POST_chatbot_cooking_tip => ChatbotController.getCookingTip
  | GET_chatbot_status => ChatbotController.getStatus
  | GET_chatbot_test => ChatbotController.testAI
  | GET_chatbot_history => ChatbotController.getConversationHistory
  end.

(** The process serving a sequence of requests, one after the other; the
    responses come out in the same order. *)
Fixpoint serve (requests : list (route * request)) (w : world)
    : list (outcome response) * world :=
  match requests with
  | [] => ([], w)
  | (r, req) :: rest =>
      let '(out, w1) := handler r req w in
      let '(outs, w2) := serve rest w1 in
      (out :: outs, w2)
  end.

(** The state of the process once its modules are loaded: the only thing
    the environment decides is the credential. *)
Definition start (key : option string) (d : database) (f : list fault)
    (c : list Z) (r : list reply) : world :=
  {| store := d; faults := f; clock := c; replies := r;
     gemini := GeminiService.new key; trace := [] |}.

(* ===================================================================== *)
(** * Vocabulary of the properties *)
(* ===================================================================== *)

(** The next request to the database fails with [e]: the service answers
    with that error, or the call itself throws it. *)
Definition store_fails (w : world) (e : jserror) : Prop :=
  next_fault w = Rejected e ∨ next_fault w = Broken e.

(** The next request reaches the database. *)
Definition store_answers (w : world) : Prop := next_fault w = NoFault.

(** Every operation of the data access helper and of the two repositories,
    with its arguments. *)
Inductive store_call : Type :=
  | Helper_select (table columns : string) (filters : jsobj)
  | Helper_insert (table : string) (record : jsobj)
  | Helper_update (table : string) (id : jsval) (changes : jsobj)
  | Helper_delete (table : string) (id : jsval)
  | Dish_getAll (category : jsval)
  | Dish_getById (id : jsval)
  | Dish_create (dishData : jsval)
  | Dish_update (id : jsval) (dishData : jsobj)
  | Dish_delete (id : jsval)
  | Dish_getByCategory (category : jsval)
  | Dish_getFeatured
  | Dish_getAvailable
  | Dish_search (searchTerm : jsval)
  | Contact_create (contactData : jsval)
  | Contact_getAll (status : jsval)
  | Contact_getById (id : jsval)
  | Contact_updateStatus (id status : jsval)
  | Contact_delete (id : jsval)
  | Contact_getByStatus (status : jsval)
  | Contact_getRecent (days : jsval)
  | Contact_search (searchTerm : jsval).

Definition run (c : store_call) : M result :=
  match c with
  | Helper_select table columns filters => dbHelpers.select table columns filters
  | Helper_insert table record => dbHelpers.insert table record
  | Helper_update table id changes => dbHelpers.update table id changes
  | Helper_delete table id => dbHelpers.delete table id
  | Dish_getAll category => DishModel.getAll category
  | Dish_getById id => DishModel.getById id
  | Dish_create dishData => DishModel.create dishData
  | Dish_update id dishData => DishModel.update id dishData
  | Dish_delete id => DishModel.delete id
  | Dish_getByCategory category => DishModel.getByCategory category
  | Dish_getFeatured => DishModel.getFeatured
  | Dish_getAvailable => DishModel.getAvailable
  | Dish_search searchTerm => DishModel.search searchTerm
  | Contact_create contactData => ContactModel.create contactData
  | Contact_getAll status => ContactModel.getAll status
  | Contact_getById id => ContactModel.getById id
  | Contact_updateStatus id status => ContactModel.updateStatus id status
  | Contact_delete id => ContactModel.delete id
  | Contact_getByStatus status => ContactModel.getByStatus status
  | Contact_getRecent days => ContactModel.getRecent days
  | Contact_search searchTerm => ContactModel.search searchTerm
  end.

(** The arguments whose properties can be read: everything but [null] and
    [undefined]. *)
Definition has_properties (v : jsval) : bool :=
  match v with
  | JUndefined | JNull => false
  | _ => true
  end.

(** [v.k] where [v] has properties. *)
Definition field (v : jsval) (k : string) : jsval :=
  match v with
  | JObj o => get o k
  | _ => JUndefined
  end.

(** The calls that get as far as their request to the database: the two
    [create] methods read the properties of their argument first. *)
Definition reaches_store (c : store_call) : bool :=
  match c with
  | Dish_create dishData => has_properties dishData
  | Contact_create contactData => has_properties contactData
  | _ => true
  end.

(** The [data] of a failure: [null], and no [data] at all for the deletions. *)
Definition failure_data (c : store_call) : jsval :=
  match c with
  | Helper_delete _ _ | Dish_delete _ | Contact_delete _ => JUndefined
  | _ => JNull
  end.

(** [getRecent] computes its date threshold before it reaches the
    database; when that computation throws, this is the error it reports. *)
Definition threshold_error (c : store_call) (w : world) : option jserror :=
  match c with
  | Contact_getRecent days =>
      let days := match days with JUndefined => JNum 30 | d => d end in
      match days_before (Some (default 0 (head (clock w)))) days with
      | Some _ => None
      | None => Some (Error "Invalid time value")
      end
  | _ => None
  end.

(** The numbers [parseInt] gives for a non-negative integer [i]: [i]
    itself, or, from [2^53] on, some number that is at least [2^53],
    [Infinity] included. *)
Definition beyond (v : jsval) : bool :=
  match v with
  | JNum m => 2 ^ 53 <=? m
  | JInf negative => negb negative
  | _ => false
  end.

Definition stands_for (v : jsval) (i : Z) : Prop :=
  (v = JNum i /\ 0 <= i) \/ (beyond v = true /\ 2 ^ 53 <= i).

(** A decimal digit. *)
Definition is_decimal (c : ascii) : bool :=
  (48 <=? char_code c) && (char_code c <=? 57).

(** A string of decimal digits. *)
Fixpoint all_decimal (s : string) : bool :=
  match s with
  | EmptyString => true
  | String c s' => is_decimal c && all_decimal s'
  end.

(** The full result set behind a listing of contact messages: every
    message, or those whose status is the one asked for. *)
Definition fetched_messages (status : jsval) (d : database) : list jsobj :=
  let messages := rows_of d ContactModel.tableName in
  if truthy status
  then List.filter (row_matches (Eq "status" status)) messages
  else messages.

(** A query-string parameter that carries a number is its decimal text. *)
Definition number_param (n : N) : jsval := JStr (decimal (Z.of_N n)).

(** ** Listing dishes *)

(** The backing operation of [GET /api/portfolio], by priority: a
    non-empty [search], then [featured=true], then [available=true], then
    a non-empty [category], then the unfiltered list. *)
Definition selected (q : jsobj) : store_call :=
  if truthy (get q "search") then Dish_search (get q "search")
  else if strict_eq (get q "featured") (JStr "true") then Dish_getFeatured
  else if strict_eq (get q "available") (JStr "true") then Dish_getAvailable
  else if truthy (get q "category") then Dish_getByCategory (get q "category")
  else Dish_getAll JUndefined.

(** The same priority when a parameter counts as soon as it is present in
    the query string, whatever its value. *)
Definition selected_by_presence (q : jsobj) : store_call :=
  if bool_decide (is_Some (q !! "search")) then Dish_search (get q "search")
  else if strict_eq (get q "featured") (JStr "true") then Dish_getFeatured
  else if strict_eq (get q "available") (JStr "true") then Dish_getAvailable
  else if bool_decide (is_Some (q !! "category"))
       then Dish_getByCategory (get q "category")
  else Dish_getAll JUndefined.

(** The response to a listing, given what the backing operation returned:
    [{ success: true, data, count }] with [count] the length of [data], or
    the error response. *)
Definition dishes_response (r : result) : response :=
  match error r with
  | Some e =>
      {| status := 500;
         json := obj [("success", JBool false);
                      ("message", JStr "Error fetching dishes");
                      ("error", JStr (err_message e))] |}
  | None =>
      let rows := elements (data r) in
      {| status := 200;
         json := obj [("success", JBool true);
                      ("data", JArr rows);
                      ("count", JNum (Z.of_nat (length rows)))] |}
  end.

(** The handler calls the operation [select] picks, that operation sends
    exactly one request, and the response is built from its result. *)
Definition dispatches (select : jsobj -> store_call) (req : request)
    (w : world) : Prop :=
  exists r q w',
    run (select (query req)) w = (Ret r, w')
    /\ trace w' = trace w ++ [StoreRequest q]
    /\ PortfolioController.getAllDishes req w = (Ret (dishes_response r), w').

(** A database for the examples. *)
Definition salmon : jsobj :=
  obj [("id", JStr "1"); ("title", JStr "Seared Salmon");
       ("description", JStr "Pan-seared, with lemon"); ("category", JStr "mains");
       ("is_featured", JBool true); ("is_available", JBool true);
       ("created_at", JStr "2024-01-01T00:00:00.000Z")].

Definition tiramisu : jsobj :=
  obj [("id", JStr "2"); ("title", JStr "Tiramisu");
       ("description", JStr "Classic"); ("category", JStr "desserts");
       ("is_featured", JBool false); ("is_available", JBool false);
       ("created_at", JStr "2024-01-02T00:00:00.000Z")].

Definition inquiry (id name status : string) : jsobj :=
  obj [("id", JStr id); ("name", JStr name); ("email", JStr "guest@example.com");
       ("message", JStr "Table for two?"); ("status", JStr status);
       ("created_at", JStr "2024-01-03T00:00:00.000Z")].

Definition example_database : database :=
  {| tables := {[ "dishes" := [salmon; tiramisu];
                  "contact_messages" := [inquiry "3" "Ada" "new";
                                         inquiry "4" "Bo" "new";
                                         inquiry "5" "Cy" "archived";
                                         inquiry "6" "Di" "new"] ]};
     next_id := 7 |}.

(** The process started with a credential, and without one. *)
Definition example_world : world :=
  start (Some "secret") example_database []
        [1700000000000; 1700000000001] [Generated "Welcome!"].

Definition example_world_no_key : world :=
  start None example_database []
        [1700000000000; 1700000000001] [Generated "Welcome!"].

Definition request_with (p q b : list (string * jsval)) : request :=
  {| params := obj p; query := obj q; body := obj b |}.

(** The next [n] requests reach the database. *)
Definition no_fault (f : fault) : bool :=
  match f with
  | NoFault => true
  | _ => false
  end.

Definition store_answers_next (n : nat) (w : world) : Prop :=
  forallb no_fault (take n (faults w)) = true.

(** The request with the field [k] of its body set to [v]. *)
Definition with_body_field (k : string) (v : jsval) (req : request) : request :=
  {| params := params req; query := query req;
     body := <[k := v]> (body req) |}.

(** The row the database makes of a record: what [JSON] keeps of it, and
    the identifier. *)
Definition stored_row (record : jsobj) (d : database) : jsobj :=
  serialise record ∪ {[ "id" := JStr (decimal (next_id d)) ]}.

(** The response to a deletion that went through. *)
Definition dish_deleted : response :=
  {| status := 200;
     json := obj [("success", JBool true);
                  ("message", JStr "Dish deleted successfully")] |}.

(** ** The gateway without a credential *)

Definition is_store_request (e : event) : bool :=
  match e with
  | StoreRequest _ => true
  | GenerateContent _ => false
  end.

(** [w'] follows [w] with the gateway singleton untouched and nothing but
    database requests sent in between. *)
Definition quiet_step (w w' : world) : Prop :=
  gemini w' = gemini w
  /\ exists events, trace w' = trace w ++ events
                    /\ forallb is_store_request events = true.

(** A computation that, run where the gateway has no model, never touches
    the singleton and never sends a prompt. *)
Definition quiet {A} (m : M A) : Prop :=
  forall w, model (gemini w) = None -> quiet_step w (snd (m w)).

(** The response of the chat endpoint when the gateway is unavailable. *)
Definition chat_unavailable : response :=
  {| status := 503;
     json := obj [("success", JBool false);
                  ("message", JStr "AI chatbot service is currently unavailable. Please contact us directly for assistance.")] |}.

(** The response of the status endpoint when the gateway is unavailable;
    [lastUpdated] is the time of the request. *)
Definition status_disconnected (lastUpdated : jsval) : response :=
  {| status := 200;
     json := obj [("success", JBool true);
                  ("data", JObj (obj [
                     ("aiAvailable", JBool false);
                     ("capabilities", JArr ChatbotController.capabilities);
                     ("apiStatus", JStr "disconnected");
                     ("lastUpdated", lastUpdated) ]))] |}.

(** A message the chat handler accepts: a string with a character that is
    not white space. *)
Definition nonblank (v : jsval) : bool :=
  match v with
  | JStr s => negb (String.eqb (trim s) "")
  | _ => false
  end.

(** ** The chat handler and the catalog context *)

(** The request [DishModel.getAvailable] sends. *)
Definition available_query : store_query :=
  supabase.eq "is_available" (JBool true) (supabase.from "dishes" (Select "*")).

(** The prompt with no menu item in it. *)
Definition base_prompt (message : jsval) : string :=
  GeminiService.systemContext +:+ nl +:+ nl +:+ "Customer Question: "
  +:+ to_string message.

(** The success response of the chat endpoint. *)
Definition chat_answer (message : jsval) (text : string) (timestamp : jsval)
    (contextIncluded : bool) : response :=
  {| status := 200;
     json := obj [("success", JBool true);
                  ("data", JObj (obj [
                     ("userMessage", message);
                     ("aiResponse", JStr text);
                     ("timestamp", timestamp);
                     ("contextIncluded", JBool contextIncluded) ]))] |}.

(** ** Vocabulary of the further properties *)

(** The status codes the handlers use. *)
Definition known_status (code : Z) : bool :=
  existsb (Z.eqb code) [200; 201; 400; 404; 500; 503].

(** A computation that, when it returns a response, returns one with a
    known status code. *)
Definition settles (m : M response) : Prop :=
  forall w, match fst (m w) with
            | Ret r => known_status (status r) = true
            | Throw _ => True
            end.

(** A computation that leaves the database as it is. *)
Definition reads {A} (m : M A) : Prop :=
  forall w, store (snd (m w)) = store w.

(** The routes that only read: every [GET], and the three [POST] routes
    of the chatbot. *)
Definition read_only (r : route) : bool :=
  match r with
  | POST_portfolio | PUT_portfolio_id | DELETE_portfolio_id
  | POST_contact | PUT_contact_id_status | DELETE_contact_id => false
  | _ => true
  end.

(** The rows of a table that a request for [id] addresses. *)
Definition has_id (id : jsval) (r : jsobj) : bool := row_matches (Eq "id" id) r.

(** What a status update makes of a row. *)
Definition with_status (status now : jsval) (r : jsobj) : jsobj :=
  <["status" := status]> (<["updated_at" := now]> r).

(** The reading of the clock at the next [new Date()], as ISO text. *)
Definition clock_text (w : world) : jsval :=
  JStr (iso_string (default 0 (head (clock w)))).

(** [!v || v.trim().length === 0] when it holds without throwing: the
    value is falsy, or a string of white space. *)
Definition empty_text (v : jsval) : bool :=
  negb (truthy v)
  || match v with
     | JStr s => String.eqb (trim s) ""
     | _ => false
     end.

(** The requests the handlers turn down on inspection of their input. *)
Definition rejected (r : route) (req : request) : bool :=
  match r with
  | POST_portfolio =>
      negb (truthy (get (body req) "title"))
      || negb (truthy (get (body req) "description"))
      || negb (truthy (get (body req) "category"))
  | POST_contact =>
      negb (truthy (get (body req) "name"))
      || negb (truthy (get (body req) "email"))
      || negb (truthy (get (body req) "message"))
      || negb (regex_test ContactController.emailRegex (get (body req) "email"))
  | PUT_contact_id_status =>
      negb (existsb (strict_eq (get (body req) "status"))
                    ContactController.validStatuses)
  | GET_contact_search => negb (truthy (get (query req) "q"))
  | POST_chatbot_chat => empty_text (get (body req) "message")
  | POST_chatbot_recommend => empty_text (get (body req) "preferences")
  | POST_chatbot_cooking_tip => empty_text (get (body req) "topic")
  | _ => false
  end.

(** The responses to a lookup of one dish. *)
Definition dish_found (dish : jsobj) : response :=
  {| status := 200;
     json := obj [("success", JBool true); ("data", JObj dish)] |}.

Definition dish_not_found : response :=
  {| status := 404;
     json := obj [("success", JBool false);
                  ("message", JStr "Dish not found")] |}.

(** The response to a dish creation that went through. *)
Definition dish_created (dish : jsobj) : response :=
  {| status := 201;
     json := obj [("success", JBool true);
                  ("message", JStr "Dish created successfully");
                  ("data", JObj dish)] |}.

(** The request [GET /api/portfolio/:id] for a given [id]. *)
Definition lookup_request (id : jsval) : request :=
  {| params := obj [("id", id)]; query := ∅; body := ∅ |}.

(** The stored dishes the featured query returns. *)
Definition featured_dishes (d : database) : list jsobj :=
  List.filter (row_matches (Eq "is_featured" (JBool true))) (rows_of d "dishes").

(** The stored dishes the available query returns. *)
Definition available_dishes (d : database) : list jsobj :=
  List.filter (row_matches (Eq "is_available" (JBool true))) (rows_of d "dishes").

(** How many rows carry the text [c] in their column [k]. *)
Definition tally (k c : string) (rows : list jsobj) : Z :=
  Z.of_nat (length (List.filter (fun r => String.eqb (to_string (get r k)) c) rows)).

(** The five categories the statistics count. *)
Definition counted_categories : list string :=
  ["appetizers"; "mains"; "desserts"; "drinks"; "specials"].

(** The response of the statistics endpoint of the portfolio. *)
Definition stats_response (total featured available : Z) (categories : jsobj)
    : response :=
  {| status := 200;
     json := obj [("success", JBool true);
                  ("data", JObj (obj [
                     ("total_dishes", JNum total);
                     ("featured_dishes", JNum featured);
                     ("available_dishes", JNum available);
                     ("categories", JObj categories) ]))] |}.

(** What the client is told when the generation service fails with [e]. *)
Definition user_message (e : jserror) : string :=
  if includes (err_message e) "API_KEY_INVALID"
  then "Invalid Gemini API key. Please check your configuration."
  else if includes (err_message e) "RATE_LIMIT_EXCEEDED"
  then "Rate limit exceeded. Please try again later."
  else "Failed to generate response. Please try again.".

(** The error response of the chat endpoint. *)
Definition chat_failed (message : string) : response :=
  {| status := 500;
     json := obj [("success", JBool false);
                  ("message", JStr message);
                  ("fallbackMessage", JStr "I apologize, but I'm having trouble right now. Please feel free to contact us directly through our contact form for immediate assistance.")] |}.

Definition is_prompt (e : event) : bool := negb (is_store_request e).

(** The response to a listing of contact messages. *)
Definition page_response (page : list jsval) (total limit offset : jsval)
    (has_more : bool) : response :=
  {| status := 200;
     json := obj [
       ("success", JBool true);
       ("data", JArr page);
       ("pagination", JObj (obj [
          ("total", total);
          ("limit", limit);
          ("offset", offset);
          ("has_more", JBool has_more) ])) ] |}.

(** The rows a response carries in [data]. *)
Definition page_data (r : response) : list jsval :=
  elements (get (json r) "data").

(** The [has_more] flag a response carries. *)
Definition page_has_more (r : response) : jsval :=
  match get (json r) "pagination" with
  | JObj p => get p "has_more"
  | _ => JUndefined
  end.

(** [GET /api/contact?limit=..&offset=..] *)
Definition page_request (limit offset : N) : request :=
  request_with [] [("limit", number_param limit); ("offset", number_param offset)] [].

(** The ten columns [DishModel.create] sends. *)
Definition dish_columns : list string :=
  ["title"; "description"; "category"; "image_url"; "price"; "ingredients";
   "is_featured"; "is_available"; "created_at"; "updated_at"].

(** The response to a contact submission that went through. *)
Definition contact_received (id name email created_at : jsval) : response :=
  {| status := 201;
     json := obj [("success", JBool true);
                  ("message", JStr "Thank you for your message! We will get back to you soon.");
                  ("data", JObj (obj [("id", id); ("name", name);
                                      ("email", email);
                                      ("created_at", created_at)]))] |}.

(** The error response of the recommendation and cooking-tip endpoints. *)
Definition failed (message : string) : response :=
  {| status := 500;
     json := obj [("success", JBool false); ("message", JStr message)] |}.

(** The success response of the cooking-tip endpoint. *)
Definition tip_answer (topic : jsval) (text : string) (timestamp : jsval)
    : response :=
  {| status := 200;
     json := obj [("success", JBool true);
                  ("data", JObj (obj [("topic", topic);
                                      ("tip", JStr text);
                                      ("timestamp", timestamp)]))] |}.

(** A world whose generation service answers with the given replies. *)
Definition answering (replies : list reply) : world :=
  set_replies replies example_world.

(** The response to a lookup of a contact message that is there. *)
Definition message_found (message : jsobj) : response :=
  {| status := 200;
     json := obj [("success", JBool true); ("data", JObj message)] |}.

(** The number a statistics response reports under [k]. *)
Definition reported (r : response) (k : string) : jsval :=
  match get (json r) "data" with
  | JObj d => get d k
  | _ => JUndefined
  end.

(** A world whose database fails the next requests as given. *)
Definition failing (f : list fault) : world := set_faults f example_world.

(** A dish whose category is the name of a property every object
    inherits, and a world that stores it. *)
Definition odd_dish : jsobj :=
  obj [("id", JStr "9"); ("title", JStr "Soup"); ("description", JStr "Of the day");
       ("category", JStr "constructor"); ("is_available", JBool true)].

Definition odd_world : world :=
  start (Some "secret")
        {| tables := {[ "dishes" := [salmon; odd_dish] ]}; next_id := 10 |}
        [] [1700000000000] [].

(** ** What a pattern matches *)

(** The strings a regular expression denotes. *)
Inductive lang : regex -> string -> Prop :=
  | lang_eps : lang REps EmptyString
  | lang_class p c : p c = true -> lang (RClass p) (String c EmptyString)
  | lang_cat r1 r2 s1 s2 :
      lang r1 s1 -> lang r2 s2 -> lang (RCat r1 r2) (s1 +:+ s2)
  | lang_alt_l r1 r2 s : lang r1 s -> lang (RAlt r1 r2) s
  | lang_alt_r r1 r2 s : lang r2 s -> lang (RAlt r1 r2) s
  | lang_star_nil r : lang (RStar r) EmptyString
  | lang_star_cons r s1 s2 :
      lang r s1 -> lang (RStar r) s2 -> lang (RStar r) (s1 +:+ s2).

(** Every character of [s] satisfies [p]. *)
Fixpoint every (p : ascii -> bool) (s : string) : bool :=
  match s with
  | EmptyString => true
  | String c s' => p c && every p s'
  end.

(** A part of an address: not empty, no white space and no [@]. *)
Definition address_part (s : string) : Prop :=
  s <> EmptyString /\ every ContactController.plain_char s = true.

(** One step of [Object.entries(filters).forEach(...)] in [dbHelpers.select]
    as a filter, if it adds one. *)
Definition entry_filter (entry : string * jsval) : option row_filter :=
  if negb (strict_eq entry.2 JUndefined) && negb (strict_eq entry.2 JNull)
  then Some (Eq entry.1 entry.2) else None.

(** The routes whose handler makes one request to the database as soon as
    it has accepted its input, and looks at the [error] of the result. *)
Definition store_route (r : route) : bool :=
  match r with
  | GET_portfolio | GET_portfolio_id | POST_portfolio | PUT_portfolio_id
  | DELETE_portfolio_id
  | POST_contact | GET_contact | GET_contact_search | GET_contact_id
  | PUT_contact_id_status | DELETE_contact_id => true
  | _ => false
  end.



(* ===================================================================== *)
(** * Properties *)
(* ===================================================================== *)

(** ** The monad *)

Lemma bind_ret {A B} (a : A) (k : A -> M B) (w : world) :
  bind (ret a) k w = k a w.
Proof. reflexivity. Qed.

Lemma bind_eq_ret {A B} (m : M A) (k : A -> M B) (w w' : world) (a : A) :
  m w = (Ret a, w') -> bind m k w = k a w'.
Proof. intros H. unfold bind. now rewrite H. Qed.

Lemma bind_eq_throw {A B} (m : M A) (k : A -> M B) (w w' : world) e :
  m w = (Throw e, w') -> bind m k w = (Throw e, w').
Proof. intros H. unfold bind. now rewrite H. Qed.

(** The clock never fails and touches nothing but itself. *)
Lemma now_iso_eq (w : world) :
  now_iso w = (Ret (JStr (iso_string (default 0 (head (clock w))))),
               set_clock (tail (clock w)) w).
Proof. reflexivity. Qed.

Lemma next_fault_set_clock c w : next_fault (set_clock c w) = next_fault w.
Proof. reflexivity. Qed.

(** ** Requests to the database *)

Lemma send_rejected q w e :
  next_fault w = Rejected e ->
  send q w = (Ret {| data := JNull; error := Some e |}, sent q w).
Proof. intros H. unfold send. now rewrite H. Qed.

Lemma send_broken q w e :
  next_fault w = Broken e -> send q w = (Throw e, sent q w).
Proof. intros H. unfold send. now rewrite H. Qed.

(** A request either throws or comes back with a [{ data, error }] object. *)
Lemma send_cases q w :
  (exists e w', send q w = (Throw e, w'))
  \/ (exists e w', send q w = (Ret {| data := JNull; error := Some e |}, w'))
  \/ (exists d w', send q w = (Ret {| data := d; error := None |}, w')).
Proof.
  unfold send. destruct (next_fault w); eauto.
  destruct (exec q (store w)) as [e | [rows d]]; eauto.
Qed.

(** The shape shared by the four helpers and by the hand-written queries
    of the repositories: send, rethrow a returned error, catch everything.
    Nothing escapes it. *)
Lemma guarded_returns q (f : jsval -> jsval) (d0 : jsval) w :
  exists r w',
    try_catch
      (r <- send q ;;
       match error r with
       | Some e => throw e
       | None => ret {| data := f (data r); error := None |}
       end)
      (fun e => ret {| data := d0; error := Some e |}) w = (Ret r, w').
Proof.
  unfold try_catch, bind.
  destruct (send_cases q w) as [(e & w' & H) | [(e & w' & H) | (d & w' & H)]];
    rewrite H; cbn; eauto.
Qed.

(** When the request fails, the failure comes back in [error]. *)
Lemma guarded_fails q (f : jsval -> jsval) (d0 : jsval) w e :
  store_fails w e ->
  try_catch
    (r <- send q ;;
     match error r with
     | Some e => throw e
     | None => ret {| data := f (data r); error := None |}
     end)
    (fun e => ret {| data := d0; error := Some e |}) w
  = (Ret {| data := d0; error := Some e |}, sent q w).
Proof.
  unfold try_catch, bind.
  intros [H | H].
  - now rewrite (send_rejected _ _ _ H).
  - now rewrite (send_broken _ _ _ H).
Qed.

Lemma select_returns table columns filters w :
  exists r w', dbHelpers.select table columns filters w = (Ret r, w').
Proof. apply (guarded_returns _ (fun d => d) JNull). Qed.

Lemma select_fails table columns filters w e :
  store_fails w e ->
  exists w', dbHelpers.select table columns filters w
             = (Ret {| data := JNull; error := Some e |}, w').
Proof.
  intros H. eexists. apply (guarded_fails _ (fun d => d) JNull _ _ H).
Qed.

Lemma insert_returns table record w :
  exists r w', dbHelpers.insert table record w = (Ret r, w').
Proof. apply (guarded_returns _ (fun d => d) JNull). Qed.

Lemma insert_fails table record w e :
  store_fails w e ->
  exists w', dbHelpers.insert table record w
             = (Ret {| data := JNull; error := Some e |}, w').
Proof.
  intros H. eexists. apply (guarded_fails _ (fun d => d) JNull _ _ H).
Qed.

Lemma update_returns table id changes w :
  exists r w', dbHelpers.update table id changes w = (Ret r, w').
Proof. apply (guarded_returns _ (fun d => d) JNull). Qed.

Lemma update_fails table id changes w e :
  store_fails w e ->
  exists w', dbHelpers.update table id changes w
             = (Ret {| data := JNull; error := Some e |}, w').
Proof.
  intros H. eexists. apply (guarded_fails _ (fun d => d) JNull _ _ H).
Qed.

Lemma delete_returns table id w :
  exists r w', dbHelpers.delete table id w = (Ret r, w').
Proof. apply (guarded_returns _ (fun _ => JUndefined) JUndefined). Qed.

Lemma delete_fails table id w e :
  store_fails w e ->
  exists w', dbHelpers.delete table id w
             = (Ret {| data := JUndefined; error := Some e |}, w').
Proof.
  intros H. eexists. apply (guarded_fails _ (fun _ => JUndefined) JUndefined _ _ H).
Qed.

(** Reading the clock first changes nothing for the request that follows. *)
Lemma after_clock_returns (k : jsval -> jsval -> M result) w :
  (forall a b w1, exists r w', k a b w1 = (Ret r, w')) ->
  exists r w', (a <- now_iso ;; b <- now_iso ;; k a b) w = (Ret r, w').
Proof. intros H. unfold bind. rewrite !now_iso_eq. apply H. Qed.

Lemma store_fails_set_clock c w e :
  store_fails (set_clock c w) e <-> store_fails w e.
Proof. reflexivity. Qed.

(** ** Failures of the database never escape the helpers and repositories *)

(** Reading a property of a value that has properties. *)
Lemma prop_reads (v : jsval) (k : string) (w : world) :
  has_properties v = true -> prop v k w = (Ret (field v k), w).
Proof. destruct v; intros H; try discriminate H; reflexivity. Qed.

(** What the two [create] methods do once they have read their argument. *)
Lemma Dish_create_reads (v : jsval) :
  has_properties v = true ->
  DishModel.create v
  = (created_at <- now_iso ;;
     updated_at <- now_iso ;;
     dbHelpers.insert DishModel.tableName
       (obj [("title", field v "title");
             ("description", field v "description");
             ("category", field v "category");
             ("image_url", js_or (field v "image_url") JNull);
             ("price", js_or (field v "price") JNull);
             ("ingredients", js_or (field v "ingredients") (JArr []));
             ("is_featured", js_or (field v "is_featured") (JBool false));
             ("is_available",
              JBool (negb (strict_eq (field v "is_available") (JBool false))));
             ("created_at", created_at);
             ("updated_at", updated_at)])).
Proof. destruct v; intros H; try discriminate H; reflexivity. Qed.

Lemma Contact_create_reads (v : jsval) :
  has_properties v = true ->
  ContactModel.create v
  = (created_at <- now_iso ;;
     updated_at <- now_iso ;;
     dbHelpers.insert ContactModel.tableName
       (obj [("name", field v "name");
             ("email", field v "email");
             ("phone", js_or (field v "phone") JNull);
             ("event_type", js_or (field v "eventType") JNull);
             ("guests", js_or (field v "guests") JNull);
             ("preferred_date", js_or (field v "date") JNull);
             ("message", field v "message");
             ("status", JStr "new");
             ("created_at", created_at);
             ("updated_at", updated_at)])).
Proof. destruct v; intros H; try discriminate H; reflexivity. Qed.

Create HintDb store.

#[local] Hint Resolve select_returns insert_returns update_returns
  delete_returns : store.

Lemma run_returns (c : store_call) (w : world) :
  reaches_store c = true ->
  exists r w', run c w = (Ret r, w').
Proof.
  intros R. destruct c; cbn [run reaches_store] in *.
  - apply select_returns.
  - apply insert_returns.
  - apply update_returns.
  - apply delete_returns.
  - (* DishModel.getAll *) unfold DishModel.getAll. apply select_returns.
  - (* DishModel.getById *)
    unfold DishModel.getById.
    destruct (select_returns DishModel.tableName "*" (obj [("id", id)]) w)
      as (r & w' & H).
    rewrite (bind_eq_ret _ _ _ _ _ H). unfold ret. eauto.
  - (* DishModel.create *)
    rewrite (Dish_create_reads _ R). apply after_clock_returns. auto with store.
  - (* DishModel.update *)
    unfold DishModel.update, bind. rewrite now_iso_eq. auto with store.
  - (* DishModel.delete *) unfold DishModel.delete. apply delete_returns.
  - (* DishModel.getByCategory *)
    unfold DishModel.getByCategory. apply select_returns.
  - (* DishModel.getFeatured *) unfold DishModel.getFeatured. apply select_returns.
  - (* DishModel.getAvailable *)
    unfold DishModel.getAvailable. apply select_returns.
  - (* DishModel.search *)
    unfold DishModel.search. apply (guarded_returns _ (fun d => d) JNull).
  - (* ContactModel.create *)
    rewrite (Contact_create_reads _ R). apply after_clock_returns.
    auto with store.
  - (* ContactModel.getAll *) unfold ContactModel.getAll. apply select_returns.
  - (* ContactModel.getById *)
    unfold ContactModel.getById.
    destruct (select_returns ContactModel.tableName "*" (obj [("id", id)]) w)
      as (r & w' & H).
    rewrite (bind_eq_ret _ _ _ _ _ H). unfold ret. eauto.
  - (* ContactModel.updateStatus *)
    unfold ContactModel.updateStatus, bind. rewrite now_iso_eq. auto with store.
  - (* ContactModel.delete *) unfold ContactModel.delete. apply delete_returns.
  - (* ContactModel.getByStatus *)
    unfold ContactModel.getByStatus. apply select_returns.
  - (* ContactModel.getRecent *)
    unfold ContactModel.getRecent, try_catch, bind, new_Date.
    destruct (days_before _ _) as [t |]; cbn [toISOString].
    + unfold ret at 1.
      match goal with
      | |- context [send ?q ?w1] =>
          destruct (send_cases q w1)
            as [(e & w' & H) | [(e & w' & H) | (d & w' & H)]]; rewrite H
      end; cbn; eauto.
    + cbn. eauto.
  - (* ContactModel.search *)
    unfold ContactModel.search. apply (guarded_returns _ (fun d => d) JNull).
Qed.

Lemma run_fails (c : store_call) (w : world) (e : jserror) :
  reaches_store c = true ->
  store_fails w e ->
  exists w',
    run c w = (Ret {| data := failure_data c;
                      error := Some (default e (threshold_error c w)) |}, w').
Proof.
  intros R F.
  destruct c; cbn [run failure_data threshold_error default reaches_store] in *.
  - now apply select_fails.
  - now apply insert_fails.
  - now apply update_fails.
  - now apply delete_fails.
  - (* DishModel.getAll *) unfold DishModel.getAll. now apply select_fails.
  - (* DishModel.getById *)
    unfold DishModel.getById.
    destruct (select_fails DishModel.tableName "*" (obj [("id", id)]) w e F)
      as (w' & H).
    rewrite (bind_eq_ret _ _ _ _ _ H). unfold ret. cbn. eauto.
  - (* DishModel.create *)
    rewrite (Dish_create_reads _ R). unfold bind. rewrite !now_iso_eq.
    now apply insert_fails.
  - (* DishModel.update *)
    unfold DishModel.update, bind. rewrite now_iso_eq. now apply update_fails.
  - (* DishModel.delete *) unfold DishModel.delete. now apply delete_fails.
  - (* DishModel.getByCategory *)
    unfold DishModel.getByCategory. now apply select_fails.
  - (* DishModel.getFeatured *)
    unfold DishModel.getFeatured. now apply select_fails.
  - (* DishModel.getAvailable *)
    unfold DishModel.getAvailable. now apply select_fails.
  - (* DishModel.search *)
    unfold DishModel.search. eexists. apply (guarded_fails _ (fun d => d) JNull _ _ F).
  - (* ContactModel.create *)
    rewrite (Contact_create_reads _ R). unfold bind. rewrite !now_iso_eq.
    now apply insert_fails.
  - (* ContactModel.getAll *) unfold ContactModel.getAll. now apply select_fails.
  - (* ContactModel.getById *)
    unfold ContactModel.getById.
    destruct (select_fails ContactModel.tableName "*" (obj [("id", id)]) w e F)
      as (w' & H).
    rewrite (bind_eq_ret _ _ _ _ _ H). unfold ret. cbn. eauto.
  - (* ContactModel.updateStatus *)
    unfold ContactModel.updateStatus, bind. rewrite now_iso_eq.
    now apply update_fails.
  - (* ContactModel.delete *) unfold ContactModel.delete. now apply delete_fails.
  - (* ContactModel.getByStatus *)
    unfold ContactModel.getByStatus. now apply select_fails.
  - (* ContactModel.getRecent *)
    unfold ContactModel.getRecent, try_catch, bind, new_Date.
    destruct (days_before _ _) as [t |]; cbn [toISOString default].
    + unfold ret at 1.
      destruct F as [F | F].
      * match goal with
        | |- context [send ?q ?w1] => rewrite (send_rejected q w1 e F)
        end. cbn. eauto.
      * match goal with
        | |- context [send ?q ?w1] => rewrite (send_broken q w1 e F)
        end. cbn. eauto.
    + cbn. eauto.
  - (* ContactModel.search *)
    unfold ContactModel.search. eexists. apply (guarded_fails _ (fun d => d) JNull _ _ F).
Qed.



(** ** [parseInt] reads back what [Number::toString] prints *)

Lemma is_decimal_cases (c : ascii) :
  is_decimal c = true ->
  c = "0"%char \/ c = "1"%char \/ c = "2"%char \/ c = "3"%char \/ c = "4"%char
  \/ c = "5"%char \/ c = "6"%char \/ c = "7"%char \/ c = "8"%char \/ c = "9"%char.
Proof.
  destruct c as [[] [] [] [] [] [] [] []]; vm_compute; intros H;
    try discriminate H; tauto.
Qed.

Lemma digit_value_decimal (c : ascii) :
  is_decimal c = true -> digit_value 10 c = Some (char_code c - 48).
Proof.
  intros H. destruct (is_decimal_cases c H) as [-> | [-> | [-> | [-> | [-> |
    [-> | [-> | [-> | [-> | ->]]]]]]]]]; reflexivity.
Qed.

Lemma digit_char_decimal (d : Z) :
  0 <= d < 10 ->
  is_decimal (digit_char d) = true /\ char_code (digit_char d) - 48 = d.
Proof.
  intros H.
  assert (d = 0 \/ d = 1 \/ d = 2 \/ d = 3 \/ d = 4 \/ d = 5 \/ d = 6
          \/ d = 7 \/ d = 8 \/ d = 9) as C by lia.
  destruct C as [-> | [-> | [-> | [-> | [-> | [-> | [-> | [-> | [-> | ->]]]]]]]]];
    split; reflexivity.
Qed.

Lemma all_decimal_app (s t : string) :
  all_decimal (s +:+ t) = all_decimal s && all_decimal t.
Proof.
  induction s as [| c s IH]; [reflexivity |].
  change (String c s +:+ t) with (String c (s +:+ t)).
  cbn [all_decimal]. rewrite IH. now rewrite andb_assoc.
Qed.

Lemma read_digits_app (s t : string) (acc : Z) :
  all_decimal s = true ->
  read_digits 10 (s +:+ t) acc = read_digits 10 t (read_digits 10 s acc).
Proof.
  revert acc. induction s as [| c s IH]; intros acc H; [reflexivity |].
  change (String c s +:+ t) with (String c (s +:+ t)).
  cbn [all_decimal read_digits] in *.
  apply andb_true_iff in H as [Hc Hs].
  rewrite (digit_value_decimal c Hc). now apply IH.
Qed.

Lemma digits_decimal (fuel : nat) (n : Z) :
  0 <= n -> all_decimal (digits fuel n) = true.
Proof.
  revert n. induction fuel as [| fuel IH]; intros n Hn; [reflexivity |].
  cbn [digits]. rewrite all_decimal_app. cbn [all_decimal].
  destruct (digit_char_decimal (n mod 10)) as [-> _];
    [apply Z.mod_pos_bound; lia |].
  rewrite andb_true_r.
  destruct (n <? 10); [reflexivity |].
  apply IH. apply Z.div_pos; lia.
Qed.

Lemma read_digits_digits (fuel : nat) (n : Z) :
  0 <= n < 2 ^ Z.of_nat fuel -> read_digits 10 (digits fuel n) 0 = n.
Proof.
  revert n. induction fuel as [| fuel IH]; intros n Hn.
  - cbn in *. lia.
  - cbn [digits].
    assert (0 <= n mod 10 < 10) as Hd by (apply Z.mod_pos_bound; lia).
    destruct (digit_char_decimal (n mod 10) Hd) as [Dc Dv].
    destruct (Z.ltb_spec n 10) as [Hs | Hb].
    + change (read_digits 10 (String (digit_char (n mod 10)) EmptyString) 0 = n).
      cbn [read_digits]. rewrite (digit_value_decimal _ Dc), Dv.
      rewrite Z.mod_small by lia. reflexivity.
    + rewrite read_digits_app by (apply digits_decimal; apply Z.div_pos; lia).
      rewrite IH.
      * cbn [read_digits]. rewrite (digit_value_decimal _ Dc), Dv.
        pose proof (Z.div_mod n 10). lia.
      * split; [apply Z.div_pos; lia |].
        rewrite Nat2Z.inj_succ, Z.pow_succ_r in Hn by lia.
        apply Z.div_lt_upper_bound; lia.
Qed.

Lemma append_cons_nonempty (s : string) (c : ascii) (t : string) :
  s +:+ String c t <> EmptyString.
Proof. destruct s; intros H; inversion H. Qed.

Lemma decimal_nonneg (n : Z) :
  0 <= n ->
  all_decimal (decimal n) = true /\ read_digits 10 (decimal n) 0 = n
  /\ decimal n <> EmptyString.
Proof.
  intros Hn. unfold decimal.
  destruct (Z.ltb_spec n 0) as [? | _]; [lia |].
  split; [apply digits_decimal; lia |]. split.
  - apply read_digits_digits. split; [assumption |].
    rewrite Nat2Z.inj_succ, Z2Nat.id by apply Z.log2_nonneg.
    destruct (Z.eq_dec n 0) as [-> | Hz]; [reflexivity |].
    apply Z.log2_spec. lia.
  - cbn [digits]. apply append_cons_nonempty.
Qed.

(** On a non-empty string of decimal digits [parseInt] is the value of
    the digits. *)
Lemma parseInt_all_decimal (s : string) :
  all_decimal s = true -> s <> EmptyString ->
  parseInt (JStr s) = js_number (read_digits 10 s 0).
Proof.
  destruct s as [| c r]; [congruence |]. intros H _.
  cbn [all_decimal] in H. apply andb_true_iff in H as [Hc Hr].
  assert (parseInt (JStr (String c r))
          = match digit_value 10 c with
            | Some _ => js_number (1 * read_digits 10 (String c r) 0)
            | None => JNaN
            end) as E.
  { destruct (is_decimal_cases c Hc) as [-> | [-> | [-> | [-> | [-> |
      [-> | [-> | [-> | [-> | ->]]]]]]]]]; try reflexivity.
    destruct r as [| c' r']; [reflexivity |].
    cbn [all_decimal] in Hr. apply andb_true_iff in Hr as [Hc' _].
    destruct (is_decimal_cases c' Hc') as [-> | [-> | [-> | [-> | [-> |
      [-> | [-> | [-> | [-> | ->]]]]]]]]]; reflexivity. }
  rewrite E, (digit_value_decimal c Hc).
  now rewrite Z.mul_1_l.
Qed.

Lemma parseInt_decimal (n : Z) :
  0 <= n -> parseInt (JStr (decimal n)) = js_number n.
Proof.
  intros Hn. destruct (decimal_nonneg n Hn) as (A & R & NE).
  now rewrite parseInt_all_decimal, R.
Qed.

(** ** Selections that reach the database *)

Lemma set_store_same (w : world) (q : store_query) :
  set_store (store w) (sent q w) = sent q w.
Proof. reflexivity. Qed.

Lemma truthy_defined (v : jsval) :
  truthy v = true ->
  negb (strict_eq v JUndefined) && negb (strict_eq v JNull) = true.
Proof. destruct v; cbn; congruence. Qed.

Lemma hit_one (f : row_filter) (q : store_query) (r : jsobj) :
  q_filters q = [f] -> hit q r = row_matches f r.
Proof. intros H. unfold hit. rewrite H. cbn. apply andb_true_r. Qed.

Lemma filter_hit_one (f : row_filter) (q : store_query) (rows : list jsobj) :
  q_filters q = [f] -> List.filter (hit q) rows = List.filter (row_matches f) rows.
Proof.
  intros H. induction rows as [| r rows IH]; cbn; [reflexivity |].
  now rewrite (hit_one f q r H), IH.
Qed.

Lemma filter_hit_none (q : store_query) (rows : list jsobj) :
  q_filters q = [] -> List.filter (hit q) rows = rows.
Proof.
  intros H. unfold hit. rewrite H. cbn.
  induction rows as [| r rows IH]; cbn; congruence.
Qed.

(** [select] with no filter returns the whole table. *)
Lemma select_all_answers table columns w :
  store_answers w ->
  exists w',
    dbHelpers.select table columns (obj []) w
    = (Ret {| data := JArr (JObj <$> rows_of (store w) table); error := None |}, w')
    /\ store w' = store w
    /\ trace w' = trace w ++ [StoreRequest (supabase.from table (Select columns))].
Proof.
  intros A. eexists. split; [| split].
  - unfold dbHelpers.select, try_catch, bind, send.
    replace (map_to_list (obj [])) with (@nil (string * jsval))
      by (symmetry; apply (map_to_list_empty (M := gmap string))).
    cbn [foldl]. rewrite A.
    unfold exec. cbn. rewrite filter_hit_none by reflexivity. reflexivity.
  - reflexivity.
  - reflexivity.
Qed.

(** [select] with one equality filter returns the rows that satisfy it. *)
Lemma select_eq_answers table columns k v w :
  truthy v = true -> store_answers w ->
  exists w',
    dbHelpers.select table columns (obj [(k, v)]) w
    = (Ret {| data := JArr (JObj <$> List.filter (row_matches (Eq k v))
                                       (rows_of (store w) table));
              error := None |}, w')
    /\ store w' = store w
    /\ trace w' = trace w ++ [StoreRequest
                                (supabase.eq k v (supabase.from table (Select columns)))].
Proof.
  intros T A. eexists. split; [| split].
  - unfold dbHelpers.select, try_catch, bind, send.
    replace (map_to_list (obj [(k, v)])) with [(k, v)].
    2:{ unfold obj. cbn [list_to_map foldr uncurry]. cbn.
        rewrite insert_empty. symmetry. apply map_to_list_singleton. }
    cbn [foldl]. rewrite (truthy_defined v T), A.
    unfold exec. cbn.
    rewrite (filter_hit_one (Eq k v)) by reflexivity. reflexivity.
  - reflexivity.
  - reflexivity.
Qed.

(** ** Numbers and indices *)

Lemma js_number_small (z : Z) : Z.abs z < 2 ^ 53 -> js_number z = JNum z.
Proof.
  intros H. unfold js_number.
  destruct (Z.ltb_spec (Z.abs z) (2 ^ 53)); [reflexivity | lia].
Qed.

Lemma js_number_beyond (z : Z) : 2 ^ 53 <= z -> beyond (js_number z) = true.
Proof.
  intros H. unfold js_number. rewrite (Z.abs_eq z) by lia.
  destruct (Z.ltb_spec z (2 ^ 53)); [lia |]. cbv zeta.
  set (e := Z.log2 z - 52).
  set (q := z / 2 ^ e).
  match goal with
  | |- context [if ?c then q + 1 else q] =>
      set (q' := if c then q + 1 else q);
      assert (q <= q') as Hq' by (subst q'; destruct c; lia)
  end.
  destruct (2 ^ 1024 <=? q' * 2 ^ e).
  - cbn [beyond]. now destruct (Z.ltb_spec z 0); [lia |].
  - cbn [beyond]. rewrite (Z.sgn_pos z) by lia. rewrite Z.mul_1_l.
    apply Z.leb_le.
    assert (53 <= Z.log2 z) as Hlog by (apply Z.log2_le_pow2; lia).
    assert (1 <= e) as He by (subst e; lia).
    assert (0 < 2 ^ e) as Hp by (apply Z.pow_pos_nonneg; lia).
    assert (2 ^ 52 * 2 ^ e <= z) as Hz.
    { rewrite <- Z.pow_add_r by lia.
      replace (52 + e) with (Z.log2 z) by (subst e; lia).
      apply Z.log2_spec. lia. }
    assert (2 ^ 52 <= q) as Hq.
    { subst q. apply Z.div_le_lower_bound; lia. }
    assert (2 ^ 1 <= 2 ^ e) as H2 by (apply Z.pow_le_mono_r; lia).
    change (2 ^ 1) with 2 in H2. change (2 ^ 53) with (2 ^ 52 * 2).
    nia.
Qed.

Lemma js_number_stands (z : Z) : 0 <= z -> stands_for (js_number z) z.
Proof.
  intros H. destruct (Z.lt_ge_cases z (2 ^ 53)) as [Hs | Hb].
  - left. split; [apply js_number_small; lia | exact H].
  - right. split; [now apply js_number_beyond | exact Hb].
Qed.

Lemma js_plus_stands (a b : jsval) (i j : Z) :
  stands_for a i -> stands_for b j -> stands_for (js_plus a b) (i + j).
Proof.
  intros [(-> & Hi) | (Ba & Hi)] [(-> & Hj) | (Bb & Hj)].
  - cbn [js_plus]. apply js_number_stands. lia.
  - right. split; [| lia].
    destruct b as [| | | m | | [] | | |]; try discriminate Bb; [| reflexivity].
    cbn [js_plus]. apply js_number_beyond.
    cbn [beyond] in Bb. apply Z.leb_le in Bb. lia.
  - right. split; [| lia].
    destruct a as [| | | m | | [] | | |]; try discriminate Ba; [| reflexivity].
    cbn [js_plus]. apply js_number_beyond.
    cbn [beyond] in Ba. apply Z.leb_le in Ba. lia.
  - right. split; [| lia].
    destruct a as [| | | m | | [] | | |]; try discriminate Ba;
      destruct b as [| | | n | | [] | | |]; try discriminate Bb;
      try reflexivity.
    cbn [js_plus]. apply js_number_beyond.
    cbn [beyond] in Ba, Bb. apply Z.leb_le in Ba, Bb. lia.
Qed.

Lemma stands_index (v : jsval) (i len : Z) :
  stands_for v i -> 0 <= len <= 2 ^ 53 ->
  relative_index len v = Z.min i len.
Proof.
  intros [(-> & Hi) | (B & Hi)] Hlen.
  - cbn [relative_index]. unfold clamp_index.
    destruct (Z.ltb_spec i 0); lia.
  - destruct v as [| | | m | | [] | | |]; try discriminate B;
      cbn [relative_index beyond] in *.
    + apply Z.leb_le in B. unfold clamp_index.
      destruct (Z.ltb_spec m 0); lia.
    + lia.
Qed.

Lemma stands_less (v : jsval) (i len : Z) :
  stands_for v i -> len <= 2 ^ 53 ->
  js_lt v (JNum len) = (i <? len).
Proof.
  intros [(-> & Hi) | (B & Hi)] Hlen.
  - reflexivity.
  - destruct (Z.ltb_spec i len) as [? | _]; [lia |].
    destruct v as [| | | m | | [] | | |]; try discriminate B;
      cbn [js_lt beyond] in *; [| reflexivity].
    apply Z.leb_le in B. apply Z.ltb_ge. lia.
Qed.

(** ** [slice] *)

(** A page: over an array, whose length is an index, [slice] from the
    offset to the sum of offset and limit takes [L] elements after the
    first [O], whatever [parseInt] made of the two. *)
Lemma slice_page {A} (l : list A) (offset limit : jsval) (O L : Z) :
  stands_for offset O -> stands_for limit L ->
  0 <= L ->
  Z.of_nat (length l) <= 2 ^ 53 ->
  slice l offset (js_plus offset limit)
  = take (Z.to_nat L) (drop (Z.to_nat O) l).
Proof.
  intros So Sl HL Hlen. unfold slice.
  set (len := Z.of_nat (length l)) in *.
  assert (0 <= len) as H0 by (subst len; lia).
  assert (0 <= O) as HO by (destruct So as [(_ & ?) | (_ & ?)]; lia).
  rewrite (stands_index _ _ _ So) by lia.
  rewrite (stands_index _ _ _ (js_plus_stands _ _ _ _ So Sl)) by lia.
  destruct (Z.le_gt_cases len O) as [Hge | Hlt].
  - rewrite !drop_ge by (subst len; lia). now rewrite !take_nil.
  - rewrite (Z.min_l O len) by lia.
    destruct (Z.le_gt_cases (O + L) len) as [Hin | Hout].
    + rewrite (Z.min_l (O + L) len) by lia. f_equal. lia.
    + rewrite (Z.min_r (O + L) len) by lia.
      rewrite !take_ge; [reflexivity | |]; rewrite length_drop; subst len; lia.
Qed.

Lemma page_length {A} (l : list A) (O L : Z) :
  0 <= O -> 0 <= L ->
  Z.of_nat (length (take (Z.to_nat L) (drop (Z.to_nat O) l)))
  = Z.min L (Z.max 0 (Z.of_nat (length l) - O)).
Proof. intros HO HL. rewrite length_take, length_drop. lia. Qed.

(** ** Listing contact messages *)

Lemma fetch_messages (status : jsval) (w : world) :
  store_answers w ->
  exists w',
    (if truthy status then ContactModel.getByStatus status
     else ContactModel.getAll JUndefined) w
    = (Ret {| data := JArr (JObj <$> fetched_messages status (store w));
              error := None |}, w')
    /\ store w' = store w.
Proof.
  intros A. unfold fetched_messages.
  destruct (truthy status) eqn:T.
  - destruct (select_eq_answers ContactModel.tableName "*" "status" status w T A)
      as (w' & E & S & _).
    exists w'. split; [exact E | exact S].
  - destruct (select_all_answers ContactModel.tableName "*" w A)
      as (w' & E & S & _).
    exists w'. split; [exact E | exact S].
Qed.

Lemma get_default_param (q : jsobj) (k : string) (n : option N) (d : Z) :
  q !! k = number_param <$> n ->
  0 <= d ->
  parseInt (get_default q k (JNum d)) = js_number (from_option Z.of_N d n).
Proof.
  intros H Hd. unfold get_default, get. rewrite H.
  destruct n as [n |]; cbn [fmap option_fmap option_map default from_option].
  - unfold number_param. apply parseInt_decimal. lia.
  - change (parseInt (JNum d)) with (parseInt (JStr (decimal d))).
    now apply parseInt_decimal.
Qed.

(** The listing for any parameters whatever, when the database answers. *)
Lemma messages_page (req : request) (w : world) :
  store_answers w ->
  let limit := parseInt (get_default (query req) "limit" (JNum 50)) in
  let offset := parseInt (get_default (query req) "offset" (JNum 0)) in
  let fetched :=
    JObj <$> fetched_messages (get (query req) "status") (store w) in
  exists w',
    ContactController.getAllMessages req w
    = (Ret (page_response (slice fetched offset (js_plus offset limit))
                          (JNum (Z.of_nat (length fetched))) limit offset
                          (js_lt (js_plus offset limit)
                                 (JNum (Z.of_nat (length fetched))))), w')
    /\ store w' = store w.
Proof.
  intros A limit offset fetched.
  destruct (fetch_messages (get (query req) "status") w A) as (w' & E & S).
  exists w'. split; [| exact S].
  unfold ContactController.getAllMessages, try_catch.
  rewrite (bind_eq_ret _ _ _ _ _ E). reflexivity.
Qed.

(** C1.  [GET /api/contact?limit=L&offset=O], each parameter a
    non-negative integer in decimal or left out (then 50 and 0), with any
    [status] parameter: when the database answers the request with a
    result set that fits an array (fewer than [2^32] rows), the handler
    responds 200; [data] is a slice of the full result set whose length is
    [min(L, max(0, total - O))], [pagination.total] is the size [total] of
    the full result set, and [pagination.has_more] is true exactly when
    [O + L < total].  The [limit] and [offset] it echoes are the Numbers
    [parseInt] reads: [L] and [O] rounded to the nearest double. *)
Theorem pagination_law (req : request) (limit offset : option N) (w : world) :
  query req !! "limit" = number_param <$> limit ->
  query req !! "offset" = number_param <$> offset ->
  store_answers w ->
  let L := from_option Z.of_N 50 limit in
  let O := from_option Z.of_N 0 offset in
  let fetched := fetched_messages (get (query req) "status") (store w) in
  let total := Z.of_nat (length fetched) in
  total < 2 ^ 32 ->
  exists page w',
    ContactController.getAllMessages req w
    = (Ret {| status := 200;
              json := obj [
                ("success", JBool true);
                ("data", JArr page);
                ("pagination", JObj (obj [
                   ("total", JNum total);
                   ("limit", js_number L);
                   ("offset", js_number O);
                   ("has_more", JBool (O + L <? total)) ])) ] |}, w')
    /\ Z.of_nat (length page) = Z.min L (Z.max 0 (total - O))
    /\ store w' = store w.
Proof.
  intros Hl Ho A L O fetched total Fits.
  assert (0 <= L) as HL by (subst L; destruct limit; cbn; lia).
  assert (0 <= O) as HO by (subst O; destruct offset; cbn; lia).
  destruct (messages_page req w A) as (w' & E & S).
  cbv zeta in E.
  rewrite (get_default_param _ _ _ _ Hl), (get_default_param _ _ _ _ Ho) in E
    by lia.
  fold L O fetched in E. rewrite length_fmap in E. fold total in E.
  pose proof (js_number_stands O HO) as So.
  pose proof (js_number_stands L HL) as Sl.
  rewrite (slice_page _ _ _ O L So Sl HL) in E
    by (rewrite length_fmap; fold total; lia).
  rewrite (stands_less _ _ total (js_plus_stands _ _ _ _ So Sl)) in E by lia.
  exists (take (Z.to_nat L) (drop (Z.to_nat O) (JObj <$> fetched))), w'.
  split; [exact E |]. split; [| exact S].
  rewrite page_length, length_fmap by lia. reflexivity.
Qed.

(** ** Listing dishes *)

Lemma select_query_operation (l : list (string * jsval)) (q : store_query) :
  q_operation
    (foldl (fun q '(key, value) =>
              if negb (strict_eq value JUndefined) && negb (strict_eq value JNull)
              then supabase.eq key value q else q) q l)
  = q_operation q.
Proof.
  revert q. induction l as [| [k v] l IH]; intros q; cbn [foldl]; [reflexivity |].
  rewrite IH. now destruct (_ && _).
Qed.

(** A selection sends one request, and returns rows without an error or
    an error without rows. *)
Lemma guarded_select q columns w :
  q_operation q = Select columns ->
  exists r w',
    try_catch
      (r <- send q ;;
       match error r with
       | Some e => throw e
       | None => ret {| data := data r; error := None |}
       end)
      (fun e => ret {| data := JNull; error := Some e |}) w = (Ret r, w')
    /\ trace w' = trace w ++ [StoreRequest q]
    /\ ((exists rows, r = {| data := JArr rows; error := None |})
        \/ (exists e, r = {| data := JNull; error := Some e |})).
Proof.
  intros Hq. unfold try_catch, bind, send.
  destruct (next_fault w); cbn.
  - unfold exec. rewrite Hq.
    destruct (negb _); cbn; eauto 10.
  - eauto 10.
  - eauto 10.
Qed.

Lemma select_shape table columns filters w :
  exists q r w',
    dbHelpers.select table columns filters w = (Ret r, w')
    /\ trace w' = trace w ++ [StoreRequest q]
    /\ ((exists rows, r = {| data := JArr rows; error := None |})
        \/ (exists e, r = {| data := JNull; error := Some e |})).
Proof.
  eexists. apply guarded_select with (columns := columns).
  now rewrite select_query_operation.
Qed.

Lemma listing_shape (c : store_call) (w : world) :
  (exists t, c = Dish_search t) \/ c = Dish_getFeatured \/ c = Dish_getAvailable
  \/ (exists k, c = Dish_getByCategory k) \/ (exists k, c = Dish_getAll k) ->
  exists q r w',
    run c w = (Ret r, w')
    /\ trace w' = trace w ++ [StoreRequest q]
    /\ ((exists rows, r = {| data := JArr rows; error := None |})
        \/ (exists e, r = {| data := JNull; error := Some e |})).
Proof.
  intros [[t ->] | [-> | [-> | [[k ->] | [k ->]]]]]; cbn [run].
  - unfold DishModel.search. eexists.
    now apply guarded_select with (columns := "*").
  - unfold DishModel.getFeatured. apply select_shape.
  - unfold DishModel.getAvailable. apply select_shape.
  - unfold DishModel.getByCategory. apply select_shape.
  - unfold DishModel.getAll. apply select_shape.
Qed.

Lemma respond_listing (r : result) (w : world) :
  (exists rows, r = {| data := JArr rows; error := None |})
  \/ (exists e, r = {| data := JNull; error := Some e |}) ->
  match error r with
  | Some e =>
      respond 500 [("success", JBool false);
                   ("message", JStr "Error fetching dishes");
                   ("error", error_message e)]
  | None =>
      respond 200 [("success", JBool true);
                   ("data", js_or (data r) (JArr []));
                   ("count", if truthy (data r)
                             then arr_length (elements (data r))
                             else JNum 0)]
  end w = (Ret (dishes_response r), w).
Proof. intros [[rows ->] | [e ->]]; reflexivity. Qed.

(** C2, as amended.  For every [GET /api/portfolio] request the handler
    calls exactly one backing operation, chosen by priority: the search
    when [search] has a non-empty value, otherwise the featured query when
    [featured] is ['true'], otherwise the available query when [available]
    is ['true'], otherwise the category filter when [category] has a
    non-empty value, otherwise the unfiltered list.  That operation sends
    one request to the database, and the success response is
    [{ success: true, data, count }] with [count] the length of [data]. *)
Theorem listing_dispatch (req : request) (w : world) :
  dispatches selected req w.
Proof.
  unfold dispatches.
  destruct (listing_shape (selected (query req)) w) as (q & r & w' & E & T & S).
  { unfold selected.
    destruct (truthy (get (query req) "search")); [eauto |].
    destruct (strict_eq (get (query req) "featured") _); [eauto |].
    destruct (strict_eq (get (query req) "available") _); [eauto |].
    destruct (truthy (get (query req) "category")); eauto 10. }
  exists r, q, w'. split; [exact E |]. split; [exact T |].
  unfold PortfolioController.getAllDishes, try_catch.
  unfold selected in E.
  assert ((if truthy (get (query req) "search")
           then DishModel.search (get (query req) "search")
           else if strict_eq (get (query req) "featured") (JStr "true")
           then DishModel.getFeatured
           else if strict_eq (get (query req) "available") (JStr "true")
           then DishModel.getAvailable
           else if truthy (get (query req) "category")
           then DishModel.getByCategory (get (query req) "category")
           else DishModel.getAll JUndefined) w = (Ret r, w')) as E'.
  { destruct (truthy (get (query req) "search")); [exact E |].
    destruct (strict_eq (get (query req) "featured") _); [exact E |].
    destruct (strict_eq (get (query req) "available") _); [exact E |].
    destruct (truthy (get (query req) "category")); exact E. }
  rewrite (bind_eq_ret _ _ _ _ _ E').
  now rewrite (respond_listing r w' S).
Qed.

(** C2, as stated, fails.  For [GET /api/portfolio?search=] the parameter
    [search] is present, with the empty string as its value; the handler
    does not call the search but falls through to the unfiltered list. *)
Lemma empty_search_is_not_a_search :
  is_Some (query (request_with [] [("search", JStr "")] []) !! "search")
  /\ ~ dispatches selected_by_presence
         (request_with [] [("search", JStr "")] []) example_world.
Proof.
  split; [vm_compute; eauto |].
  intros (r & q & w' & E & _ & H).
  assert (trace (snd (run (selected_by_presence
                             (query (request_with [] [("search", JStr "")] [])))
                        example_world))
          = trace (snd (PortfolioController.getAllDishes
                          (request_with [] [("search", JStr "")] [])
                          example_world))) as T
    by (rewrite E, H; reflexivity).
  vm_compute in T. discriminate T.
Qed.

(** What the handler does there: one selection on [dishes] with no filter. *)
Example listing_empty_search :
  trace (snd (PortfolioController.getAllDishes
                (request_with [] [("search", JStr "")] []) example_world))
  = [StoreRequest (supabase.from "dishes" (Select "*"))].
Proof. reflexivity. Qed.

(** ** Creating a dish *)

(** Whatever the request, the guarded shape sends it, exactly once. *)
Lemma guarded_sends q (f : jsval -> jsval) (d0 : jsval) w :
  exists r w',
    try_catch
      (r <- send q ;;
       match error r with
       | Some e => throw e
       | None => ret {| data := f (data r); error := None |}
       end)
      (fun e => ret {| data := d0; error := Some e |}) w = (Ret r, w')
    /\ trace w' = trace w ++ [StoreRequest q].
Proof.
  unfold try_catch, bind, send.
  destruct (next_fault w); cbn; eauto.
  destruct (exec q (store w)) as [e | [rows d]]; cbn; eauto.
Qed.

Lemma strict_eq_false (v : jsval) :
  strict_eq v (JBool false) = true <-> v = JBool false.
Proof.
  destruct v as [| | [] | | | | | |]; cbn; split; congruence.
Qed.

Lemma get_eq_bool (o : jsobj) (k : string) (b : bool) :
  get o k = JBool b <-> o !! k = Some (JBool b).
Proof.
  unfold get. destruct (o !! k) as [v |]; cbn; split; congruence.
Qed.

(** An insertion either leaves the database as it was, or appends the
    record it was given, completed with a fresh identifier. *)
Lemma insert_effect table record w :
  exists r w',
    dbHelpers.insert table record w = (Ret r, w')
    /\ trace w' = trace w ++ [StoreRequest
                                (supabase.returning
                                   (supabase.from table (Insert record)))]
    /\ (store w' = store w
        \/ exists id,
             tables (store w')
             = <[table := rows_of (store w) table
                          ++ [serialise record ∪ {[ "id" := id ]}]]>
                 (tables (store w))).
Proof.
  unfold dbHelpers.insert, try_catch, bind, send.
  destruct (next_fault w); cbn; eauto 10.
Qed.

Lemma serialise_lookup (record : jsobj) (k : string) (v : jsval) :
  record !! k = Some v -> is_defined v = true ->
  forall id, (serialise record ∪ {[ "id" := id ]}) !! k = Some v.
Proof.
  intros H D id. apply lookup_union_Some_l.
  unfold serialise. now apply map_lookup_filter_Some_2.
Qed.

(** The record [DishModel.create] sends, whatever its input. *)
Lemma create_record (dishData : jsobj) (w : world) :
  exists dish r w',
    DishModel.create (JObj dishData) w = (Ret r, w')
    /\ trace w' = trace w ++ [StoreRequest
                                (supabase.returning
                                   (supabase.from "dishes" (Insert dish)))]
    /\ dish !! "is_available"
       = Some (JBool (negb (strict_eq (get dishData "is_available") (JBool false))))
    /\ dish !! "ingredients"
       = Some (js_or (get dishData "ingredients") (JArr [])).
Proof.
  rewrite (Dish_create_reads (JObj dishData) eq_refl). cbn [field].
  unfold bind. rewrite !now_iso_eq.
  match goal with
  | |- context [dbHelpers.insert _ ?d ?w1] =>
      destruct (insert_effect DishModel.tableName d w1) as (r & w' & E & T & _);
      exists d, r, w'
  end.
  split; [exact E |]. split; [exact T |]. split; reflexivity.
Qed.

(** After the repository call the handler only builds its response. *)
Lemma created_response (r : result) (w : world) :
  exists out,
    try_catch
      (match error r with
       | Some e =>
           respond 500 [("success", JBool false);
                        ("message", JStr "Error creating dish");
                        ("error", error_message e)]
       | None =>
           created <- first_of (data r) ;;
           respond 201 [("success", JBool true);
                        ("message", JStr "Dish created successfully");
                        ("data", created)]
       end)
      PortfolioController.internal_error w = (out, w).
Proof.
  unfold try_catch. destruct (error r); [eexists; reflexivity |].
  unfold bind, first_of. destruct (data r); eexists; reflexivity.
Qed.

(** C3.  For every dish-creation request that has the required [title],
    [description] and [category], the handler sends the database one
    insertion into [dishes], and the record it sends has [is_available]
    false when the input's [is_available] is the boolean [false], true in
    every other case, and has the empty list as [ingredients] whenever the
    input has no [ingredients]. *)
Theorem created_dish_defaults (req : request) (w : world) :
  truthy (get (body req) "title") = true ->
  truthy (get (body req) "description") = true ->
  truthy (get (body req) "category") = true ->
  exists dish out w',
    PortfolioController.createDish req w = (out, w')
    /\ trace w' = trace w ++ [StoreRequest
                                (supabase.returning
                                   (supabase.from "dishes" (Insert dish)))]
    /\ (body req !! "is_available" = Some (JBool false) ->
        dish !! "is_available" = Some (JBool false))
    /\ (body req !! "is_available" <> Some (JBool false) ->
        dish !! "is_available" = Some (JBool true))
    /\ (body req !! "ingredients" = None ->
        dish !! "ingredients" = Some (JArr [])).
Proof.
  intros Ht Hd Hc.
  destruct (create_record (body req) w) as (dish & r & w' & E & T & A & I).
  destruct (created_response r w') as (out & O).
  exists dish, out, w'. split; [| split; [exact T |]].
  - unfold PortfolioController.createDish.
    rewrite Ht, Hd, Hc. cbn [negb orb].
    unfold try_catch in *. rewrite (bind_eq_ret _ _ _ _ _ E). exact O.
  - split; [| split].
    + intros H. apply get_eq_bool in H. rewrite A, H. reflexivity.
    + intros H. rewrite A.
      destruct (strict_eq _ _) eqn:S; [| reflexivity].
      apply strict_eq_false, get_eq_bool in S. contradiction.
    + intros H. rewrite I. unfold get. rewrite H. reflexivity.
Qed.

(** ** Updating a dish that is not there *)

Lemma filter_none {A} (p : A -> bool) (l : list A) :
  (forall x, x ∈ l -> p x = false) -> List.filter p l = [].
Proof.
  induction l as [| x l IH]; intros H; cbn; [reflexivity |].
  rewrite (H x) by apply list_elem_of_here.
  apply IH. intros y Hy. apply H. now apply list_elem_of_further.
Qed.

Lemma map_unless {A} (p : A -> bool) (f : A -> A) (l : list A) :
  (forall x, x ∈ l -> p x = false) ->
  map (fun x => if p x then f x else x) l = l.
Proof.
  induction l as [| x l IH]; intros H; cbn; [reflexivity |].
  rewrite (H x) by apply list_elem_of_here.
  f_equal. apply IH. intros y Hy. apply H. now apply list_elem_of_further.
Qed.

Lemma alter_rows_same (f : list jsobj -> list jsobj) (d : database) table :
  f (rows_of d table) = rows_of d table ->
  {| tables := alter f table (tables d); next_id := next_id d |} = d.
Proof.
  intros H. destruct d as [t n]. cbn in *. f_equal.
  apply map_eq. intros k. rewrite lookup_alter.
  destruct (decide (table = k)) as [<- |]; [| reflexivity].
  unfold rows_of in H. cbn in H.
  destruct (t !! table) as [rows |]; cbn in *; [now rewrite H | reflexivity].
Qed.

(** An update whose [id] matches no row changes nothing and returns the
    empty sequence. *)
Lemma update_unmatched table id changes w :
  store_answers w ->
  (forall r, r ∈ rows_of (store w) table -> row_matches (Eq "id" id) r = false) ->
  exists w',
    dbHelpers.update table id changes w
    = (Ret {| data := JArr []; error := None |}, w')
    /\ store w' = store w.
Proof.
  intros A N. eexists. split.
  - unfold dbHelpers.update, try_catch, bind, send. rewrite A.
    unfold exec. cbn [q_filters supabase.returning supabase.eq supabase.add_filter
                      supabase.from app forallb well_formed negb andb
                      q_operation q_returning q_table].
    rewrite (filter_hit_one (Eq "id" id)) by reflexivity.
    rewrite (filter_none _ _ N). cbn [fmap list_fmap].
    rewrite alter_rows_same.
    + cbn. reflexivity.
    + apply map_unless. intros r Hr.
      rewrite (hit_one (Eq "id" id)) by reflexivity. now apply N.
  - reflexivity.
Qed.

(** C4.  For every [PUT /api/portfolio/:id] whose [id] matches no stored
    row, when the database answers the request: the update returns the
    empty sequence as [data], the handler responds 404 with
    [success: false], and the state of the database is what it was. *)
Theorem update_missing_dish (req : request) (w : world) :
  store_answers w ->
  existsb (row_matches (Eq "id" (get (params req) "id")))
          (rows_of (store w) "dishes") = false ->
  exists w',
    DishModel.update (get (params req) "id") (body req) w
    = (Ret {| data := JArr []; error := None |}, w')
    /\ PortfolioController.updateDish req w
       = (Ret {| status := 404;
                 json := obj [("success", JBool false);
                              ("message", JStr "Dish not found")] |}, w')
    /\ store w' = store w.
Proof.
  intros A N0.
  assert (forall r, r ∈ rows_of (store w) "dishes" ->
                    row_matches (Eq "id" (get (params req) "id")) r = false) as N.
  { intros r Hr. destruct (row_matches _ r) eqn:Hm; [| reflexivity].
    rewrite <- N0. symmetry. apply existsb_exists. exists r.
    split; [now apply list_elem_of_In | exact Hm]. }
  assert (exists w',
            DishModel.update (get (params req) "id") (body req) w
            = (Ret {| data := JArr []; error := None |}, w')
            /\ store w' = store w) as (w' & E & S).
  { unfold DishModel.update, bind. rewrite now_iso_eq.
    match goal with
    | |- context [dbHelpers.update ?t ?i ?c ?w1] =>
        destruct (update_unmatched t i c w1 A N) as (w' & E & S)
    end.
    exists w'. split; [exact E | exact S]. }
  exists w'. split; [exact E |]. split; [| exact S].
  unfold PortfolioController.updateDish, try_catch.
  rewrite (bind_eq_ret _ _ _ _ _ E). reflexivity.
Qed.

(** ** Contact submissions *)

Example email_accepted :
  regex_test ContactController.emailRegex (JStr "ada@example.com") = true.
Proof. reflexivity. Qed.

Example email_rejected_no_at :
  regex_test ContactController.emailRegex (JStr "not-an-email") = false.
Proof. reflexivity. Qed.

Example email_rejected_no_dot :
  regex_test ContactController.emailRegex (JStr "ada@example") = false.
Proof. reflexivity. Qed.

Example email_rejected_space :
  regex_test ContactController.emailRegex (JStr "ada lovelace@example.com") = false.
Proof. reflexivity. Qed.

Example email_rejected_two_ats :
  regex_test ContactController.emailRegex (JStr "ada@@example.com") = false.
Proof. reflexivity. Qed.


Lemma get_insert_ne (o : jsobj) (k k' : string) (v : jsval) :
  k <> k' -> get (<[k := v]> o) k' = get o k'.
Proof. intros H. unfold get. now rewrite lookup_insert_ne. Qed.

(** The record [ContactModel.create] sends, and what becomes of it. *)
Lemma contact_record (contactData : jsobj) (w : world) :
  exists contact r w',
    ContactModel.create (JObj contactData) w = (Ret r, w')
    /\ trace w' = trace w ++ [StoreRequest
                                (supabase.returning
                                   (supabase.from "contact_messages"
                                      (Insert contact)))]
    /\ contact !! "status" = Some (JStr "new")
    /\ (store_answers w ->
        tables (store w')
        = <["contact_messages" :=
              rows_of (store w) "contact_messages"
              ++ [stored_row contact (store w)]]>
            (tables (store w)))
    /\ (~ store_answers w -> store w' = store w).
Proof.
  rewrite (Contact_create_reads (JObj contactData) eq_refl). cbn [field].
  unfold bind. rewrite !now_iso_eq.
  unfold dbHelpers.insert, try_catch, bind, send, store_answers.
  change (next_fault (set_clock _ (set_clock _ w))) with (next_fault w).
  destruct (next_fault w) eqn:F.
  - unfold exec.
    cbn [q_filters supabase.returning supabase.from forallb negb
         q_operation q_returning q_table].
    cbn [error data]. unfold ret.
    eexists _, _, _. split; [reflexivity |]. split; [reflexivity |].
    split; [reflexivity |]. split; [reflexivity | congruence].
  - cbn [error data]. unfold throw.
    eexists _, _, _. split; [reflexivity |]. split; [reflexivity |].
    split; [reflexivity |]. split; [discriminate | reflexivity].
  - eexists _, _, _. split; [reflexivity |]. split; [reflexivity |].
    split; [reflexivity |]. split; [discriminate | reflexivity].
Qed.

(** After the repository call the handler only builds its response. *)
Lemma submitted_response (r : result) (w : world) :
  exists out,
    try_catch
      (match error r with
       | Some e =>
           respond 500 [("success", JBool false);
                        ("message", JStr "Error submitting contact form");
                        ("error", error_message e)]
       | None =>
           created <- first_of (data r) ;;
           id <- prop created "id" ;;
           name <- prop created "name" ;;
           email <- prop created "email" ;;
           created_at <- prop created "created_at" ;;
           respond 201 [("success", JBool true);
                        ("message", JStr "Thank you for your message! We will get back to you soon.");
                        ("data", JObj (obj [("id", id); ("name", name);
                                            ("email", email);
                                            ("created_at", created_at)]))]
       end)
      ContactController.internal_error w = (out, w).
Proof.
  unfold try_catch. destruct (error r); [eexists; reflexivity |].
  unfold bind, first_of.
  destruct (data r) as [| | | | | | | l |]; try (eexists; reflexivity).
  destruct l as [| x l]; [eexists; reflexivity |].
  destruct x; eexists; reflexivity.
Qed.

(** C9.  Every [POST /api/contact] that passes validation sends the
    database exactly one insertion into [contact_messages], and the record
    it sends has [status] equal to ['new'], whatever the body says: with
    any value at all as the [status] of the body, the same request has the
    same outcome, record included.  When the insertion reaches the
    database it appends one row, whose [status] is ['new']; when it does
    not, the database is as it was. *)
Theorem contact_created_as_new (req : request) (w : world) :
  rejected POST_contact req = false ->
  exists contact out w',
    ContactController.submitContact req w = (out, w')
    /\ trace w' = trace w ++ [StoreRequest
                                (supabase.returning
                                   (supabase.from "contact_messages"
                                      (Insert contact)))]
    /\ contact !! "status" = Some (JStr "new")
    /\ (forall v,
          rejected POST_contact (with_body_field "status" v req) = false
          /\ ContactController.submitContact (with_body_field "status" v req) w
             = (out, w'))
    /\ stored_row contact (store w) !! "status" = Some (JStr "new")
    /\ (store_answers w ->
        rows_of (store w') "contact_messages"
        = rows_of (store w) "contact_messages" ++ [stored_row contact (store w)])
    /\ (~ store_answers w -> store w' = store w).
Proof.
  intros V.
  assert (forall v k, k <> "status" ->
            get (body (with_body_field "status" v req)) k = get (body req) k)
    as Same.
  { intros v k Hk. unfold with_body_field. cbn [body].
    apply get_insert_ne. congruence. }
  destruct (contact_record (body req) w)
    as (contact & r & w' & E & T & St & Sa & Sn).
  destruct (submitted_response r w') as (out & O).
  assert (ContactController.submitContact req w = (out, w')) as Eq.
  { unfold ContactController.submitContact. cbn [rejected] in V.
    apply orb_false_elim in V as [V1 V2]. cbv zeta. rewrite V1, V2.
    unfold try_catch in *. rewrite (bind_eq_ret _ _ _ _ _ E). exact O. }
  exists contact, out, w'. split; [exact Eq |]. split; [exact T |].
  split; [exact St |]. split; [| split; [| split]].
  - intros v. split.
    + cbn [rejected] in *. now rewrite !Same by discriminate.
    + rewrite <- Eq. unfold ContactController.submitContact. cbv zeta.
      rewrite (Contact_create_reads (JObj (body req)) eq_refl).
      rewrite (Contact_create_reads
                 (JObj (body (with_body_field "status" v req))) eq_refl).
      cbn [field]. now rewrite !Same by discriminate.
  - unfold stored_row. now apply serialise_lookup.
  - intros A. unfold rows_of at 1. rewrite (Sa A).
    now rewrite lookup_insert_eq.
  - exact Sn.
Qed.

Lemma contact_created_as_new_witness :
  rejected POST_contact
           (request_with [] [] [("name", JStr "Eve");
                                ("email", JStr "eve@example.com");
                                ("message", JStr "Do you cater?");
                                ("status", JStr "archived")]) = false
  /\ store_answers example_world
  /\ exists out w',
       ContactController.submitContact
         (request_with [] [] [("name", JStr "Eve");
                              ("email", JStr "eve@example.com");
                              ("message", JStr "Do you cater?");
                              ("status", JStr "archived")])
         example_world = (out, w')
       /\ exists row,
            row !! "status" = Some (JStr "new")
            /\ row !! "message" = Some (JStr "Do you cater?")
            /\ rows_of (store w') "contact_messages"
               = rows_of (store example_world) "contact_messages" ++ [row].
Proof.
  split; [reflexivity |]. split; [reflexivity |].
  destruct (contact_created_as_new
              (request_with [] [] [("name", JStr "Eve");
                                   ("email", JStr "eve@example.com");
                                   ("message", JStr "Do you cater?");
                                   ("status", JStr "archived")])
              example_world eq_refl)
    as (contact & out & w' & E & T & St & _ & Row & Sa & _).
  exists out, w'. split; [exact E |].
  exists (stored_row contact (store example_world)).
  split; [exact Row |]. split; [| exact (Sa eq_refl)].
  assert (trace (snd (ContactController.submitContact
                        (request_with [] [] [("name", JStr "Eve");
                                             ("email", JStr "eve@example.com");
                                             ("message", JStr "Do you cater?");
                                             ("status", JStr "archived")])
                        example_world)) = trace w') as Tr by now rewrite E.
  rewrite T in Tr. vm_compute in Tr. injection Tr as <-.
  reflexivity.
Defined.

(** ** Deleting a dish, twice *)

(** A deletion that reaches the database is not an error, whether or not
    a row matched. *)
Lemma delete_answers table id w :
  store_answers w ->
  exists w',
    dbHelpers.delete table id w
    = (Ret {| data := JUndefined; error := None |}, w')
    /\ faults w' = tail (faults w).
Proof.
  intros A. eexists. split.
  - unfold dbHelpers.delete, try_catch, bind, send. rewrite A.
    unfold exec.
    cbn [q_filters supabase.eq supabase.add_filter supabase.from app forallb
         well_formed negb andb q_operation q_returning q_table].
    cbn [error data]. unfold ret. reflexivity.
  - reflexivity.
Qed.

Lemma delete_dish_answers (req : request) (w : world) :
  store_answers w ->
  exists w',
    PortfolioController.deleteDish req w = (Ret dish_deleted, w')
    /\ faults w' = tail (faults w).
Proof.
  intros A.
  destruct (delete_answers DishModel.tableName (get (params req) "id") w A)
    as (w' & E & F).
  exists w'. split; [| exact F].
  unfold PortfolioController.deleteDish, try_catch, DishModel.delete.
  rewrite (bind_eq_ret _ _ _ _ _ E). reflexivity.
Qed.

(** C6.  For every [id], existing or not, two successive
    [DELETE /api/portfolio/:id] requests that reach the database both get
    200 with [success: true]: the handler checks nothing about the row,
    and a deletion that matches no row is not an error. *)
Theorem delete_twice (req : request) (w : world) :
  store_answers_next 2 w ->
  exists w',
    serve [(DELETE_portfolio_id, req); (DELETE_portfolio_id, req)] w
    = ([Ret dish_deleted; Ret dish_deleted], w').
Proof.
  unfold store_answers_next. intros H.
  assert (store_answers w) as A1.
  { unfold store_answers, next_fault.
    destruct (faults w) as [| [] l]; cbn in *; congruence. }
  destruct (delete_dish_answers req w A1) as (w1 & E1 & F1).
  assert (store_answers w1) as A2.
  { unfold store_answers, next_fault. rewrite F1.
    destruct (faults w) as [| f1 [| [] l]]; cbn in *; try reflexivity;
      destruct f1; cbn in *; congruence. }
  destruct (delete_dish_answers req w1 A2) as (w2 & E2 & _).
  exists w2. cbn [serve handler]. now rewrite E1, E2.
Qed.

(** ** Witnesses *)


Lemma pagination_law_witness :
  query (request_with [] [("limit", number_param 9007199254740993);
                          ("offset", number_param 1);
                          ("status", JStr "new")] []) !! "limit"
  = number_param <$> Some 9007199254740993%N
  /\ query (request_with [] [("limit", number_param 9007199254740993);
                             ("offset", number_param 1);
                             ("status", JStr "new")] []) !! "offset"
     = number_param <$> Some 1%N
  /\ store_answers example_world
  /\ Z.of_nat (length (fetched_messages (JStr "new") (store example_world)))
     < 2 ^ 32
  /\ exists page w',
       ContactController.getAllMessages
         (request_with [] [("limit", number_param 9007199254740993);
                           ("offset", number_param 1);
                           ("status", JStr "new")] []) example_world
       = (Ret {| status := 200;
                 json := obj [
                   ("success", JBool true);
                   ("data", JArr page);
                   ("pagination", JObj (obj [
                      ("total", JNum 3);
                      ("limit", JNum 9007199254740992);
                      ("offset", JNum 1);
                      ("has_more", JBool false) ])) ] |}, w')
       /\ Z.of_nat (length page) = 2
       /\ store w' = store example_world.
Proof.
  split; [reflexivity |]. split; [reflexivity |]. split; [reflexivity |].
  split; [reflexivity |].
  exact (pagination_law
           (request_with [] [("limit", number_param 9007199254740993);
                             ("offset", number_param 1);
                             ("status", JStr "new")] [])
           (Some 9007199254740993%N) (Some 1%N) example_world
           eq_refl eq_refl eq_refl eq_refl).
Defined.

Lemma created_dish_defaults_witness :
  truthy (get (body (request_with [] [] [("title", JStr "Soup");
                                         ("description", JStr "Of the day");
                                         ("category", JStr "appetizers");
                                         ("is_available", JBool false)])) "title") = true
  /\ truthy (get (body (request_with [] [] [("title", JStr "Soup");
                                            ("description", JStr "Of the day");
                                            ("category", JStr "appetizers");
                                            ("is_available", JBool false)]))
                 "description") = true
  /\ truthy (get (body (request_with [] [] [("title", JStr "Soup");
                                            ("description", JStr "Of the day");
                                            ("category", JStr "appetizers");
                                            ("is_available", JBool false)]))
                 "category") = true
  /\ exists (dish : jsobj) out w',
       PortfolioController.createDish
         (request_with [] [] [("title", JStr "Soup");
                              ("description", JStr "Of the day");
                              ("category", JStr "appetizers");
                              ("is_available", JBool false)]) example_world
       = (out, w')
       /\ dish !! "is_available" = Some (JBool false)
       /\ dish !! "ingredients" = Some (JArr []).
Proof.
  split; [reflexivity |]. split; [reflexivity |]. split; [reflexivity |].
  destruct (created_dish_defaults
              (request_with [] [] [("title", JStr "Soup");
                                   ("description", JStr "Of the day");
                                   ("category", JStr "appetizers");
                                   ("is_available", JBool false)])
              example_world eq_refl eq_refl eq_refl)
    as (dish & out & w' & E & _ & A & _ & I).
  exists dish, out, w'. split; [exact E |]. split.
  - apply A. reflexivity.
  - apply I. reflexivity.
Defined.

Lemma update_missing_dish_witness :
  store_answers example_world
  /\ existsb (row_matches (Eq "id" (get (params (request_with [("id", JStr "99")] []
                                                   [("title", JStr "Ghost")])) "id")))
             (rows_of (store example_world) "dishes") = false
  /\ exists w',
       PortfolioController.updateDish
         (request_with [("id", JStr "99")] [] [("title", JStr "Ghost")])
         example_world
       = (Ret {| status := 404;
                 json := obj [("success", JBool false);
                              ("message", JStr "Dish not found")] |}, w')
       /\ store w' = store example_world.
Proof.
  split; [reflexivity |]. split; [reflexivity |].
  destruct (update_missing_dish
              (request_with [("id", JStr "99")] [] [("title", JStr "Ghost")])
              example_world eq_refl eq_refl) as (w' & _ & E & S).
  exists w'. split; [exact E | exact S].
Defined.


Lemma delete_twice_witness :
  store_answers_next 2 example_world
  /\ exists w',
       serve [(DELETE_portfolio_id, request_with [("id", JStr "42")] [] []);
              (DELETE_portfolio_id, request_with [("id", JStr "42")] [] [])]
             example_world
       = ([Ret dish_deleted; Ret dish_deleted], w').
Proof.
  split; [reflexivity |].
  exact (delete_twice (request_with [("id", JStr "42")] [] []) example_world
                      eq_refl).
Defined.

(** ** The gateway without a credential *)

Lemma quiet_step_refl (w : world) : quiet_step w w.
Proof.
  split; [reflexivity |]. exists []. split; [now rewrite app_nil_r | reflexivity].
Qed.

Lemma quiet_step_trans (w1 w2 w3 : world) :
  quiet_step w1 w2 -> quiet_step w2 w3 -> quiet_step w1 w3.
Proof.
  intros (G1 & e1 & T1 & F1) (G2 & e2 & T2 & F2).
  split; [congruence |]. exists (e1 ++ e2). split.
  - now rewrite T2, T1, app_assoc.
  - rewrite forallb_app, F1, F2. reflexivity.
Qed.

Lemma quiet_step_model (w w' : world) :
  quiet_step w w' -> model (gemini w) = None -> model (gemini w') = None.
Proof. intros (G & _) H. now rewrite G. Qed.

Lemma quiet_ret {A} (a : A) : quiet (ret a).
Proof. intros w _. apply quiet_step_refl. Qed.

Lemma quiet_throw {A} (e : jserror) : quiet (@throw A e).
Proof. intros w _. apply quiet_step_refl. Qed.

Lemma quiet_bind {A B} (m : M A) (k : A -> M B) :
  quiet m -> (forall a, quiet (k a)) -> quiet (bind m k).
Proof.
  intros Hm Hk w H. unfold bind.
  specialize (Hm w H). destruct (m w) as [[a | e] w1]; cbn in *.
  - apply (quiet_step_trans _ _ _ Hm). apply Hk.
    now apply (quiet_step_model w).
  - exact Hm.
Qed.

Lemma quiet_try_catch {A} (m : M A) (h : jserror -> M A) :
  quiet m -> (forall e, quiet (h e)) -> quiet (try_catch m h).
Proof.
  intros Hm Hh w H. unfold try_catch.
  specialize (Hm w H). destruct (m w) as [[a | e] w1]; cbn in *.
  - exact Hm.
  - apply (quiet_step_trans _ _ _ Hm). apply Hh.
    now apply (quiet_step_model w).
Qed.

Lemma quiet_send (q : store_query) : quiet (send q).
Proof.
  intros w _. unfold send.
  assert (quiet_step w (sent q w)) as S.
  { split; [reflexivity |]. exists [StoreRequest q]. split; reflexivity. }
  destruct (next_fault w); try exact S.
  destruct (exec q (store w)) as [e | [rows d]]; exact S.
Qed.

Lemma quiet_new_Date : quiet new_Date.
Proof.
  intros w _. split; [reflexivity |].
  exists []. split; [symmetry; apply app_nil_r | reflexivity].
Qed.

Lemma quiet_toISOString (d : date) : quiet (toISOString d).
Proof. destruct d; [apply quiet_ret | apply quiet_throw]. Qed.

Lemma quiet_now_iso : quiet now_iso.
Proof.
  apply quiet_bind; [apply quiet_new_Date | apply quiet_toISOString].
Qed.

Lemma quiet_isAvailable : quiet GeminiService.isAvailable.
Proof. intros w _. apply quiet_step_refl. Qed.

(** Without a model no prompt leaves the process. *)
Lemma quiet_generateContent (prompt : string) :
  quiet (GeminiService.generateContent prompt).
Proof.
  intros w H. unfold GeminiService.generateContent. rewrite H.
  apply quiet_step_refl.
Qed.

Lemma quiet_prop (v : jsval) (k : string) : quiet (prop v k).
Proof. destruct v; first [apply quiet_ret | apply quiet_throw]. Qed.

Lemma quiet_first_of (v : jsval) : quiet (first_of v).
Proof. destruct v; first [apply quiet_ret | apply quiet_throw]. Qed.

Lemma quiet_js_trim (v : jsval) : quiet (js_trim v).
Proof. destruct v; first [apply quiet_ret | apply quiet_throw]. Qed.

Lemma quiet_blank (v : jsval) : quiet (blank v).
Proof.
  unfold blank. destruct (negb (truthy v)); [apply quiet_ret |].
  apply quiet_bind; [apply quiet_js_trim | intros; apply quiet_ret].
Qed.

Lemma quiet_has_length (v : jsval) : quiet (has_length v).
Proof.
  destruct v; cbn [has_length]; try apply quiet_ret;
    (apply quiet_bind; [apply quiet_prop | intros; apply quiet_ret]).
Qed.

Lemma quiet_respond (code : Z) (fields : list (string * jsval)) :
  quiet (respond code fields).
Proof. apply quiet_ret. Qed.

Create HintDb quiet.

#[local] Hint Resolve quiet_send quiet_new_Date quiet_toISOString quiet_now_iso
  quiet_isAvailable quiet_generateContent quiet_prop quiet_first_of
  quiet_js_trim quiet_blank quiet_has_length quiet_respond : quiet.

(** One step of a proof of [quiet]: follow the structure of the program. *)
Ltac quiet_step :=
  lazymatch goal with
  | |- quiet (bind _ _) => apply quiet_bind; [| intros ?]
  | |- quiet (try_catch _ _) => apply quiet_try_catch; [| intros ?]
  | |- quiet (ret _) => apply quiet_ret
  | |- quiet (throw _) => apply quiet_throw
  | |- quiet (respond _ _) => apply quiet_respond
  | |- quiet (send _) => apply quiet_send
  | |- quiet now_iso => apply quiet_now_iso
  | |- quiet new_Date => apply quiet_new_Date
  | |- quiet (toISOString _) => apply quiet_toISOString
  | |- quiet GeminiService.isAvailable => apply quiet_isAvailable
  | |- quiet (GeminiService.generateContent _) => apply quiet_generateContent
  | |- quiet (prop _ _) => apply quiet_prop
  | |- quiet (first_of _) => apply quiet_first_of
  | |- quiet (blank _) => apply quiet_blank
  | |- quiet (has_length _) => apply quiet_has_length
  | |- quiet (if ?b then _ else _) => destruct b
  | |- quiet (match ?x with _ => _ end) => destruct x
  end.

Ltac quiet_steps := cbv zeta; repeat quiet_step.

Lemma quiet_select table columns filters :
  quiet (dbHelpers.select table columns filters).
Proof. unfold dbHelpers.select. quiet_steps. Qed.

Lemma quiet_insert table record : quiet (dbHelpers.insert table record).
Proof. unfold dbHelpers.insert. quiet_steps. Qed.

Lemma quiet_update table id changes :
  quiet (dbHelpers.update table id changes).
Proof. unfold dbHelpers.update. quiet_steps. Qed.

Lemma quiet_delete table id : quiet (dbHelpers.delete table id).
Proof. unfold dbHelpers.delete. quiet_steps. Qed.

Section QuietRepositories.

Variables (id status category searchTerm days argument : jsval) (input : jsobj).

Lemma quiet_Dish_getAll : quiet (DishModel.getAll category).
Proof. unfold DishModel.getAll. apply quiet_select. Qed.

Lemma quiet_Dish_getById : quiet (DishModel.getById id).
Proof. unfold DishModel.getById. quiet_steps. apply quiet_select. Qed.

Lemma quiet_Dish_create : quiet (DishModel.create argument).
Proof. unfold DishModel.create. quiet_steps. apply quiet_insert. Qed.

Lemma quiet_Dish_update : quiet (DishModel.update id input).
Proof. unfold DishModel.update. quiet_steps. apply quiet_update. Qed.

Lemma quiet_Dish_delete : quiet (DishModel.delete id).
Proof. unfold DishModel.delete. apply quiet_delete. Qed.

Lemma quiet_Dish_getByCategory : quiet (DishModel.getByCategory category).
Proof. unfold DishModel.getByCategory. apply quiet_select. Qed.

Lemma quiet_Dish_getFeatured : quiet DishModel.getFeatured.
Proof. unfold DishModel.getFeatured. apply quiet_select. Qed.

Lemma quiet_Dish_getAvailable : quiet DishModel.getAvailable.
Proof. unfold DishModel.getAvailable. apply quiet_select. Qed.

Lemma quiet_Dish_search : quiet (DishModel.search searchTerm).
Proof. unfold DishModel.search. quiet_steps. Qed.

Lemma quiet_Contact_create : quiet (ContactModel.create argument).
Proof. unfold ContactModel.create. quiet_steps. apply quiet_insert. Qed.

Lemma quiet_Contact_getAll : quiet (ContactModel.getAll status).
Proof. unfold ContactModel.getAll. apply quiet_select. Qed.

Lemma quiet_Contact_getById : quiet (ContactModel.getById id).
Proof. unfold ContactModel.getById. quiet_steps. apply quiet_select. Qed.

Lemma quiet_Contact_updateStatus : quiet (ContactModel.updateStatus id status).
Proof. unfold ContactModel.updateStatus. quiet_steps. apply quiet_update. Qed.

Lemma quiet_Contact_delete : quiet (ContactModel.delete id).
Proof. unfold ContactModel.delete. apply quiet_delete. Qed.

Lemma quiet_Contact_getByStatus : quiet (ContactModel.getByStatus status).
Proof. unfold ContactModel.getByStatus. apply quiet_select. Qed.

Lemma quiet_Contact_getRecent : quiet (ContactModel.getRecent days).
Proof. unfold ContactModel.getRecent. quiet_steps. Qed.

Lemma quiet_Contact_search : quiet (ContactModel.search searchTerm).
Proof. unfold ContactModel.search. quiet_steps. Qed.

End QuietRepositories.

#[local] Hint Resolve quiet_select quiet_insert quiet_update quiet_delete
  quiet_Dish_getAll quiet_Dish_getById quiet_Dish_create quiet_Dish_update
  quiet_Dish_delete quiet_Dish_getByCategory quiet_Dish_getFeatured
  quiet_Dish_getAvailable quiet_Dish_search quiet_Contact_create
  quiet_Contact_getAll quiet_Contact_getById quiet_Contact_updateStatus
  quiet_Contact_delete quiet_Contact_getByStatus quiet_Contact_getRecent
  quiet_Contact_search : quiet.

(** The repository call at the head of the goal, if it is one. *)
Ltac quiet_call :=
  lazymatch goal with
  | |- quiet (DishModel.getAll _) => apply quiet_Dish_getAll
  | |- quiet (DishModel.getById _) => apply quiet_Dish_getById
  | |- quiet (DishModel.create _) => apply quiet_Dish_create
  | |- quiet (DishModel.update _ _) => apply quiet_Dish_update
  | |- quiet (DishModel.delete _) => apply quiet_Dish_delete
  | |- quiet (DishModel.getByCategory _) => apply quiet_Dish_getByCategory
  | |- quiet DishModel.getFeatured => apply quiet_Dish_getFeatured
  | |- quiet DishModel.getAvailable => apply quiet_Dish_getAvailable
  | |- quiet (DishModel.search _) => apply quiet_Dish_search
  | |- quiet (ContactModel.create _) => apply quiet_Contact_create
  | |- quiet (ContactModel.getAll _) => apply quiet_Contact_getAll
  | |- quiet (ContactModel.getById _) => apply quiet_Contact_getById
  | |- quiet (ContactModel.updateStatus _ _) => apply quiet_Contact_updateStatus
  | |- quiet (ContactModel.delete _) => apply quiet_Contact_delete
  | |- quiet (ContactModel.getByStatus _) => apply quiet_Contact_getByStatus
  | |- quiet (ContactModel.getRecent _) => apply quiet_Contact_getRecent
  | |- quiet (ContactModel.search _) => apply quiet_Contact_search
  end.

Ltac quiet_all := cbv zeta; repeat first [quiet_step | quiet_call].

Lemma quiet_menu_items (dishes : list jsval) :
  quiet (GeminiService.menu_items dishes).
Proof.
  induction dishes as [| dish rest IH]; cbn [GeminiService.menu_items];
    quiet_steps. exact IH.
Qed.

Lemma quiet_context_of (dishes : list jsval) :
  quiet (ChatbotController.context_of dishes).
Proof.
  induction dishes as [| dish rest IH]; cbn [ChatbotController.context_of];
    quiet_steps. exact IH.
Qed.

Lemma quiet_count_by (k : string) (rows : list jsval) (counts : jsobj) :
  quiet (count_by k rows counts).
Proof.
  revert counts. induction rows as [| row rest IH]; intros counts;
    cbn [count_by]; quiet_steps. apply IH.
Qed.

Lemma quiet_generateResponse (message context : jsval) :
  quiet (GeminiService.generateResponse message context).
Proof.
  unfold GeminiService.generateResponse. quiet_steps;
    apply quiet_menu_items.
Qed.

Lemma quiet_generateFoodRecommendation (preferences restrictions : jsval) :
  quiet (GeminiService.generateFoodRecommendation preferences restrictions).
Proof. unfold GeminiService.generateFoodRecommendation. quiet_steps. Qed.

Lemma quiet_generateCookingTip (topic : jsval) :
  quiet (GeminiService.generateCookingTip topic).
Proof. unfold GeminiService.generateCookingTip. quiet_steps. Qed.

Lemma quiet_testConnection : quiet GeminiService.testConnection.
Proof. unfold GeminiService.testConnection. quiet_steps. Qed.

(** Every handler of the three routers is quiet. *)
Lemma quiet_handler (r : route) (req : request) : quiet (handler r req).
Proof.
  destruct r; cbn [handler].
  - unfold PortfolioController.getAllDishes,
      PortfolioController.internal_error. quiet_all.
  - unfold PortfolioController.getStats,
      PortfolioController.internal_error. quiet_all; apply quiet_count_by.
  - unfold PortfolioController.getCategories,
      PortfolioController.internal_error. quiet_all.
  - unfold PortfolioController.getDishById,
      PortfolioController.internal_error. quiet_all.
  - unfold PortfolioController.createDish,
      PortfolioController.internal_error. quiet_all.
  - unfold PortfolioController.updateDish,
      PortfolioController.internal_error. quiet_all.
  - unfold PortfolioController.deleteDish,
      PortfolioController.internal_error. quiet_all.
  - unfold ContactController.submitContact,
      ContactController.internal_error. quiet_all.
  - unfold ContactController.getAllMessages,
      ContactController.internal_error. quiet_all.
  - unfold ContactController.getContactStats,
      ContactController.internal_error. quiet_all; apply quiet_count_by.
  - unfold ContactController.getRecentMessages,
      ContactController.internal_error. quiet_all.
  - unfold ContactController.searchMessages,
      ContactController.internal_error. quiet_all.
  - unfold ContactController.getMessageById,
      ContactController.internal_error. quiet_all.
  - unfold ContactController.updateMessageStatus,
      ContactController.internal_error. quiet_all.
  - unfold ContactController.deleteMessage,
      ContactController.internal_error. quiet_all.
  - unfold ChatbotController.chat. quiet_all;
      first [apply quiet_context_of | apply quiet_generateResponse].
  - unfold ChatbotController.getFoodRecommendation. quiet_all.
    apply quiet_generateFoodRecommendation.
  - unfold ChatbotController.getCookingTip. quiet_all.
    apply quiet_generateCookingTip.
  - unfold ChatbotController.getStatus. quiet_all.
  - unfold ChatbotController.testAI. quiet_all.
    apply quiet_testConnection.
  - unfold ChatbotController.getConversationHistory. quiet_all.
Qed.

Lemma serve_quiet (requests : list (route * request)) (w : world) :
  model (gemini w) = None -> quiet_step w (snd (serve requests w)).
Proof.
  revert w. induction requests as [| [r req] rest IH]; intros w H;
    cbn [serve]; [apply quiet_step_refl |].
  pose proof (quiet_handler r req w H) as Q.
  destruct (handler r req w) as [out w1]. cbn [snd] in Q.
  specialize (IH w1 (quiet_step_model _ _ Q H)).
  destruct (serve rest w1) as [outs w2]. cbn [snd] in *.
  exact (quiet_step_trans _ _ _ Q IH).
Qed.

Lemma nonblank_string (v : jsval) :
  nonblank v = true ->
  exists s, v = JStr s /\ truthy v = true /\ (str_length (trim s) =? 0) = false.
Proof.
  destruct v as [| | | | | | s | |]; cbn [nonblank]; try discriminate.
  intros H. exists s. split; [reflexivity |]. split.
  - cbn [truthy]. destruct s; [discriminate H | reflexivity].
  - unfold str_length. destruct (trim s); [discriminate H | reflexivity].
Qed.

Lemma blank_nonblank (v : jsval) (w : world) :
  nonblank v = true -> blank v w = (Ret false, w).
Proof.
  intros N. destruct (nonblank_string _ N) as (s & -> & T & L).
  unfold blank. rewrite T. cbn [negb js_trim].
  rewrite bind_ret. unfold ret. now rewrite L.
Qed.

(** Without a client the chat handler answers 503 and does nothing else. *)
Lemma chat_without_client (req : request) (w : world) :
  genAI (gemini w) = None ->
  nonblank (get (body req) "message") = true ->
  ChatbotController.chat req w = (Ret chat_unavailable, w).
Proof.
  intros G N.
  unfold ChatbotController.chat, try_catch.
  rewrite (bind_eq_ret _ _ _ _ _ (blank_nonblank _ w N)).
  unfold bind, GeminiService.isAvailable. rewrite G. reflexivity.
Qed.

(** Without a client the status handler reports the gateway disconnected. *)
Lemma status_without_client (req : request) (w : world) :
  genAI (gemini w) = None ->
  ChatbotController.getStatus req w
  = (Ret (status_disconnected (JStr (iso_string (default 0 (head (clock w)))))),
     set_clock (tail (clock w)) w).
Proof.
  intros G. unfold ChatbotController.getStatus, try_catch, bind.
  unfold GeminiService.isAvailable. rewrite G. reflexivity.
Qed.

Lemma serve_without_client (requests : list (route * request)) (w : world) :
  genAI (gemini w) = None -> model (gemini w) = None ->
  (forall (i : nat) req,
      requests !! i = Some (POST_chatbot_chat, req) ->
      nonblank (get (body req) "message") = true ->
      fst (serve requests w) !! i = Some (Ret chat_unavailable))
  /\ (forall (i : nat) req,
         requests !! i = Some (GET_chatbot_status, req) ->
         exists t, fst (serve requests w) !! i = Some (Ret (status_disconnected t))).
Proof.
  revert w. induction requests as [| [r0 req0] rest IH]; intros w G Mo.
  - split; intros i req H; discriminate H.
  - pose proof (quiet_handler r0 req0 w Mo) as Q.
    assert (forall out w1, handler r0 req0 w = (out, w1) ->
                           genAI (gemini w1) = None /\ model (gemini w1) = None) as K.
    { intros out w1 E. rewrite E in Q. destruct Q as (Gq & _). cbn in Gq.
      rewrite Gq. now split. }
    split; intros [| i] req H; cbn [serve];
      destruct (handler r0 req0 w) as [out w1] eqn:E;
      destruct (K out w1 eq_refl) as (G1 & M1);
      destruct (IH w1 G1 M1) as (IHc & IHs);
      destruct (serve rest w1) as [outs w2] eqn:Es; cbn [fst] in *.
    + intros N. cbn in H. injection H as -> ->. cbn [handler] in E.
      rewrite (chat_without_client req w G N) in E. injection E as <- _.
      reflexivity.
    + intros N. cbn in H |- *. now apply (IHc i req).
    + cbn in H. injection H as -> ->. cbn [handler] in E.
      rewrite (status_without_client req w G) in E. injection E as <- _.
      eexists. reflexivity.
    + cbn in H |- *. now apply (IHs i req).
Qed.

(** C8, as amended.  When the credential is unset at process start, then
    through every sequence of requests to the routes of the server: the
    gateway singleton stays what the constructor made it, with no client
    and no model; no prompt is ever sent to the generation service; every
    [GET /api/chatbot/status] answers [aiAvailable: false] and
    [apiStatus: "disconnected"]; and every [POST /api/chatbot/chat] whose
    [message] is a string with a character that is not white space
    answers 503. *)
Theorem gateway_stays_unavailable (requests : list (route * request))
    (d : database) (f : list fault) (c : list Z) (r : list reply) :
  let w0 := start None d f c r in
  let responses := fst (serve requests w0) in
  let w' := snd (serve requests w0) in
  gemini w' = GeminiService.new None
  /\ genAI (gemini w') = None
  /\ forallb is_store_request (trace w') = true
  /\ (forall (i : nat) req,
         requests !! i = Some (GET_chatbot_status, req) ->
         exists t, responses !! i = Some (Ret (status_disconnected t)))
  /\ (forall (i : nat) req,
         requests !! i = Some (POST_chatbot_chat, req) ->
         nonblank (get (body req) "message") = true ->
         responses !! i = Some (Ret chat_unavailable)).
Proof.
  intros w0 responses w'.
  destruct (serve_quiet requests w0 eq_refl) as (G & events & T & F).
  destruct (serve_without_client requests w0 eq_refl eq_refl) as (C & S).
  fold w' in G, T. split; [exact G |]. split; [now rewrite G |].
  split; [| split; [exact S | exact C]].
  rewrite T. exact F.
Qed.

Lemma gateway_stays_unavailable_witness :
  [(GET_chatbot_status, request_with [] [] []);
   (POST_portfolio, request_with [] [] [("title", JStr "Soup");
                                        ("description", JStr "Of the day");
                                        ("category", JStr "appetizers")]);
   (POST_chatbot_chat, request_with [] [] [("message", JStr "Any soup today?")])]
    !! 2%nat
  = Some (POST_chatbot_chat, request_with [] [] [("message", JStr "Any soup today?")])
  /\ nonblank (get (body (request_with [] [] [("message", JStr "Any soup today?")]))
                   "message") = true
  /\ fst (serve
            [(GET_chatbot_status, request_with [] [] []);
             (POST_portfolio, request_with [] [] [("title", JStr "Soup");
                                                  ("description", JStr "Of the day");
                                                  ("category", JStr "appetizers")]);
             (POST_chatbot_chat,
              request_with [] [] [("message", JStr "Any soup today?")])]
            (start None example_database [] [] [])) !! 2%nat
     = Some (Ret chat_unavailable).
Proof.
  split; [reflexivity |]. split; [reflexivity |].
  apply (proj2 (proj2 (proj2 (proj2
           (gateway_stays_unavailable
              [(GET_chatbot_status, request_with [] [] []);
               (POST_portfolio, request_with [] [] [("title", JStr "Soup");
                                                    ("description", JStr "Of the day");
                                                    ("category", JStr "appetizers")]);
               (POST_chatbot_chat,
                request_with [] [] [("message", JStr "Any soup today?")])]
              example_database [] [] []))))
          2%nat (request_with [] [] [("message", JStr "Any soup today?")]));
    reflexivity.
Defined.

(** C8, as stated, fails.  A message of three spaces is a non-empty
    message; without a credential the chat handler answers it with 400,
    not 503. *)
Lemma blank_message_is_not_503 :
  get (body (request_with [] [] [("message", JStr "   ")])) "message" = JStr "   "
  /\ str_length "   " = 3
  /\ genAI (gemini example_world_no_key) = None
  /\ fst (ChatbotController.chat (request_with [] [] [("message", JStr "   ")])
                                 example_world_no_key)
     = Ret {| status := 400;
              json := obj [("success", JBool false);
                           ("message", JStr "Message is required")] |}.
Proof. repeat split. Qed.

(** ** The chat handler and the catalog context *)

(** The catalog fetch: one request, and rows or an error; nothing else in
    the state moves. *)
Lemma getAvailable_shape (w : world) :
  exists r w1,
    DishModel.getAvailable w = (Ret r, w1)
    /\ trace w1 = trace w ++ [StoreRequest available_query]
    /\ gemini w1 = gemini w /\ replies w1 = replies w /\ clock w1 = clock w
    /\ ((exists rows, r = {| data := JArr (JObj <$> rows); error := None |})
        \/ (exists e, r = {| data := JNull; error := Some e |})).
Proof.
  unfold DishModel.getAvailable, dbHelpers.select, try_catch, bind, send.
  replace (map_to_list (obj [("is_available", JBool true)]))
    with [("is_available", JBool true)].
  2:{ unfold obj. cbn [list_to_map foldr uncurry]. cbn.
      rewrite insert_empty. symmetry. apply map_to_list_singleton. }
  cbn [foldl strict_eq negb andb].
  destruct (next_fault w).
  - unfold exec.
    cbn [q_filters supabase.eq supabase.add_filter supabase.from app forallb
         well_formed negb andb q_operation q_order q_table].
    cbn [error data]. unfold ret.
    eexists _, _. split; [reflexivity |]. repeat (split; [reflexivity |]).
    left. eexists. reflexivity.
  - cbn [error data]. unfold throw, ret.
    eexists _, _. split; [reflexivity |]. repeat (split; [reflexivity |]).
    right. eexists. reflexivity.
  - unfold ret.
    eexists _, _. split; [reflexivity |]. repeat (split; [reflexivity |]).
    right. eexists. reflexivity.
Qed.

(** Rows are objects: mapping them to context entries cannot throw. *)
Lemma context_of_rows (rows : list jsobj) (w : world) :
  exists entries : list jsobj,
    ChatbotController.context_of (JObj <$> rows) w = (Ret (JObj <$> entries), w)
    /\ length entries = length rows.
Proof.
  induction rows as [| row rows (entries & E & L)].
  - exists []. split; reflexivity.
  - eexists (_ :: entries). split.
    + cbn [fmap list_fmap ChatbotController.context_of prop].
      rewrite !bind_ret. rewrite (bind_eq_ret _ _ _ _ _ E). reflexivity.
    + cbn. now rewrite L.
Qed.

Lemma menu_items_entries (entries : list jsobj) (w : world) :
  exists items,
    GeminiService.menu_items (JObj <$> entries) w = (Ret items, w).
Proof.
  induction entries as [| entry entries (items & E)].
  - exists EmptyString. reflexivity.
  - eexists.
    cbn [fmap list_fmap GeminiService.menu_items prop].
    rewrite !bind_ret. rewrite (bind_eq_ret _ _ _ _ _ E). reflexivity.
Qed.

Lemma generateContent_ok (prompt : string) (w : world) (text : string) :
  model (gemini w) <> None ->
  head (replies w) = Some (Generated text) ->
  GeminiService.generateContent prompt w
  = (Ret text, set_replies (tail (replies w)) (log (GenerateContent prompt) w)).
Proof.
  intros Mo R. unfold GeminiService.generateContent.
  destruct (model (gemini w)); [| congruence].
  cbn [replies log].
  destruct (replies w) as [| [t | e] rest]; cbn in R; try discriminate R.
  now injection R as ->.
Qed.

Lemma isAvailable_true (w : world) :
  genAI (gemini w) <> None -> GeminiService.isAvailable w = (Ret true, w).
Proof.
  intros G. unfold GeminiService.isAvailable.
  now rewrite bool_decide_eq_true_2.
Qed.

(** The tail of [generateResponse], once the prompt is composed. *)
Lemma generate_and_stamp (prompt : string) (w : world) (text : string) :
  model (gemini w) <> None ->
  head (replies w) = Some (Generated text) ->
  exists w',
    (text <- GeminiService.generateContent prompt ;;
     timestamp <- now_iso ;;
     ret (obj [("success", JBool true); ("message", JStr text);
               ("timestamp", timestamp)])) w
    = (Ret (obj [("success", JBool true); ("message", JStr text);
                 ("timestamp", JStr (iso_string (default 0 (head (clock w)))))]),
       w')
    /\ trace w' = trace w ++ [GenerateContent prompt].
Proof.
  intros Mo R. eexists. split.
  - rewrite (bind_eq_ret _ _ _ _ _ (generateContent_ok prompt w text Mo R)).
    unfold bind. rewrite now_iso_eq. reflexivity.
  - reflexivity.
Qed.

Lemma generateResponse_ok (message context : jsval) (w : world) (text : string) :
  genAI (gemini w) <> None -> model (gemini w) <> None ->
  head (replies w) = Some (Generated text) ->
  context = JNull \/ (exists entries : list jsobj, context = JArr (JObj <$> entries)) ->
  exists prompt w',
    GeminiService.generateResponse message context w
    = (Ret (obj [("success", JBool true); ("message", JStr text);
                 ("timestamp", JStr (iso_string (default 0 (head (clock w)))))]),
       w')
    /\ trace w' = trace w ++ [GenerateContent prompt]
    /\ (context = JNull \/ context = JArr [] -> prompt = base_prompt message).
Proof.
  intros G Mo R C.
  unfold GeminiService.generateResponse.
  rewrite (bind_eq_ret _ _ _ _ _ (isAvailable_true w G)). cbn [negb].
  unfold try_catch.
  destruct C as [-> | (entries & ->)].
  - cbn [truthy]. rewrite !bind_ret.
    destruct (generate_and_stamp (base_prompt message) w text Mo R) as (w' & E & T).
    exists (base_prompt message), w'.
    unfold base_prompt in E. rewrite E. now split.
  - cbn [truthy has_length]. rewrite bind_ret.
    destruct entries as [| entry entries].
    + cbn [fmap list_fmap].
      rewrite bool_decide_eq_true_2 by reflexivity. cbn [negb].
      rewrite bind_ret.
      destruct (generate_and_stamp (base_prompt message) w text Mo R)
        as (w' & E & T).
      exists (base_prompt message), w'.
      unfold base_prompt in E. rewrite E. now split.
    + rewrite bool_decide_eq_false_2 by discriminate. cbn [negb].
      destruct (menu_items_entries (entry :: entries) w) as (items & I).
      rewrite (bind_eq_ret _ _ _ _ _ (bind_eq_ret _ _ _ _ _ I)).
      match goal with
      | |- context [GeminiService.generateContent ?p] =>
          destruct (generate_and_stamp p w text Mo R) as (w' & E & T);
          exists p, w'
      end.
      rewrite E. split; [reflexivity |]. split; [exact T |].
      intros [H | H]; discriminate H.
Qed.

Lemma truthy_not_false (v : jsval) : truthy v = true -> v <> JBool false.
Proof. intros T ->. discriminate T. Qed.

(** The best-effort catalog fetch of the chat handler: whatever the
    database does, it yields a context or [null], never an exception. *)
Lemma fetch_context (w : world) :
  exists fetched context w1,
    DishModel.getAvailable w = (Ret fetched, w1)
    /\ try_catch
         (dishesResult <- DishModel.getAvailable ;;
          if truthy (data dishesResult)
          then context <- ChatbotController.context_of
                            (elements (data dishesResult)) ;;
               ret (JArr context)
          else ret JNull)
         (fun contextError => ret JNull) w = (Ret context, w1)
    /\ trace w1 = trace w ++ [StoreRequest available_query]
    /\ gemini w1 = gemini w /\ replies w1 = replies w /\ clock w1 = clock w
    /\ ((exists rows entries : list jsobj,
           data fetched = JArr (JObj <$> rows)
           /\ context = JArr (JObj <$> entries)
           /\ length entries = length rows)
        \/ (data fetched = JNull /\ context = JNull)).
Proof.
  destruct (getAvailable_shape w) as (r & w1 & E & T1 & G1 & R1 & C1 & S).
  unfold try_catch. rewrite (bind_eq_ret _ _ _ _ _ E).
  destruct S as [(rows & ->) | (e & ->)]; cbn [data truthy elements].
  - destruct (context_of_rows rows w1) as (entries & Ec & L).
    rewrite (bind_eq_ret _ _ _ _ _ Ec). unfold ret.
    eexists _, _, w1. split; [exact E |]. split; [reflexivity |].
    repeat (split; [assumption |]).
    left. exists rows, entries. now repeat split.
  - unfold ret.
    eexists _, _, w1. split; [exact E |]. split; [reflexivity |].
    repeat (split; [assumption |]).
    right. now split.
Qed.

(** C10.  In the chat handler, with the gateway available, a message that
    is not blank and a generation that succeeds: the handler responds 200
    in every case; it fetches the catalog exactly when [includeContext] is
    truthy (it is [true] when left out); the [contextIncluded] flag is true
    if and only if [includeContext] was not [false], the catalog fetch was
    made and the [data] it returned is not [null].  When that [data] is the
    empty list the flag is true although the prompt sent carries no menu
    item; when the fetch failed or returned [null] the flag is false. *)
Theorem context_flag (req : request) (w : world) (text : string) :
  genAI (gemini w) <> None -> model (gemini w) <> None ->
  nonblank (get (body req) "message") = true ->
  head (replies w) = Some (Generated text) ->
  let message := get (body req) "message" in
  let includeContext := get_default (body req) "includeContext" (JBool true) in
  exists fetched w1 fetch_events prompt timestamp included w',
    DishModel.getAvailable w = (Ret fetched, w1)
    /\ ChatbotController.chat req w
       = (Ret (chat_answer message text timestamp included), w')
    /\ trace w' = trace w ++ fetch_events ++ [GenerateContent prompt]
    /\ (fetch_events = [StoreRequest available_query] \/ fetch_events = [])
    /\ (fetch_events = [StoreRequest available_query]
        <-> truthy includeContext = true)
    /\ (included = true
        <-> includeContext <> JBool false
            /\ fetch_events = [StoreRequest available_query]
            /\ data fetched <> JNull)
    /\ (fetch_events = [StoreRequest available_query] ->
        data fetched = JArr [] ->
        included = true /\ prompt = base_prompt message)
    /\ (data fetched = JNull -> included = false).
Proof.
  intros G Mo N R message includeContext.
  destruct (fetch_context w)
    as (r & context & w1 & E & Ef & T1 & G1 & R1 & C1 & S).
  exists r, w1.
  unfold ChatbotController.chat. cbv zeta. unfold try_catch at 1.
  rewrite (bind_eq_ret _ _ _ _ _ (blank_nonblank _ w N)).
  rewrite (bind_eq_ret _ _ _ _ _ (isAvailable_true w G)). cbn [negb].
  fold message includeContext.
  destruct (truthy includeContext) eqn:TI.
  - rewrite (bind_eq_ret _ _ _ _ _ Ef).
    assert (genAI (gemini w1) <> None) as G' by now rewrite G1.
    assert (model (gemini w1) <> None) as Mo' by now rewrite G1.
    assert (head (replies w1) = Some (Generated text)) as R' by now rewrite R1.
    destruct S as [(rows & entries & D & -> & L) | (D & ->)].
    + destruct (generateResponse_ok message (JArr (JObj <$> entries)) w1 text
                  G' Mo' R' (or_intror (ex_intro _ entries eq_refl)))
        as (prompt & w' & Eg & Tg & P).
      rewrite (bind_eq_ret _ _ _ _ _ Eg).
      exists [StoreRequest available_query], prompt,
        (JStr (iso_string (default 0 (head (clock w1))))), true, w'.
      split; [exact E |]. split; [reflexivity |].
      split; [now rewrite Tg, T1, <- app_assoc |].
      split; [now left |]. split; [tauto |].
      split; [split; [intros _ | reflexivity] |].
      { split; [now apply truthy_not_false |].
        split; [reflexivity | rewrite D; discriminate]. }
      split; [| rewrite D; discriminate].
      intros _ D'. split; [reflexivity |]. apply P. right.
      rewrite D in D'. injection D' as D'. destruct rows; [| discriminate D'].
      destruct entries; [reflexivity | discriminate L].
    + destruct (generateResponse_ok message JNull w1 text G' Mo' R' (or_introl eq_refl))
        as (prompt & w' & Eg & Tg & P).
      rewrite (bind_eq_ret _ _ _ _ _ Eg).
      exists [StoreRequest available_query], prompt,
        (JStr (iso_string (default 0 (head (clock w1))))), false, w'.
      split; [exact E |]. split; [reflexivity |].
      split; [now rewrite Tg, T1, <- app_assoc |].
      split; [now left |]. split; [tauto |].
      split; [split; [discriminate | intros (_ & _ & D'); now contradiction D'] |].
      split; [rewrite D; discriminate | reflexivity].
  - rewrite bind_ret.
    destruct (generateResponse_ok message JNull w text G Mo R (or_introl eq_refl))
      as (prompt & w' & Eg & Tg & P).
    rewrite (bind_eq_ret _ _ _ _ _ Eg).
    exists [], prompt, (JStr (iso_string (default 0 (head (clock w))))), false, w'.
    split; [exact E |]. split; [reflexivity |].
    split; [exact Tg |]. split; [now right |].
    split; [split; discriminate |].
    split; [split; [discriminate | intros (_ & D & _); discriminate D] |].
    split; [discriminate | reflexivity].
Qed.

Lemma context_flag_witness :
  genAI (gemini example_world) <> None
  /\ model (gemini example_world) <> None
  /\ nonblank (get (body (request_with [] [] [("message", JStr "Any specials?")]))
                   "message") = true
  /\ head (replies example_world) = Some (Generated "Welcome!")
  /\ exists timestamp included w',
       ChatbotController.chat
         (request_with [] [] [("message", JStr "Any specials?")]) example_world
       = (Ret (chat_answer (JStr "Any specials?") "Welcome!" timestamp included),
          w').
Proof.
  split; [discriminate |]. split; [discriminate |].
  split; [reflexivity |]. split; [reflexivity |].
  destruct (context_flag
              (request_with [] [] [("message", JStr "Any specials?")])
              example_world "Welcome!")
    as (fetched & w1 & events & prompt & timestamp & included & w' & _ & E & _);
    [discriminate | discriminate | reflexivity | reflexivity |].
  exists timestamp, included, w'. exact E.
Defined.

(** The same request, run: the catalog is fetched and the flag is set. *)
Example chat_with_context :
  fst (ChatbotController.chat
         (request_with [] [] [("message", JStr "Any specials?")]) example_world)
  = Ret (chat_answer (JStr "Any specials?") "Welcome!"
                     (JStr "2023-11-14T22:13:20.000Z") true).
Proof. reflexivity. Qed.

(** [includeContext: null] is not [false], yet no catalog is fetched. *)
Example chat_with_null_flag :
  let w' := snd (ChatbotController.chat
                   (request_with [] [] [("message", JStr "Any specials?");
                                        ("includeContext", JNull)])
                   example_world) in
  forallb (fun e => negb (is_store_request e)) (trace w') = true
  /\ fst (ChatbotController.chat
            (request_with [] [] [("message", JStr "Any specials?");
                                 ("includeContext", JNull)]) example_world)
     = Ret (chat_answer (JStr "Any specials?") "Welcome!"
                        (JStr "2023-11-14T22:13:20.000Z") false).
Proof. split; reflexivity. Qed.

(* ===================================================================== *)
(** * Further properties of the handlers *)
(* ===================================================================== *)

(** ** Every request gets a response *)

Lemma settles_bind {A} (m : M A) (k : A -> M response) :
  (forall a, settles (k a)) -> settles (bind m k).
Proof.
  intros H w. unfold bind. destruct (m w) as [[a | e] w1]; [apply H | exact I].
Qed.

Lemma settles_respond (code : Z) (fields : list (string * jsval)) :
  known_status code = true -> settles (respond code fields).
Proof. intros H w. exact H. Qed.

Lemma settles_ret (r : response) :
  known_status (status r) = true -> settles (ret r).
Proof. intros H w. exact H. Qed.

(** A handler whose body settles and whose [catch] block responds always
    returns a response. *)
Lemma try_catch_responds (m : M response) (h : jserror -> M response) (w : world) :
  settles m ->
  (forall e w1, exists r, h e w1 = (Ret r, w1) /\ known_status (status r) = true) ->
  exists r w', try_catch m h w = (Ret r, w') /\ known_status (status r) = true.
Proof.
  intros S H. unfold try_catch. specialize (S w).
  destruct (m w) as [[r | e] w1]; cbn [fst] in S.
  - eauto.
  - destruct (H e w1) as (r & E & K). eauto.
Qed.

Ltac settle_step :=
  lazymatch goal with
  | |- settles (bind _ _) => apply settles_bind; intros ?
  | |- settles (respond _ _) => apply settles_respond; reflexivity
  | |- settles (ret {| status := if ?b then _ else _; json := _ |}) =>
      apply settles_ret; cbn [status]; destruct b; reflexivity
  | |- settles (if ?b then _ else _) => destruct b
  | |- settles (match ?x with _ => _ end) => destruct x
  end.

Ltac settle :=
  apply try_catch_responds;
  [ cbv zeta; repeat settle_step
  | intros ? ?; eexists; split; reflexivity ].

(** X1.  No handler lets an exception escape: whatever the request and
    whatever the database and the generation service do, each of the 21
    routes returns a response, and its status is one of 200, 201, 400,
    404, 500, 503. *)
Theorem every_request_is_answered (r : route) (req : request) (w : world) :
  exists resp w',
    handler r req w = (Ret resp, w') /\ known_status (status resp) = true.
Proof.
  destruct r; cbn [handler].
  - unfold PortfolioController.getAllDishes. settle.
  - unfold PortfolioController.getStats. settle.
  - unfold PortfolioController.getCategories. settle.
  - unfold PortfolioController.getDishById. settle.
  - unfold PortfolioController.createDish. settle.
  - unfold PortfolioController.updateDish. settle.
  - unfold PortfolioController.deleteDish. settle.
  - unfold ContactController.submitContact. settle.
  - unfold ContactController.getAllMessages. settle.
  - unfold ContactController.getContactStats. settle.
  - unfold ContactController.getRecentMessages. settle.
  - unfold ContactController.searchMessages. settle.
  - unfold ContactController.getMessageById. settle.
  - unfold ContactController.updateMessageStatus. settle.
  - unfold ContactController.deleteMessage. settle.
  - unfold ChatbotController.chat. settle.
  - unfold ChatbotController.getFoodRecommendation. settle.
  - unfold ChatbotController.getCookingTip. settle.
  - unfold ChatbotController.getStatus. settle.
  - unfold ChatbotController.testAI. settle.
  - unfold ChatbotController.getConversationHistory. settle.
Qed.

(** ** The routes that only read *)

Lemma reads_ret {A} (a : A) : reads (ret a).
Proof. intros w. reflexivity. Qed.

Lemma reads_throw {A} (e : jserror) : reads (@throw A e).
Proof. intros w. reflexivity. Qed.

Lemma reads_bind {A B} (m : M A) (k : A -> M B) :
  reads m -> (forall a, reads (k a)) -> reads (bind m k).
Proof.
  intros Hm Hk w. unfold bind. specialize (Hm w).
  destruct (m w) as [[a | e] w1]; cbn [snd] in *; [| exact Hm].
  now rewrite Hk.
Qed.

Lemma reads_try_catch {A} (m : M A) (h : jserror -> M A) :
  reads m -> (forall e, reads (h e)) -> reads (try_catch m h).
Proof.
  intros Hm Hh w. unfold try_catch. specialize (Hm w).
  destruct (m w) as [[a | e] w1]; cbn [snd] in *; [exact Hm |].
  now rewrite Hh.
Qed.

(** A selection changes nothing in the database. *)
Lemma reads_send (q : store_query) (columns : string) :
  q_operation q = Select columns -> reads (send q).
Proof.
  intros H w. unfold send. destruct (next_fault w); try reflexivity.
  unfold exec. rewrite H. destruct (negb _); reflexivity.
Qed.

Lemma reads_select table columns filters :
  reads (dbHelpers.select table columns filters).
Proof.
  unfold dbHelpers.select.
  apply reads_try_catch; [| intros; apply reads_ret].
  apply reads_bind.
  - apply reads_send with (columns := columns). apply select_query_operation.
  - intros r. destruct (error r); [apply reads_throw | apply reads_ret].
Qed.

Lemma reads_new_Date : reads new_Date.
Proof. intros w. reflexivity. Qed.

Lemma reads_toISOString (d : date) : reads (toISOString d).
Proof. destruct d; [apply reads_ret | apply reads_throw]. Qed.

Lemma reads_now_iso : reads now_iso.
Proof. apply reads_bind; [apply reads_new_Date | apply reads_toISOString]. Qed.

Lemma reads_isAvailable : reads GeminiService.isAvailable.
Proof. intros w. reflexivity. Qed.

Lemma reads_generateContent (prompt : string) :
  reads (GeminiService.generateContent prompt).
Proof.
  intros w. unfold GeminiService.generateContent.
  destruct (model (gemini w)); [| reflexivity].
  cbn [replies log]. destruct (replies w) as [| [t | e] rest]; reflexivity.
Qed.

Lemma reads_prop (v : jsval) (k : string) : reads (prop v k).
Proof. destruct v; first [apply reads_ret | apply reads_throw]. Qed.

Lemma reads_first_of (v : jsval) : reads (first_of v).
Proof. destruct v; first [apply reads_ret | apply reads_throw]. Qed.

Lemma reads_js_trim (v : jsval) : reads (js_trim v).
Proof. destruct v; first [apply reads_ret | apply reads_throw]. Qed.

Lemma reads_blank (v : jsval) : reads (blank v).
Proof.
  unfold blank. destruct (negb (truthy v)); [apply reads_ret |].
  apply reads_bind; [apply reads_js_trim | intros; apply reads_ret].
Qed.

Lemma reads_has_length (v : jsval) : reads (has_length v).
Proof.
  destruct v; cbn [has_length]; try apply reads_ret;
    (apply reads_bind; [apply reads_prop | intros; apply reads_ret]).
Qed.

Lemma reads_respond (code : Z) (fields : list (string * jsval)) :
  reads (respond code fields).
Proof. apply reads_ret. Qed.

Ltac reads_step :=
  lazymatch goal with
  | |- reads (bind _ _) => apply reads_bind; [| intros ?]
  | |- reads (try_catch _ _) => apply reads_try_catch; [| intros ?]
  | |- reads (ret _) => apply reads_ret
  | |- reads (throw _) => apply reads_throw
  | |- reads (respond _ _) => apply reads_respond
  | |- reads (dbHelpers.select _ _ _) => apply reads_select
  | |- reads now_iso => apply reads_now_iso
  | |- reads new_Date => apply reads_new_Date
  | |- reads (toISOString _) => apply reads_toISOString
  | |- reads GeminiService.isAvailable => apply reads_isAvailable
  | |- reads (GeminiService.generateContent _) => apply reads_generateContent
  | |- reads (prop _ _) => apply reads_prop
  | |- reads (first_of _) => apply reads_first_of
  | |- reads (blank _) => apply reads_blank
  | |- reads (has_length _) => apply reads_has_length
  | |- reads (send _) => apply reads_send with (columns := "*"); reflexivity
  | |- reads (if ?b then _ else _) => destruct b
  | |- reads (match ?x with _ => _ end) => destruct x
  end.

Ltac reads_all := cbv zeta; repeat reads_step.

Lemma reads_menu_items (dishes : list jsval) :
  reads (GeminiService.menu_items dishes).
Proof.
  induction dishes as [| dish rest IH]; cbn [GeminiService.menu_items];
    reads_all. exact IH.
Qed.

Lemma reads_context_of (dishes : list jsval) :
  reads (ChatbotController.context_of dishes).
Proof.
  induction dishes as [| dish rest IH]; cbn [ChatbotController.context_of];
    reads_all. exact IH.
Qed.

Lemma reads_count_by (k : string) (rows : list jsval) (counts : jsobj) :
  reads (count_by k rows counts).
Proof.
  revert counts. induction rows as [| row rest IH]; intros counts;
    cbn [count_by]; reads_all. apply IH.
Qed.

(** X2.  The routes that only read leave the database exactly as it was:
    for every [GET] route and for the three [POST] routes of the chatbot,
    whatever the request and the state, the tables and the identifier
    counter after the handler are those before it. *)
Theorem read_only_routes_keep_the_database (r : route) (req : request)
    (w : world) :
  read_only r = true -> store (snd (handler r req w)) = store w.
Proof.
  intros H. revert w. change (reads (handler r req)).
  destruct r; try discriminate H; cbn [handler].
  - unfold PortfolioController.getAllDishes, PortfolioController.internal_error,
      DishModel.search, DishModel.getFeatured, DishModel.getAvailable,
      DishModel.getByCategory, DishModel.getAll. reads_all.
  - unfold PortfolioController.getStats, PortfolioController.internal_error,
      DishModel.getFeatured, DishModel.getAvailable, DishModel.getAll.
    reads_all; apply reads_count_by.
  - unfold PortfolioController.getCategories,
      PortfolioController.internal_error. reads_all.
  - unfold PortfolioController.getDishById, PortfolioController.internal_error,
      DishModel.getById. reads_all.
  - unfold ContactController.getAllMessages, ContactController.internal_error,
      ContactModel.getByStatus, ContactModel.getAll. reads_all.
  - unfold ContactController.getContactStats, ContactController.internal_error,
      ContactModel.getByStatus, ContactModel.getAll, ContactModel.getRecent.
    reads_all; apply reads_count_by.
  - unfold ContactController.getRecentMessages,
      ContactController.internal_error, ContactModel.getRecent. reads_all.
  - unfold ContactController.searchMessages, ContactController.internal_error,
      ContactModel.search. reads_all.
  - unfold ContactController.getMessageById, ContactController.internal_error,
      ContactModel.getById. reads_all.
  - unfold ChatbotController.chat, GeminiService.generateResponse,
      DishModel.getAvailable.
    reads_all; first [apply reads_context_of | apply reads_menu_items].
  - unfold ChatbotController.getFoodRecommendation,
      GeminiService.generateFoodRecommendation. reads_all.
  - unfold ChatbotController.getCookingTip, GeminiService.generateCookingTip.
    reads_all.
  - unfold ChatbotController.getStatus. reads_all.
  - unfold ChatbotController.testAI, GeminiService.testConnection. reads_all.
  - unfold ChatbotController.getConversationHistory. reads_all.
Qed.

Lemma read_only_routes_keep_the_database_witness :
  read_only GET_portfolio_stats = true
  /\ store (snd (handler GET_portfolio_stats (request_with [] [] [])
                         example_world))
     = store example_world.
Proof.
  split; [reflexivity |].
  exact (read_only_routes_keep_the_database GET_portfolio_stats
           (request_with [] [] []) example_world eq_refl).
Defined.

(** ** Requests that reach the database, step by step *)

Lemma store_answers_next_S (n : nat) (w : world) (q : store_query) :
  store_answers_next (S n) w ->
  store_answers w /\ store_answers_next n (sent q w).
Proof.
  unfold store_answers_next, store_answers, next_fault.
  cbn [sent faults set_faults log].
  destruct (faults w) as [| f l]; cbn [take head tail forallb default].
  - intros _. split; [reflexivity |]. now destruct n.
  - intros H. apply andb_true_iff in H as [Hf Hl].
    split; [now destruct f | exact Hl].
Qed.

Lemma next_fault_after_clock (w : world) :
  next_fault (set_clock (tail (clock w)) w) = next_fault w.
Proof. reflexivity. Qed.

(** [select] with no filter, with the state it leaves. *)
Lemma select_all_sent table columns w :
  store_answers w ->
  dbHelpers.select table columns (obj []) w
  = (Ret {| data := JArr (JObj <$> rows_of (store w) table); error := None |},
     sent (supabase.from table (Select columns)) w).
Proof.
  intros A.
  unfold dbHelpers.select, try_catch, bind, send.
  replace (map_to_list (obj [])) with (@nil (string * jsval))
    by (symmetry; apply (map_to_list_empty (M := gmap string))).
  cbn [foldl]. rewrite A.
  unfold exec. cbn. rewrite filter_hit_none by reflexivity. reflexivity.
Qed.

(** [select] with one equality filter, with the state it leaves. *)
Lemma select_eq_sent table columns k v w :
  negb (strict_eq v JUndefined) && negb (strict_eq v JNull) = true ->
  store_answers w ->
  dbHelpers.select table columns (obj [(k, v)]) w
  = (Ret {| data := JArr (JObj <$> List.filter (row_matches (Eq k v))
                                     (rows_of (store w) table));
            error := None |},
     sent (supabase.eq k v (supabase.from table (Select columns))) w).
Proof.
  intros T A.
  unfold dbHelpers.select, try_catch, bind, send.
  replace (map_to_list (obj [(k, v)])) with [(k, v)].
  2:{ unfold obj. cbn [list_to_map foldr uncurry]. cbn.
      rewrite insert_empty. symmetry. apply map_to_list_singleton. }
  cbn [foldl]. rewrite T, A.
  unfold exec. cbn.
  rewrite (filter_hit_one (Eq k v)) by reflexivity. reflexivity.
Qed.

Lemma rows_of_alter (f : list jsobj -> list jsobj) (d : database)
    (table : string) (n : Z) :
  f [] = [] ->
  rows_of {| tables := alter f table (tables d); next_id := n |} table
  = f (rows_of d table).
Proof.
  intros H. unfold rows_of. cbn [tables]. rewrite lookup_alter_eq.
  destruct (tables d !! table); cbn; [reflexivity | now rewrite H].
Qed.

Lemma rows_of_alter_ne (f : list jsobj -> list jsobj) (d : database)
    (table other : string) (n : Z) :
  table <> other ->
  rows_of {| tables := alter f table (tables d); next_id := n |} other
  = rows_of d other.
Proof.
  intros H. unfold rows_of. cbn [tables]. now rewrite lookup_alter_ne.
Qed.

(** An update that reaches the database: what it returns and what it
    leaves. *)
Lemma update_sent table id changes w :
  store_answers w ->
  exists w',
    dbHelpers.update table id changes w
    = (Ret {| data := JArr (JObj <$> ((fun r => serialise changes ∪ r)
                                        <$> List.filter (has_id id)
                                              (rows_of (store w) table)));
              error := None |}, w')
    /\ rows_of (store w') table
       = map (fun r => if has_id id r then serialise changes ∪ r else r)
             (rows_of (store w) table)
    /\ (forall other, table <> other ->
                      rows_of (store w') other = rows_of (store w) other)
    /\ trace w' = trace w ++ [StoreRequest
                                (supabase.returning
                                   (supabase.eq "id" id
                                      (supabase.from table (Update changes))))]
    /\ faults w' = tail (faults w) /\ clock w' = clock w.
Proof.
  intros A. eexists. split; [| split; [| split]].
  - unfold dbHelpers.update, try_catch, bind, send. rewrite A.
    unfold exec.
    cbn [q_filters supabase.returning supabase.eq supabase.add_filter
         supabase.from app forallb well_formed negb andb
         q_operation q_returning q_table].
    rewrite (filter_hit_one (Eq "id" id)) by reflexivity.
    cbn [error data]. unfold ret. reflexivity.
  - cbn [store set_store]. rewrite rows_of_alter by reflexivity.
    apply map_ext. intros r.
    now rewrite (hit_one (Eq "id" id)) by reflexivity.
  - intros other H. cbn [store set_store]. now apply rows_of_alter_ne.
  - repeat split.
Qed.

(** A deletion that reaches the database: what it leaves. *)
Lemma delete_sent table id w :
  store_answers w ->
  exists w',
    dbHelpers.delete table id w
    = (Ret {| data := JUndefined; error := None |}, w')
    /\ rows_of (store w') table
       = List.filter (fun r => negb (has_id id r)) (rows_of (store w) table)
    /\ (forall other, table <> other ->
                      rows_of (store w') other = rows_of (store w) other)
    /\ faults w' = tail (faults w) /\ clock w' = clock w.
Proof.
  intros A. eexists. split; [| split; [| split]].
  - unfold dbHelpers.delete, try_catch, bind, send. rewrite A.
    unfold exec.
    cbn [q_filters supabase.eq supabase.add_filter supabase.from app forallb
         well_formed negb andb q_operation q_returning q_table].
    cbn [error data]. unfold ret. reflexivity.
  - cbn [store set_store]. rewrite rows_of_alter by reflexivity.
    apply filter_ext. intros r.
    now rewrite (hit_one (Eq "id" id)) by reflexivity.
  - intros other H. cbn [store set_store]. now apply rows_of_alter_ne.
  - split; reflexivity.
Qed.

(** An insertion that reaches the database: what it returns and what it
    leaves. *)
Lemma insert_sent table record w :
  store_answers w ->
  exists w',
    let row := serialise record ∪ {[ "id" := JStr (decimal (next_id (store w))) ]} in
    dbHelpers.insert table record w
    = (Ret {| data := JArr [JObj row]; error := None |}, w')
    /\ rows_of (store w') table = rows_of (store w) table ++ [row]
    /\ next_id (store w') = next_id (store w) + 1
    /\ faults w' = tail (faults w) /\ clock w' = clock w.
Proof.
  intros A. eexists. cbv zeta. split; [| split].
  - unfold dbHelpers.insert, try_catch, bind, send. rewrite A.
    unfold exec.
    cbn [q_filters supabase.returning supabase.from forallb negb
         q_operation q_returning q_table].
    cbn [error data]. unfold ret. reflexivity.
  - cbn [store set_store]. unfold rows_of at 1. cbn [tables].
    now rewrite lookup_insert_eq.
  - repeat split.
Qed.

(** ** Updating the status of a contact message *)

Lemma valid_status_defined (status : jsval) :
  existsb (strict_eq status) ContactController.validStatuses = true ->
  is_defined status = true.
Proof. destruct status; cbn; congruence. Qed.

Lemma status_changes (status now : jsval) (r : jsobj) :
  is_defined status = true -> is_defined now = true ->
  serialise (obj [("status", status); ("updated_at", now)]) ∪ r
  = with_status status now r.
Proof.
  intros Ds Dn. unfold serialise, with_status.
  rewrite map_filter_id.
  - unfold obj. cbn [list_to_map foldr uncurry]. cbn.
    rewrite <- !insert_union_l. now rewrite (left_id ∅ (∪)).
  - intros k v H. unfold obj in H. cbn [list_to_map foldr uncurry] in H. cbn in H.
    apply lookup_insert_Some in H as [[_ <-] | [_ H]]; [exact Ds |].
    apply lookup_insert_Some in H as [[_ <-] | [_ H]]; [exact Dn |].
    discriminate H.
Qed.

Lemma existsb_filter {A} (p : A -> bool) (l : list A) :
  existsb p l = match List.filter p l with [] => false | _ :: _ => true end.
Proof.
  induction l as [| x l IH]; cbn; [reflexivity |].
  destruct (p x); cbn; [reflexivity | exact IH].
Qed.

Lemma updateStatus_sent (id status : jsval) (w : world) :
  is_defined status = true -> store_answers w ->
  exists w',
    ContactModel.updateStatus id status w
    = (Ret {| data := JArr (JObj <$> (with_status status (clock_text w)
                                        <$> List.filter (has_id id)
                                              (rows_of (store w) "contact_messages")));
              error := None |}, w')
    /\ rows_of (store w') "contact_messages"
       = map (fun r => if has_id id r
                       then with_status status (clock_text w) r else r)
             (rows_of (store w) "contact_messages")
    /\ rows_of (store w') "dishes" = rows_of (store w) "dishes".
Proof.
  intros D A. unfold ContactModel.updateStatus, bind. rewrite now_iso_eq.
  match goal with
  | |- context [dbHelpers.update ?t ?i ?c ?w1] =>
      destruct (update_sent t i c w1 A) as (w' & E & Rw & Ro & _)
  end.
  unfold ContactModel.tableName in *.
  exists w'. split; [| split].
  - rewrite E. cbn [store set_clock]. unfold clock_text.
    erewrite (list_fmap_ext (fun r => _ ∪ r)); [reflexivity |].
    intros i r _. now apply status_changes.
  - rewrite Rw. cbn [store set_clock]. apply map_ext. intros r.
    destruct (has_id id r); [| reflexivity]. now apply status_changes.
  - rewrite Ro by discriminate. reflexivity.
Qed.

(** X3.  [PUT /api/contact/:id/status] with a valid status, when the
    request reaches the database: the rows of [contact_messages] whose
    [id] matches get the new [status] and a fresh [updated_at], every other
    column of theirs and every other row stays as it was, the table of
    dishes is untouched; the response is 200 when some row matched and 404
    when none did. *)
Theorem status_update_effect (req : request) (w : world) :
  existsb (strict_eq (get (body req) "status")) ContactController.validStatuses
  = true ->
  store_answers w ->
  let id := get (params req) "id" in
  let new_status := get (body req) "status" in
  let messages := rows_of (store w) "contact_messages" in
  exists resp w',
    ContactController.updateMessageStatus req w = (Ret resp, w')
    /\ status resp = (if existsb (has_id id) messages then 200 else 404)
    /\ rows_of (store w') "contact_messages"
       = map (fun r => if has_id id r
                       then with_status new_status (clock_text w) r else r)
             messages
    /\ rows_of (store w') "dishes" = rows_of (store w) "dishes".
Proof.
  intros V A id new_status messages.
  destruct (updateStatus_sent id new_status w (valid_status_defined _ V) A)
    as (w' & E & Rw & Ro).
  subst id new_status messages.
  unfold ContactController.updateMessageStatus, try_catch.
  rewrite V. cbn [negb].
  rewrite (bind_eq_ret _ _ _ _ _ E). cbn [error data truthy elements negb orb].
  rewrite existsb_filter.
  destruct (List.filter _ _) as [| r l].
  - eexists _, w'. split; [reflexivity |]. now repeat split.
  - eexists _, w'. split; [reflexivity |]. now repeat split.
Qed.

Lemma status_update_effect_witness :
  existsb (strict_eq (get (body (request_with [("id", JStr "5")] []
                                   [("status", JStr "completed")])) "status"))
          ContactController.validStatuses = true
  /\ store_answers example_world
  /\ exists resp w',
       ContactController.updateMessageStatus
         (request_with [("id", JStr "5")] [] [("status", JStr "completed")])
         example_world = (Ret resp, w')
       /\ status resp = 200
       /\ rows_of (store w') "contact_messages"
          = [inquiry "3" "Ada" "new"; inquiry "4" "Bo" "new";
             with_status (JStr "completed") (JStr "2023-11-14T22:13:20.000Z")
                         (inquiry "5" "Cy" "archived");
             inquiry "6" "Di" "new"].
Proof.
  split; [reflexivity |]. split; [reflexivity |].
  destruct (status_update_effect
              (request_with [("id", JStr "5")] [] [("status", JStr "completed")])
              example_world eq_refl eq_refl) as (resp & w' & E & S & R & _).
  exists resp, w'. split; [exact E |]. split; [exact S | exact R].
Defined.

(** ** Requests turned down on inspection *)




(** ** Looking up and deleting one dish *)

Lemma getById_sent (s : string) (w : world) :
  store_answers w ->
  exists w',
    DishModel.getById (JStr s) w
    = (Ret {| data := first (JArr (JObj <$> List.filter (has_id (JStr s))
                                              (rows_of (store w) "dishes")));
              error := None |}, w')
    /\ store w' = store w /\ faults w' = tail (faults w).
Proof.
  intros A. eexists. split.
  - unfold DishModel.getById.
    rewrite (bind_eq_ret _ _ _ _ _
               (select_eq_sent DishModel.tableName "*" "id" (JStr s) w eq_refl A)).
    reflexivity.
  - split; reflexivity.
Qed.

(** The lookup of one dish, as the later properties use it. *)
Lemma getDishById_answers (req : request) (s : string) (w : world) :
  get (params req) "id" = JStr s ->
  store_answers w ->
  exists w',
    PortfolioController.getDishById req w
    = (Ret match List.filter (has_id (JStr s)) (rows_of (store w) "dishes") with
           | dish :: _ => dish_found dish
           | [] => dish_not_found
           end, w')
    /\ store w' = store w.
Proof.
  intros P A. destruct (getById_sent s w A) as (w' & E & S & _).
  exists w'. split; [| exact S].
  unfold PortfolioController.getDishById, try_catch. rewrite P.
  rewrite (bind_eq_ret _ _ _ _ _ E). cbn [error data].
  destruct (List.filter _ _) as [| dish l]; reflexivity.
Qed.

(** X5.  [GET /api/portfolio/:id], when the request reaches the database:
    the response is 200 with the first stored dish whose [id] matches, and
    404 when there is none; the database is left as it was. *)
Theorem dish_lookup (req : request) (s : string) (w : world) :
  get (params req) "id" = JStr s ->
  store_answers w ->
  exists w',
    PortfolioController.getDishById req w
    = (Ret match List.filter (has_id (JStr s)) (rows_of (store w) "dishes") with
           | dish :: _ => dish_found dish
           | [] => dish_not_found
           end, w')
    /\ store w' = store w.
Proof.
  intros P A. destruct (getById_sent s w A) as (w' & E & S & _).
  exists w'. split; [| exact S].
  unfold PortfolioController.getDishById, try_catch. rewrite P.
  rewrite (bind_eq_ret _ _ _ _ _ E). cbn [error data].
  destruct (List.filter _ _) as [| dish l]; reflexivity.
Qed.

Lemma dish_lookup_witness :
  get (params (request_with [("id", JStr "2")] [] [])) "id" = JStr "2"
  /\ store_answers example_world
  /\ exists w',
       PortfolioController.getDishById (request_with [("id", JStr "2")] [] [])
                                       example_world
       = (Ret (dish_found tiramisu), w').
Proof.
  split; [reflexivity |]. split; [reflexivity |].
  destruct (dish_lookup (request_with [("id", JStr "2")] [] []) "2"
                        example_world eq_refl eq_refl) as (w' & E & _).
  exists w'. exact E.
Defined.

Lemma deleteDish_sent (req : request) (w : world) :
  store_answers w ->
  exists w',
    PortfolioController.deleteDish req w = (Ret dish_deleted, w')
    /\ rows_of (store w') "dishes"
       = List.filter (fun r => negb (has_id (get (params req) "id") r))
                     (rows_of (store w) "dishes")
    /\ rows_of (store w') "contact_messages"
       = rows_of (store w) "contact_messages"
    /\ faults w' = tail (faults w).
Proof.
  intros A.
  destruct (delete_sent DishModel.tableName (get (params req) "id") w A)
    as (w' & E & R & Ro & F & _).
  exists w'. split; [| split; [exact R | split; [| exact F]]].
  - unfold PortfolioController.deleteDish, try_catch, DishModel.delete.
    rewrite (bind_eq_ret _ _ _ _ _ E). reflexivity.
  - apply Ro. discriminate.
Qed.

Lemma filter_negb_none {A} (p : A -> bool) (l : list A) :
  List.filter p (List.filter (fun x => negb (p x)) l) = [].
Proof.
  induction l as [| x l IH]; cbn; [reflexivity |].
  destruct (p x) eqn:E; cbn; [exact IH | now rewrite E].
Qed.

(** X6.  [DELETE /api/portfolio/:id], when the request reaches the
    database, removes exactly the dishes whose [id] matches: the dishes
    left are those that did not match, in their order; none of them has
    that [id]; the contact messages are untouched. *)
Theorem delete_removes_the_dish (req : request) (w : world) :
  store_answers w ->
  exists w',
    PortfolioController.deleteDish req w = (Ret dish_deleted, w')
    /\ rows_of (store w') "dishes"
       = List.filter (fun r => negb (has_id (get (params req) "id") r))
                     (rows_of (store w) "dishes")
    /\ existsb (has_id (get (params req) "id")) (rows_of (store w') "dishes")
       = false
    /\ rows_of (store w') "contact_messages"
       = rows_of (store w) "contact_messages".
Proof.
  intros A. destruct (deleteDish_sent req w A) as (w' & E & R & Rc & _).
  exists w'. split; [exact E |]. split; [exact R |]. split; [| exact Rc].
  rewrite existsb_filter, R, filter_negb_none. reflexivity.
Qed.

Lemma delete_removes_the_dish_witness :
  store_answers example_world
  /\ exists w',
       PortfolioController.deleteDish (request_with [("id", JStr "1")] [] [])
                                      example_world
       = (Ret dish_deleted, w')
       /\ rows_of (store w') "dishes" = [tiramisu].
Proof.
  split; [reflexivity |].
  destruct (delete_removes_the_dish (request_with [("id", JStr "1")] [] [])
                                    example_world eq_refl)
    as (w' & E & R & _).
  exists w'. split; [exact E | exact R].
Defined.

(** X7.  A dish that was deleted is not found afterwards: when both
    requests reach the database, [DELETE /api/portfolio/:id] followed by
    [GET /api/portfolio/:id] for the same [id] answers 200, then 404. *)
Theorem deleted_dish_is_gone (req : request) (s : string) (w : world) :
  get (params req) "id" = JStr s ->
  store_answers_next 2 w ->
  fst (serve [(DELETE_portfolio_id, req); (GET_portfolio_id, req)] w)
  = [Ret dish_deleted; Ret dish_not_found].
Proof.
  intros P H.
  assert (store_answers w) as A1.
  { unfold store_answers, next_fault. unfold store_answers_next in H.
    destruct (faults w) as [| [] l]; cbn in *; congruence. }
  destruct (deleteDish_sent req w A1) as (w1 & E1 & R1 & _ & F1).
  assert (store_answers w1) as A2.
  { unfold store_answers, next_fault. rewrite F1.
    unfold store_answers_next in H.
    destruct (faults w) as [| f1 [| [] l]]; cbn in *; try reflexivity;
      destruct f1; cbn in *; congruence. }
  destruct (getDishById_answers req s w1 P A2) as (w2 & E2 & _).
  cbn [serve handler]. rewrite E1, E2. cbn [fst]. do 2 f_equal.
  rewrite R1, P, filter_negb_none. reflexivity.
Qed.

Lemma deleted_dish_is_gone_witness :
  get (params (request_with [("id", JStr "1")] [] [])) "id" = JStr "1"
  /\ store_answers_next 2 example_world
  /\ fst (serve [(DELETE_portfolio_id, request_with [("id", JStr "1")] [] []);
                 (GET_portfolio_id, request_with [("id", JStr "1")] [] [])]
                example_world)
     = [Ret dish_deleted; Ret dish_not_found].
Proof.
  split; [reflexivity |]. split; [reflexivity |].
  exact (deleted_dish_is_gone (request_with [("id", JStr "1")] [] []) "1"
                              example_world eq_refl eq_refl).
Defined.

(** ** Creating a dish and reading it back *)

Lemma create_sent (dishData : jsobj) (w : world) :
  store_answers w ->
  exists (dish : jsobj) w',
    let row := serialise dish ∪ {[ "id" := JStr (decimal (next_id (store w))) ]} in
    DishModel.create (JObj dishData) w
    = (Ret {| data := JArr [JObj row]; error := None |}, w')
    /\ dish !! "id" = None
    /\ rows_of (store w') "dishes" = rows_of (store w) "dishes" ++ [row]
    /\ faults w' = tail (faults w).
Proof.
  intros A. rewrite (Dish_create_reads (JObj dishData) eq_refl). cbn [field].
  unfold bind. rewrite !now_iso_eq.
  match goal with
  | |- context [dbHelpers.insert ?t ?d ?w1] =>
      destruct (insert_sent t d w1 A) as (w' & E & R & _ & F & _);
      exists d, w'
  end.
  cbv zeta in *. split; [exact E |]. split; [reflexivity |].
  split; [exact R | exact F].
Qed.

Lemma new_row_id (dish : jsobj) (id : string) :
  dish !! "id" = None ->
  get (serialise dish ∪ {[ "id" := JStr id ]}) "id" = JStr id.
Proof.
  intros H. unfold get.
  rewrite lookup_union_r.
  - now rewrite lookup_singleton_eq.
  - unfold serialise. apply map_lookup_filter_None. now left.
Qed.

Lemma has_id_self (dish : jsobj) (id : string) :
  dish !! "id" = None ->
  has_id (JStr id) (serialise dish ∪ {[ "id" := JStr id ]}) = true.
Proof.
  intros H. unfold has_id, row_matches. rewrite (new_row_id dish id H).
  cbn [to_string]. apply String.eqb_refl.
Qed.

Lemma filter_fresh {A} (p : A -> bool) (l : list A) (x : A) :
  existsb p l = false -> p x = true -> List.filter p (l ++ [x]) = [x].
Proof.
  intros N H. rewrite List.filter_app. cbn. rewrite H.
  rewrite existsb_filter in N. now destruct (List.filter p l).
Qed.

(** X8.  A dish that was created can be read back: when the identifier
    the database is about to hand out is not in use and both requests
    reach the database, [POST /api/portfolio] with the required fields
    answers 201 with the stored row, and [GET /api/portfolio/:id] for the
    [id] of that row then answers 200 with the same row. *)
Theorem created_dish_is_found (req : request) (w : world) :
  rejected POST_portfolio req = false ->
  store_answers_next 2 w ->
  existsb (has_id (JStr (decimal (next_id (store w))))) (rows_of (store w) "dishes")
  = false ->
  exists (row : jsobj) w1 w2,
    PortfolioController.createDish req w = (Ret (dish_created row), w1)
    /\ PortfolioController.getDishById (lookup_request (get row "id")) w1
       = (Ret (dish_found row), w2).
Proof.
  intros V H Fresh.
  assert (store_answers w) as A1.
  { unfold store_answers, next_fault. unfold store_answers_next in H.
    destruct (faults w) as [| [] l]; cbn in *; congruence. }
  destruct (create_sent (body req) w A1) as (dish & w1 & E & Did & R & F1).
  cbv zeta in E, R.
  assert (store_answers w1) as A2.
  { unfold store_answers, next_fault. rewrite F1.
    unfold store_answers_next in H.
    destruct (faults w) as [| f1 [| [] l]]; cbn in *; try reflexivity;
      destruct f1; cbn in *; congruence. }
  eexists _, w1. 
  assert (PortfolioController.createDish req w
          = (Ret (dish_created
                    (serialise dish ∪ {[ "id" := JStr (decimal (next_id (store w))) ]})),
             w1)) as Ec.
  { unfold PortfolioController.createDish, try_catch.
    cbn [rejected] in V. rewrite V.
    rewrite (bind_eq_ret _ _ _ _ _ E). reflexivity. }
  destruct (getDishById_answers
              (lookup_request
                 (get (serialise dish ∪ {[ "id" := JStr (decimal (next_id (store w))) ]})
                      "id"))
              (decimal (next_id (store w))) w1) as (w2 & E2 & _).
  { unfold lookup_request. cbn [params]. rewrite (new_row_id dish _ Did).
    reflexivity. }
  { exact A2. }
  exists w2. split; [exact Ec |].
  rewrite E2, R. rewrite (filter_fresh _ _ _ Fresh (has_id_self dish _ Did)).
  reflexivity.
Qed.

Lemma created_dish_is_found_witness :
  rejected POST_portfolio
           (request_with [] [] [("title", JStr "Soup");
                                ("description", JStr "Of the day");
                                ("category", JStr "appetizers")]) = false
  /\ store_answers_next 2 example_world
  /\ existsb (has_id (JStr (decimal (next_id (store example_world)))))
             (rows_of (store example_world) "dishes") = false
  /\ exists (row : jsobj) w1 w2,
       PortfolioController.createDish
         (request_with [] [] [("title", JStr "Soup");
                              ("description", JStr "Of the day");
                              ("category", JStr "appetizers")]) example_world
       = (Ret (dish_created row), w1)
       /\ PortfolioController.getDishById (lookup_request (get row "id")) w1
          = (Ret (dish_found row), w2).
Proof.
  split; [reflexivity |]. split; [reflexivity |]. split; [reflexivity |].
  exact (created_dish_is_found
           (request_with [] [] [("title", JStr "Soup");
                                ("description", JStr "Of the day");
                                ("category", JStr "appetizers")])
           example_world eq_refl eq_refl eq_refl).
Defined.

(** ** The featured listing *)

Lemma store_answers_sent (n : nat) (w : world) (q : store_query) :
  store_answers_next (S n) w -> store_answers_next n (sent q w).
Proof. intros H. now destruct (store_answers_next_S n w q H). Qed.

Lemma store_answers_first (n : nat) (w : world) :
  store_answers_next (S n) w -> store_answers w.
Proof.
  intros H.
  now destruct (store_answers_next_S n w (supabase.from "" Delete) H).
Qed.

(** X9.  [GET /api/portfolio?featured=true] (with no search term), when
    the request reaches the database, answers 200 with exactly the stored
    dishes the featured filter keeps, in their order, and [count] their
    number; a stored dish whose [is_featured] is a boolean is among them
    if and only if that boolean is true. *)
Theorem featured_listing (req : request) (w : world) :
  truthy (get (query req) "search") = false ->
  get (query req) "featured" = JStr "true" ->
  store_answers w ->
  let featured := featured_dishes (store w) in
  (exists w',
     PortfolioController.getAllDishes req w
     = (Ret {| status := 200;
               json := obj [("success", JBool true);
                            ("data", JArr (JObj <$> featured));
                            ("count", JNum (Z.of_nat (length featured)))] |},
        w'))
  /\ (forall (dish : jsobj) (b : bool),
         get dish "is_featured" = JBool b ->
         (In dish featured <-> In dish (rows_of (store w) "dishes") /\ b = true)).
Proof.
  intros S F A featured. split.
  - eexists.
    unfold PortfolioController.getAllDishes, try_catch. rewrite S, F.
    cbn [strict_eq String.eqb Ascii.eqb Bool.eqb andb]. 
    unfold DishModel.getFeatured.
    rewrite (bind_eq_ret _ _ _ _ _
               (select_eq_sent DishModel.tableName "*" "is_featured" (JBool true)
                               w eq_refl A)).
    cbn [error data truthy elements js_or]. unfold respond, ret, arr_length.
    rewrite length_fmap. reflexivity.
  - intros dish b H. unfold featured, featured_dishes.
    rewrite List.filter_In. unfold row_matches. rewrite H.
    destruct b; cbn; intuition congruence.
Qed.

Lemma featured_listing_witness :
  truthy (get (query (request_with [] [("featured", JStr "true")] [])) "search")
  = false
  /\ get (query (request_with [] [("featured", JStr "true")] [])) "featured"
     = JStr "true"
  /\ store_answers example_world
  /\ exists w',
       PortfolioController.getAllDishes
         (request_with [] [("featured", JStr "true")] []) example_world
       = (Ret {| status := 200;
                 json := obj [("success", JBool true);
                              ("data", JArr [JObj salmon]);
                              ("count", JNum 1)] |}, w').
Proof.
  split; [reflexivity |]. split; [reflexivity |]. split; [reflexivity |].
  exact (proj1 (featured_listing
                  (request_with [] [("featured", JStr "true")] [])
                  example_world eq_refl eq_refl eq_refl)).
Defined.

(** ** Statistics *)

Lemma count_lookup (counts : jsobj) (key : jsval) (c : string) (n : Z) :
  counts !! c = Some (JNum n) ->
  count counts key !! c
  = Some (JNum (n + if String.eqb (to_string key) c then 1 else 0)).
Proof.
  intros H. unfold count.
  destruct (String.eqb_spec (to_string key) c) as [-> | Ne].
  - rewrite H. cbn [strict_eq]. now rewrite lookup_insert_eq.
  - rewrite Z.add_0_r.
    destruct (counts !! to_string key) as [v |].
    + destruct (strict_eq v JUndefined); [exact H |].
      now rewrite lookup_insert_ne.
    + destruct (bool_decide _); [| exact H].
      now rewrite lookup_insert_ne.
Qed.

Lemma count_by_objects (k : string) (rows : list jsobj) (counts : jsobj)
    (w : world) :
  count_by k (JObj <$> rows) counts w
  = (Ret (foldl (fun c r => count c (get r k)) counts rows), w).
Proof.
  revert counts. induction rows as [| r rows IH]; intros counts;
    [reflexivity |].
  cbn [fmap list_fmap count_by prop foldl]. rewrite bind_ret. apply IH.
Qed.

Lemma tally_counts (k c : string) (rows : list jsobj) (counts : jsobj) (n : Z) :
  counts !! c = Some (JNum n) ->
  foldl (fun c r => count c (get r k)) counts rows !! c
  = Some (JNum (n + tally k c rows)).
Proof.
  revert counts n. induction rows as [| r rows IH]; intros counts n H.
  - unfold tally. cbn. now rewrite Z.add_0_r.
  - cbn [foldl]. rewrite (IH _ _ (count_lookup counts (get r k) c n H)).
    unfold tally. cbn [List.filter].
    destruct (String.eqb (to_string (get r k)) c); cbn [length];
      do 2 f_equal; lia.
Qed.

(** X10.  [GET /api/portfolio/stats], when its three requests reach the
    database: [total_dishes] is the number of stored dishes,
    [featured_dishes] and [available_dishes] the numbers the two filters
    keep, and for each of the five categories the count in [categories] is
    the number of stored dishes of that category. *)
Theorem portfolio_stats (req : request) (w : world) :
  store_answers_next 3 w ->
  let dishes := rows_of (store w) "dishes" in
  exists categories w',
    PortfolioController.getStats req w
    = (Ret (stats_response (Z.of_nat (length dishes))
                           (Z.of_nat (length (featured_dishes (store w))))
                           (Z.of_nat (length (available_dishes (store w))))
                           categories), w')
    /\ Forall (fun c => categories !! c = Some (JNum (tally "category" c dishes)))
              counted_categories.
Proof.
  intros H dishes.
  pose proof (store_answers_first _ _ H) as A1.
  pose proof (store_answers_sent _ _ (supabase.from "dishes" (Select "*")) H) as H2.
  pose proof (store_answers_first _ _ H2) as A2.
  pose proof (store_answers_sent _ _
                (supabase.eq "is_featured" (JBool true)
                   (supabase.from "dishes" (Select "*"))) H2) as H3.
  pose proof (store_answers_first _ _ H3) as A3.
  eexists _, _. split.
  - unfold PortfolioController.getStats, try_catch.
    unfold DishModel.getAll, DishModel.getFeatured, DishModel.getAvailable.
    cbn [truthy].
    rewrite (bind_eq_ret _ _ _ _ _ (select_all_sent DishModel.tableName "*" w A1)).
    rewrite (bind_eq_ret _ _ _ _ _
               (select_eq_sent DishModel.tableName "*" "is_featured" (JBool true)
                               _ eq_refl A2)).
    rewrite (bind_eq_ret _ _ _ _ _
               (select_eq_sent DishModel.tableName "*" "is_available" (JBool true)
                               _ eq_refl A3)).
    cbn [data truthy elements].
    rewrite (bind_eq_ret _ _ _ _ _ (count_by_objects _ _ _ _)).
    unfold respond, ret, arr_length. rewrite !length_fmap. reflexivity.
  - unfold counted_categories.
    repeat (apply Forall_cons; split;
            [rewrite (tally_counts "category" _ _ _ 0) by reflexivity;
             reflexivity |]).
    apply Forall_nil. exact I.
Qed.

Lemma portfolio_stats_witness :
  store_answers_next 3 example_world
  /\ exists categories w',
       PortfolioController.getStats (request_with [] [] []) example_world
       = (Ret (stats_response 2 1 1 categories), w')
       /\ categories !! "mains" = Some (JNum 1).
Proof.
  split; [reflexivity |].
  destruct (portfolio_stats (request_with [] [] []) example_world eq_refl)
    as (categories & w' & E & F).
  exists categories, w'. split; [exact E |].
  apply Forall_cons in F as [_ F]. apply Forall_cons in F as [M _]. exact M.
Defined.

(** ** The chat handler when the generation fails *)

Lemma generateContent_fails (prompt : string) (w : world) (e : jserror) :
  model (gemini w) <> None ->
  head (replies w) = Some (Failed e) ->
  GeminiService.generateContent prompt w
  = (Throw e, set_replies (tail (replies w)) (log (GenerateContent prompt) w)).
Proof.
  intros Mo R. unfold GeminiService.generateContent.
  destruct (model (gemini w)); [| congruence].
  cbn [replies log].
  destruct (replies w) as [| [t | e'] rest]; cbn in R; try discriminate R.
  now injection R as ->.
Qed.

Lemma user_message_throw (e : jserror) (w : world) :
  (if includes (err_message e) "API_KEY_INVALID"
   then throw (Error "Invalid Gemini API key. Please check your configuration.")
   else if includes (err_message e) "RATE_LIMIT_EXCEEDED"
   then throw (Error "Rate limit exceeded. Please try again later.")
   else throw (Error "Failed to generate response. Please try again.")) w
  = (@Throw jsobj (Error (user_message e)), w).
Proof.
  unfold user_message.
  destruct (includes _ "API_KEY_INVALID"); [reflexivity |].
  destruct (includes _ "RATE_LIMIT_EXCEEDED"); reflexivity.
Qed.

Lemma generateResponse_fails (message context : jsval) (w : world) (e : jserror) :
  genAI (gemini w) <> None -> model (gemini w) <> None ->
  head (replies w) = Some (Failed e) ->
  context = JNull \/ (exists entries : list jsobj, context = JArr (JObj <$> entries)) ->
  exists prompt w',
    GeminiService.generateResponse message context w
    = (Throw (Error (user_message e)), w')
    /\ trace w' = trace w ++ [GenerateContent prompt].
Proof.
  intros G Mo R C.
  unfold GeminiService.generateResponse.
  rewrite (bind_eq_ret _ _ _ _ _ (isAvailable_true w G)). cbn [negb].
  unfold try_catch.
  assert (forall prompt,
             (text <- GeminiService.generateContent prompt ;;
              timestamp <- now_iso ;;
              ret (obj [("success", JBool true); ("message", JStr text);
                        ("timestamp", timestamp)])) w
             = (Throw e, set_replies (tail (replies w))
                                     (log (GenerateContent prompt) w))) as Gen.
  { intros prompt.
    now rewrite (bind_eq_throw _ _ _ _ _ (generateContent_fails prompt w e Mo R)). }
  destruct C as [-> | (entries & ->)].
  - cbn [truthy]. rewrite !bind_ret. rewrite Gen.
    eexists _, _. split; [apply user_message_throw | reflexivity].
  - cbn [truthy has_length]. rewrite bind_ret.
    destruct entries as [| entry entries].
    + cbn [fmap list_fmap].
      rewrite bool_decide_eq_true_2 by reflexivity. cbn [negb].
      rewrite bind_ret. rewrite Gen.
      eexists _, _. split; [apply user_message_throw | reflexivity].
    + rewrite bool_decide_eq_false_2 by discriminate. cbn [negb].
      destruct (menu_items_entries (entry :: entries) w) as (items & I).
      rewrite (bind_eq_ret _ _ _ _ _ (bind_eq_ret _ _ _ _ _ I)).
      rewrite Gen.
      eexists _, _. split; [apply user_message_throw | reflexivity].
Qed.

Lemma user_message_truthy (e : jserror) :
  js_or (error_message (Error (user_message e)))
        (JStr "Failed to process your message. Please try again.")
  = JStr (user_message e).
Proof.
  unfold user_message, error_message. cbn [err_message].
  destruct (includes _ "API_KEY_INVALID"); [reflexivity |].
  destruct (includes _ "RATE_LIMIT_EXCEEDED"); reflexivity.
Qed.

(** X11.  When the generation service fails, with the gateway available
    and a message that is not blank, the chat handler answers 500 and
    tells the client one of three fixed messages, chosen by what the
    error says: invalid key, rate limit, or a generic failure; the text of
    the error itself is not passed on.  The prompt was sent exactly once:
    nothing is retried. *)
Theorem generation_failure_is_reported (req : request) (w : world)
    (e : jserror) :
  genAI (gemini w) <> None -> model (gemini w) <> None ->
  nonblank (get (body req) "message") = true ->
  head (replies w) = Some (Failed e) ->
  exists w',
    ChatbotController.chat req w = (Ret (chat_failed (user_message e)), w')
    /\ exists events,
         trace w' = trace w ++ events
         /\ length (List.filter is_prompt events) = 1%nat.
Proof.
  intros G Mo N R.
  destruct (fetch_context w)
    as (r & context & w1 & E & Ef & T1 & G1 & R1 & C1 & S).
  unfold ChatbotController.chat. cbv zeta. unfold try_catch at 1.
  rewrite (bind_eq_ret _ _ _ _ _ (blank_nonblank _ w N)).
  rewrite (bind_eq_ret _ _ _ _ _ (isAvailable_true w G)). cbn [negb].
  destruct (truthy (get_default (body req) "includeContext" (JBool true))).
  - rewrite (bind_eq_ret _ _ _ _ _ Ef).
    assert (genAI (gemini w1) <> None) as G' by now rewrite G1.
    assert (model (gemini w1) <> None) as Mo' by now rewrite G1.
    assert (head (replies w1) = Some (Failed e)) as R' by now rewrite R1.
    assert (context = JNull
            \/ (exists entries : list jsobj, context = JArr (JObj <$> entries)))
      as C.
    { destruct S as [(rows & entries & _ & -> & _) | (_ & ->)]; eauto. }
    destruct (generateResponse_fails (get (body req) "message") context w1 e
                G' Mo' R' C) as (prompt & w' & Eg & Tg).
    rewrite (bind_eq_throw _ _ _ _ _ Eg).
    exists w'. split.
    + unfold respond, ret, chat_failed. now rewrite user_message_truthy.
    + exists [StoreRequest available_query; GenerateContent prompt].
      split; [now rewrite Tg, T1, <- app_assoc | reflexivity].
  - rewrite bind_ret.
    destruct (generateResponse_fails (get (body req) "message") JNull w e
                G Mo R (or_introl eq_refl)) as (prompt & w' & Eg & Tg).
    rewrite (bind_eq_throw _ _ _ _ _ Eg).
    exists w'. split.
    + unfold respond, ret, chat_failed. now rewrite user_message_truthy.
    + exists [GenerateContent prompt]. split; [exact Tg | reflexivity].
Qed.

Lemma generation_failure_is_reported_witness :
  genAI (gemini (set_replies [Failed (Error "429 RATE_LIMIT_EXCEEDED: quota")]
                             example_world)) <> None
  /\ model (gemini (set_replies [Failed (Error "429 RATE_LIMIT_EXCEEDED: quota")]
                                example_world)) <> None
  /\ nonblank (get (body (request_with [] [] [("message", JStr "Any specials?")]))
                   "message") = true
  /\ head (replies (set_replies [Failed (Error "429 RATE_LIMIT_EXCEEDED: quota")]
                                example_world))
     = Some (Failed (Error "429 RATE_LIMIT_EXCEEDED: quota"))
  /\ exists w',
       ChatbotController.chat
         (request_with [] [] [("message", JStr "Any specials?")])
         (set_replies [Failed (Error "429 RATE_LIMIT_EXCEEDED: quota")]
                      example_world)
       = (Ret (chat_failed "Rate limit exceeded. Please try again later."), w').
Proof.
  split; [discriminate |]. split; [discriminate |].
  split; [reflexivity |]. split; [reflexivity |].
  destruct (generation_failure_is_reported
              (request_with [] [] [("message", JStr "Any specials?")])
              (set_replies [Failed (Error "429 RATE_LIMIT_EXCEEDED: quota")]
                           example_world)
              (Error "429 RATE_LIMIT_EXCEEDED: quota"))
    as (w' & E & _);
    [discriminate | discriminate | reflexivity | reflexivity |].
  exists w'. exact E.
Defined.

(** ** Pages of contact messages *)

Lemma relative_index_nonneg (len : Z) (v : jsval) :
  0 <= len -> 0 <= relative_index len v.
Proof.
  intros H. destruct v as [| | | z | | [] | | |]; cbn [relative_index];
    unfold clamp_index;
    repeat match goal with
           | |- context [?a <? ?b] => destruct (Z.ltb_spec a b)
           end; lia.
Qed.

Lemma slice_nan_end {A} (l : list A) (offset : jsval) :
  slice l offset (js_plus offset JNaN) = [].
Proof.
  assert (js_plus offset JNaN = JNaN) as -> by now destruct offset.
  unfold slice. cbn [relative_index]. unfold clamp_index at 1.
  change (0 <? 0) with false. cbv iota.
  set (len := Z.of_nat (length l)).
  assert (0 <= len) as Hlen by (subst len; lia).
  pose proof (relative_index_nonneg len offset Hlen).
  match goal with
  | |- take ?n _ = [] => replace n with 0%nat; [reflexivity |]
  end.
  lia.
Qed.

Lemma add_nan_not_less (offset total : jsval) :
  js_lt (js_plus offset JNaN) total = false.
Proof. now destruct offset. Qed.

(** X12.  A [limit] that is not a number empties the page: when
    [parseInt] of the [limit] parameter is [NaN], the listing answers 200
    with no row in [data] and [has_more] false, however many messages are
    stored and whatever the [offset]; the default of 50 is not applied. *)
Theorem page_with_bad_limit (req : request) (w : world) :
  parseInt (get_default (query req) "limit" (JNum 50)) = JNaN ->
  store_answers w ->
  exists total offset w',
    ContactController.getAllMessages req w
    = (Ret (page_response [] total JNaN offset false), w').
Proof.
  intros L A. destruct (messages_page req w A) as (w' & E & _).
  cbv zeta in E. rewrite L in E.
  rewrite slice_nan_end, add_nan_not_less in E.
  eexists _, _, w'. exact E.
Qed.

Lemma page_with_bad_limit_witness :
  parseInt (get_default (query (request_with [] [("limit", JStr "ten")] []))
                        "limit" (JNum 50)) = JNaN
  /\ store_answers example_world
  /\ exists total offset w',
       ContactController.getAllMessages
         (request_with [] [("limit", JStr "ten")] []) example_world
       = (Ret (page_response [] total JNaN offset false), w').
Proof.
  split; [reflexivity |]. split; [reflexivity |].
  exact (page_with_bad_limit (request_with [] [("limit", JStr "ten")] [])
                             example_world eq_refl eq_refl).
Defined.

(** The page for decimal parameters, over a result set that fits an
    array. *)
Lemma paged_messages (req : request) (O L : N) (w : world) :
  query req !! "limit" = Some (number_param L) ->
  query req !! "offset" = Some (number_param O) ->
  store_answers w ->
  let rows := JObj <$> fetched_messages (get (query req) "status") (store w) in
  Z.of_nat (length rows) < 2 ^ 32 ->
  exists w',
    ContactController.getAllMessages req w
    = (Ret (page_response (take (N.to_nat L) (drop (N.to_nat O) rows))
                          (JNum (Z.of_nat (length rows)))
                          (js_number (Z.of_N L)) (js_number (Z.of_N O))
                          (Z.of_N O + Z.of_N L <? Z.of_nat (length rows))),
       w').
Proof.
  intros Hl Ho A rows Fits.
  destruct (messages_page req w A) as (w' & E & _). cbv zeta in E.
  rewrite (get_default_param _ _ (Some L) 50 Hl),
          (get_default_param _ _ (Some O) 0 Ho) in E by lia.
  cbn [from_option] in E. fold rows in E.
  pose proof (js_number_stands (Z.of_N O) (N2Z.is_nonneg O)) as So.
  pose proof (js_number_stands (Z.of_N L) (N2Z.is_nonneg L)) as Sl.
  rewrite (slice_page _ _ _ _ _ So Sl) in E by lia.
  rewrite (stands_less _ _ _ (js_plus_stands _ _ _ _ So Sl)) in E by lia.
  replace (Z.to_nat (Z.of_N L)) with (N.to_nat L) in E by lia.
  replace (Z.to_nat (Z.of_N O)) with (N.to_nat O) in E by lia.
  exists w'. exact E.
Qed.

(** X13.  Pages tile one result set.  The database does not promise the
    order of its answers, so that three listings can only be compared when
    they were answered alike: whenever three listings with the same
    [status] filter are answered with the same rows in the same order,
    fewer than [2^32] of them, the page at offset [O] with limit [L]
    followed by the page at offset [O + L] with limit [L'] is the page at
    offset [O] with limit [L + L'], so that walking by [offset += limit]
    neither skips nor repeats a row; and [has_more] on a page is true
    exactly when the next page, of limit at least one, has a row. *)
Theorem pages_tile (req1 req2 req3 : request) (O L L' : N)
    (w1 w2 w3 : world) :
  query req1 !! "limit" = Some (number_param L) ->
  query req1 !! "offset" = Some (number_param O) ->
  query req2 !! "limit" = Some (number_param L') ->
  query req2 !! "offset" = Some (number_param (O + L)) ->
  query req3 !! "limit" = Some (number_param (L + L')) ->
  query req3 !! "offset" = Some (number_param O) ->
  get (query req2) "status" = get (query req1) "status" ->
  get (query req3) "status" = get (query req1) "status" ->
  store_answers w1 -> store_answers w2 -> store_answers w3 ->
  let fetched := fetched_messages (get (query req1) "status") in
  fetched (store w2) = fetched (store w1) ->
  fetched (store w3) = fetched (store w1) ->
  Z.of_nat (length (fetched (store w1))) < 2 ^ 32 ->
  exists r1 r2 r3 w1' w2' w3',
    ContactController.getAllMessages req1 w1 = (Ret r1, w1')
    /\ ContactController.getAllMessages req2 w2 = (Ret r2, w2')
    /\ ContactController.getAllMessages req3 w3 = (Ret r3, w3')
    /\ page_data r1 ++ page_data r2 = page_data r3
    /\ ((0 < L')%N -> (page_has_more r1 = JBool true <-> page_data r2 <> [])).
Proof.
  intros Hl1 Ho1 Hl2 Ho2 Hl3 Ho3 S2 S3 A1 A2 A3 fetched F2 F3 Fits.
  subst fetched.
  destruct (paged_messages req1 O L w1 Hl1 Ho1 A1) as (w1' & E1);
    [cbv zeta; rewrite length_fmap; lia |].
  destruct (paged_messages req2 (O + L) L' w2 Hl2 Ho2 A2) as (w2' & E2);
    [cbv zeta; rewrite length_fmap, S2, F2; lia |].
  destruct (paged_messages req3 O (L + L') w3 Hl3 Ho3 A3) as (w3' & E3);
    [cbv zeta; rewrite length_fmap, S3, F3; lia |].
  cbv zeta in E1, E2, E3. rewrite S2, F2 in E2. rewrite S3, F3 in E3.
  eexists _, _, _, w1', w2', w3'.
  split; [exact E1 |]. split; [exact E2 |]. split; [exact E3 |].
  set (rows := JObj <$> fetched_messages (get (query req1) "status") (store w1)).
  change (take (N.to_nat L) (drop (N.to_nat O) rows)
          ++ take (N.to_nat L') (drop (N.to_nat (O + L)) rows)
          = take (N.to_nat (L + L')) (drop (N.to_nat O) rows)
          /\ ((0 < L')%N ->
              (JBool (Z.of_N O + Z.of_N L <? Z.of_nat (length rows)) = JBool true
               <-> take (N.to_nat L') (drop (N.to_nat (O + L)) rows) <> []))).
  split.
  - replace (N.to_nat (O + L)) with (N.to_nat O + N.to_nat L)%nat by lia.
    rewrite <- drop_drop, take_take_drop. f_equal. lia.
  - intros HL'. split.
    + intros H. injection H as H. apply Z.ltb_lt in H.
      intros Hnil. apply (f_equal length) in Hnil.
      rewrite length_take, length_drop in Hnil. cbn in Hnil. lia.
    + intros H. f_equal. apply Z.ltb_lt.
      destruct (Z.lt_ge_cases (Z.of_N O + Z.of_N L) (Z.of_nat (length rows)))
        as [? | Hge]; [assumption |].
      exfalso. apply H. rewrite drop_ge by lia. apply take_nil.
Qed.

Lemma pages_tile_witness :
  query (page_request 1 1) !! "limit" = Some (number_param 1)
  /\ query (page_request 1 1) !! "offset" = Some (number_param 1)
  /\ query (page_request 2 2) !! "limit" = Some (number_param 2)
  /\ query (page_request 2 2) !! "offset" = Some (number_param (1 + 1))
  /\ query (page_request 3 1) !! "limit" = Some (number_param (1 + 2))
  /\ query (page_request 3 1) !! "offset" = Some (number_param 1)
  /\ get (query (page_request 2 2)) "status" = get (query (page_request 1 1)) "status"
  /\ get (query (page_request 3 1)) "status" = get (query (page_request 1 1)) "status"
  /\ store_answers example_world
  /\ store_answers example_world_no_key
  /\ store_answers (answering [])
  /\ fetched_messages (get (query (page_request 1 1)) "status")
                      (store example_world_no_key)
     = fetched_messages (get (query (page_request 1 1)) "status")
                        (store example_world)
  /\ fetched_messages (get (query (page_request 1 1)) "status")
                      (store (answering []))
     = fetched_messages (get (query (page_request 1 1)) "status")
                        (store example_world)
  /\ Z.of_nat (length (fetched_messages (get (query (page_request 1 1)) "status")
                                        (store example_world))) < 2 ^ 32
  /\ exists r1 r2 r3 w1 w2 w3,
       ContactController.getAllMessages (page_request 1 1) example_world
       = (Ret r1, w1)
       /\ ContactController.getAllMessages (page_request 2 2) example_world_no_key
          = (Ret r2, w2)
       /\ ContactController.getAllMessages (page_request 3 1) (answering [])
          = (Ret r3, w3)
       /\ page_data r1 ++ page_data r2 = page_data r3.
Proof.
  do 14 (split; [reflexivity |]).
  destruct (pages_tile (page_request 1 1) (page_request 2 2) (page_request 3 1)
              1 1 2 example_world example_world_no_key (answering [])
              eq_refl eq_refl eq_refl eq_refl eq_refl eq_refl eq_refl eq_refl
              eq_refl eq_refl eq_refl eq_refl eq_refl eq_refl)
    as (r1 & r2 & r3 & w1 & w2 & w3 & E1 & E2 & E3 & T & _).
  exists r1, r2, r3, w1, w2, w3. now repeat split.
Defined.

(** ** Recent messages *)

(** X14.  [GET /api/contact/recent?days=..] with a [days] that is not a
    number: the date threshold is invalid, the repository reports the
    RangeError of [toISOString] as its error, and the handler answers 500
    without a single request to the database; the default of 30 days is
    not applied. *)
Theorem recent_with_bad_days (req : request) (w : world) :
  parseInt (get_default (query req) "days" (JNum 30)) = JNaN ->
  exists w',
    ContactController.getRecentMessages req w
    = (Ret {| status := 500;
              json := obj [("success", JBool false);
                           ("message", JStr "Error fetching recent messages");
                           ("error", JStr "Invalid time value")] |}, w')
    /\ trace w' = trace w /\ store w' = store w.
Proof.
  intros D. eexists. split.
  - unfold ContactController.getRecentMessages, try_catch at 1. rewrite D.
    unfold ContactModel.getRecent, try_catch, bind, new_Date.
    cbn [days_before toISOString]. unfold throw, ret. cbn [error].
    unfold respond, ret, error_message. cbn [err_message]. reflexivity.
  - split; reflexivity.
Qed.

Lemma recent_with_bad_days_witness :
  parseInt (get_default (query (request_with [] [("days", JStr "week")] []))
                        "days" (JNum 30)) = JNaN
  /\ exists w',
       ContactController.getRecentMessages
         (request_with [] [("days", JStr "week")] []) example_world
       = (Ret {| status := 500;
                 json := obj [("success", JBool false);
                              ("message", JStr "Error fetching recent messages");
                              ("error", JStr "Invalid time value")] |}, w')
       /\ trace w' = trace example_world /\ store w' = store example_world.
Proof.
  split; [reflexivity |].
  exact (recent_with_bad_days (request_with [] [("days", JStr "week")] [])
                              example_world eq_refl).
Defined.

(** ** What the repositories send *)

(** X15.  [DishModel.update] passes the input through: the changes it
    sends are the fields of the input, each with its value, except
    [updated_at], which is always the time of the call, whatever the input
    says.  Nothing else is added and nothing is held back, [id] and
    [created_at] included. *)
Theorem update_passes_input_through (id : jsval) (dishData : jsobj) (w : world) :
  exists (changes : jsobj) r w',
    DishModel.update id dishData w = (Ret r, w')
    /\ trace w' = trace w ++ [StoreRequest
                                (supabase.returning
                                   (supabase.eq "id" id
                                      (supabase.from "dishes" (Update changes))))]
    /\ changes !! "updated_at" = Some (clock_text w)
    /\ (forall k, k <> "updated_at" -> changes !! k = dishData !! k).
Proof.
  unfold DishModel.update, bind. rewrite now_iso_eq.
  match goal with
  | |- context [dbHelpers.update ?t ?i ?c ?w1] =>
      destruct (guarded_sends
                  (supabase.returning (supabase.eq "id" i (supabase.from t (Update c))))
                  (fun x => x) JNull w1) as (r & w' & E & T);
      exists c, r, w'
  end.
  split; [exact E |]. split; [exact T |]. split.
  - apply lookup_insert_eq.
  - intros k H. now apply lookup_insert_ne.
Qed.

Lemma update_passes_input_through_witness :
  exists (changes : jsobj) r w',
    DishModel.update (JStr "1")
                     (obj [("price", JNum 12); ("updated_at", JStr "never")])
                     example_world = (Ret r, w')
    /\ trace w' = trace example_world
                  ++ [StoreRequest
                        (supabase.returning
                           (supabase.eq "id" (JStr "1")
                              (supabase.from "dishes" (Update changes))))]
    /\ changes !! "updated_at" = Some (JStr "2023-11-14T22:13:20.000Z")
    /\ changes !! "price" = Some (JNum 12).
Proof.
  destruct (update_passes_input_through
              (JStr "1") (obj [("price", JNum 12); ("updated_at", JStr "never")])
              example_world) as (changes & r & w' & E & T & U & P).
  exists changes, r, w'. split; [exact E |]. split; [exact T |].
  split; [exact U |]. rewrite P by discriminate. reflexivity.
Defined.


Lemma obj_lookup_none (fields : list (string * jsval)) (k : string) :
  ~ In k (fields.*1) -> obj fields !! k = None.
Proof.
  intros H. unfold obj. apply not_elem_of_list_to_map_1.
  intros Hin. apply H. now apply list_elem_of_In.
Qed.

(** X16.  [DishModel.create] sends exactly ten columns and builds each
    from the input alone: [title], [description] and [category] as given;
    [image_url] and [price] as given when truthy and [null] otherwise, so
    that a price of 0 is sent as [null]; [is_featured] as given when truthy
    and [false] otherwise; the two timestamps from the clock.  Any other
    field of the input, [id] included, is dropped. *)
Theorem create_normalises_input (dishData : jsobj) (w : world) :
  exists (dish : jsobj) r w',
    DishModel.create (JObj dishData) w = (Ret r, w')
    /\ trace w' = trace w ++ [StoreRequest
                                (supabase.returning
                                   (supabase.from "dishes" (Insert dish)))]
    /\ dish !! "title" = Some (get dishData "title")
    /\ dish !! "description" = Some (get dishData "description")
    /\ dish !! "category" = Some (get dishData "category")
    /\ dish !! "image_url" = Some (js_or (get dishData "image_url") JNull)
    /\ dish !! "price" = Some (js_or (get dishData "price") JNull)
    /\ dish !! "is_featured" = Some (js_or (get dishData "is_featured") (JBool false))
    /\ dish !! "created_at" = Some (clock_text w)
    /\ dish !! "updated_at" = Some (clock_text (set_clock (tail (clock w)) w))
    /\ (get dishData "price" = JNum 0 -> dish !! "price" = Some JNull)
    /\ (forall k, ~ In k dish_columns -> dish !! k = None).
Proof.
  rewrite (Dish_create_reads (JObj dishData) eq_refl). cbn [field].
  unfold bind. rewrite !now_iso_eq.
  match goal with
  | |- context [dbHelpers.insert _ ?d ?w1] =>
      destruct (insert_effect DishModel.tableName d w1) as (r & w' & E & T & _);
      exists d, r, w'
  end.
  split; [exact E |]. split; [exact T |].
  do 8 (split; [reflexivity |]). split.
  - intros H. rewrite H. reflexivity.
  - intros k H. now apply obj_lookup_none.
Qed.

Lemma create_normalises_input_witness :
  exists (dish : jsobj) r w',
    DishModel.create
      (JObj (obj [("title", JStr "Soup"); ("description", JStr "Of the day");
                  ("category", JStr "specials"); ("price", JNum 0);
                  ("id", JStr "42")]))
      example_world = (Ret r, w')
    /\ dish !! "title" = Some (JStr "Soup")
    /\ dish !! "price" = Some JNull
    /\ dish !! "id" = None.
Proof.
  destruct (create_normalises_input
              (obj [("title", JStr "Soup"); ("description", JStr "Of the day");
                    ("category", JStr "specials"); ("price", JNum 0);
                    ("id", JStr "42")])
              example_world)
    as (dish & r & w' & E & _ & Ti & _ & _ & _ & _ & _ & _ & _ & P & Drop).
  exists dish, r, w'. split; [exact E |]. split; [exact Ti |].
  split; [exact (P eq_refl) |].
  apply Drop. cbn. intuition discriminate.
Defined.


(** ** The helper endpoints of the chatbot *)

Lemma prefix_app (x s t : string) :
  String.prefix x s = true -> String.prefix x (s +:+ t) = true.
Proof.
  revert s. induction x as [| c x IH]; intros s H.
  - now destruct (s +:+ t).
  - destruct s as [| d s]; [discriminate H |].
    change (String d s +:+ t) with (String d (s +:+ t)).
    cbn [String.prefix] in *.
    destruct (ascii_dec c d); [now apply IH | discriminate H].
Qed.

Lemma prefix_refl (x : string) : String.prefix x x = true.
Proof.
  induction x as [| c x IH]; [reflexivity |].
  cbn [String.prefix]. now destruct (ascii_dec c c).
Qed.

Lemma includes_app_l (s t x : string) :
  includes s x = true -> includes (s +:+ t) x = true.
Proof.
  induction s as [| c s IH]; intros H.
  - cbn [includes] in H. rewrite orb_false_r in H.
    destruct x; [| discriminate H].
    change (EmptyString +:+ t) with t. now destruct t.
  - change (String c s +:+ t) with (String c (s +:+ t)).
    cbn [includes] in *. apply orb_prop in H as [H | H].
    + change (String c (s +:+ t)) with (String c s +:+ t).
      now rewrite (prefix_app _ _ t H).
    + rewrite (IH H). apply orb_true_r.
Qed.

Lemma includes_app_r (s t x : string) :
  includes t x = true -> includes (s +:+ t) x = true.
Proof.
  intros H. induction s as [| c s IH]; [exact H |].
  change (String c s +:+ t) with (String c (s +:+ t)).
  cbn [includes]. rewrite IH. apply orb_true_r.
Qed.

Lemma includes_refl (x : string) : includes x x = true.
Proof. destruct x; cbn [includes]; now rewrite prefix_refl. Qed.

Lemma generateCookingTip_outcome (topic : jsval) (w : world) (r : reply) :
  genAI (gemini w) <> None -> model (gemini w) <> None ->
  head (replies w) = Some r ->
  exists prompt,
    GeminiService.generateCookingTip topic w
    = (match r with
       | Generated text =>
           Ret (obj [("success", JBool true); ("tip", JStr text);
                     ("timestamp", clock_text w)])
       | Failed _ => Throw (Error "Failed to generate cooking tip.")
       end,
       match r with
       | Generated _ =>
           set_clock (tail (clock w))
             (set_replies (tail (replies w)) (log (GenerateContent prompt) w))
       | Failed _ =>
           set_replies (tail (replies w)) (log (GenerateContent prompt) w)
       end)
    /\ includes prompt (to_string topic) = true.
Proof.
  intros G Mo R. eexists. split.
  - unfold GeminiService.generateCookingTip.
    rewrite (bind_eq_ret _ _ _ _ _ (isAvailable_true w G)). cbn [negb].
    cbv zeta. unfold try_catch.
    destruct r as [text | e].
    + rewrite (bind_eq_ret _ _ _ _ _ (generateContent_ok _ w text Mo R)).
      unfold bind. rewrite now_iso_eq. reflexivity.
    + rewrite (bind_eq_throw _ _ _ _ _ (generateContent_fails _ w e Mo R)).
      reflexivity.
  - unfold lines. cbn [String.concat].
    do 2 apply includes_app_r. apply includes_app_l.
    apply includes_app_r, includes_refl.
Qed.

(** X17.  [POST /api/chatbot/cooking-tip] with a topic that is not blank
    and the gateway available sends one prompt, which contains the topic,
    and consumes one reply.  A generated text comes back as 200 with the
    topic echoed, the text as [tip] and the time of the call; a failure of
    any kind comes back as 500 with the fixed message "Failed to generate
    cooking tip.", the error itself is not passed on. *)
Theorem cooking_tip_outcome (req : request) (w : world) (r : reply) :
  genAI (gemini w) <> None -> model (gemini w) <> None ->
  nonblank (get (body req) "topic") = true ->
  head (replies w) = Some r ->
  exists prompt w',
    ChatbotController.getCookingTip req w
    = (Ret match r with
           | Generated text =>
               tip_answer (get (body req) "topic") text (clock_text w)
           | Failed _ => failed "Failed to generate cooking tip."
           end, w')
    /\ trace w' = trace w ++ [GenerateContent prompt]
    /\ includes prompt (to_string (get (body req) "topic")) = true
    /\ replies w' = tail (replies w).
Proof.
  intros G Mo N R.
  destruct (generateCookingTip_outcome (get (body req) "topic") w r G Mo R)
    as (prompt & E & I).
  exists prompt.
  unfold ChatbotController.getCookingTip. cbv zeta. unfold try_catch at 1.
  rewrite (bind_eq_ret _ _ _ _ _ (blank_nonblank _ w N)).
  rewrite (bind_eq_ret _ _ _ _ _ (isAvailable_true w G)). cbn [negb].
  destruct r as [text | e].
  - rewrite (bind_eq_ret _ _ _ _ _ E).
    eexists. split; [reflexivity |]. split; [reflexivity |].
    split; [exact I | reflexivity].
  - rewrite (bind_eq_throw _ _ _ _ _ E).
    eexists. split; [reflexivity |]. split; [reflexivity |].
    split; [exact I | reflexivity].
Qed.

Lemma cooking_tip_outcome_witness :
  genAI (gemini (answering [Failed (Error "503 overloaded")])) <> None
  /\ model (gemini (answering [Failed (Error "503 overloaded")])) <> None
  /\ nonblank (get (body (request_with [] [] [("topic", JStr "searing")])) "topic")
     = true
  /\ head (replies (answering [Failed (Error "503 overloaded")]))
     = Some (Failed (Error "503 overloaded"))
  /\ exists w',
       ChatbotController.getCookingTip
         (request_with [] [] [("topic", JStr "searing")])
         (answering [Failed (Error "503 overloaded")])
       = (Ret (failed "Failed to generate cooking tip."), w').
Proof.
  split; [discriminate |]. split; [discriminate |].
  split; [reflexivity |]. split; [reflexivity |].
  destruct (cooking_tip_outcome
              (request_with [] [] [("topic", JStr "searing")])
              (answering [Failed (Error "503 overloaded")])
              (Failed (Error "503 overloaded")))
    as (prompt & w' & E & _);
    [discriminate | discriminate | reflexivity | reflexivity |].
  exists w'. exact E.
Defined.

(** X18.  [POST /api/chatbot/recommend] with [dietaryRestrictions] that is
    [null] or a string that is not empty: composing the prompt fails, the
    handler answers 500 with "Failed to generate food recommendations.",
    and nothing is sent to the generation service; the state is as it
    was. *)
Theorem bad_restrictions_are_not_sent (req : request) (w : world) :
  genAI (gemini w) <> None ->
  nonblank (get (body req) "preferences") = true ->
  body req !! "dietaryRestrictions" = Some JNull
  \/ (exists s, s <> EmptyString
                /\ body req !! "dietaryRestrictions" = Some (JStr s)) ->
  ChatbotController.getFoodRecommendation req w
  = (Ret (failed "Failed to generate food recommendations."), w).
Proof.
  intros G N D.
  unfold ChatbotController.getFoodRecommendation. cbv zeta.
  unfold try_catch at 1.
  rewrite (bind_eq_ret _ _ _ _ _ (blank_nonblank _ w N)).
  rewrite (bind_eq_ret _ _ _ _ _ (isAvailable_true w G)). cbn [negb].
  unfold GeminiService.generateFoodRecommendation, get_default.
  unfold get. unfold bind at 1. unfold bind at 1.
  rewrite (isAvailable_true w G). cbn [negb].
  destruct D as [-> | (s & Ne & ->)].
  - reflexivity.
  - destruct s as [| c s]; [congruence |]. reflexivity.
Qed.

Lemma bad_restrictions_are_not_sent_witness :
  genAI (gemini example_world) <> None
  /\ nonblank (get (body (request_with [] [] [("preferences", JStr "spicy");
                                              ("dietaryRestrictions", JStr "nuts")]))
                   "preferences") = true
  /\ body (request_with [] [] [("preferences", JStr "spicy");
                               ("dietaryRestrictions", JStr "nuts")])
     !! "dietaryRestrictions" = Some (JStr "nuts")
  /\ ChatbotController.getFoodRecommendation
       (request_with [] [] [("preferences", JStr "spicy");
                            ("dietaryRestrictions", JStr "nuts")])
       example_world
     = (Ret (failed "Failed to generate food recommendations."), example_world).
Proof.
  split; [discriminate |]. split; [reflexivity |]. split; [reflexivity |].
  apply bad_restrictions_are_not_sent;
    [discriminate | reflexivity |].
  right. exists "nuts". split; [discriminate | reflexivity].
Defined.




(** X20.  [GET /api/chatbot/test] answers 200 or 503 and never 500.  It
    answers 200 exactly when the client and its model exist and the
    service answers the probe with a text; without a client nothing is
    sent and the state is as it was. *)
Theorem ai_test_status (req : request) (w : world) :
  exists r w',
    ChatbotController.testAI req w = (Ret r, w')
    /\ (status r = 200 \/ status r = 503)
    /\ (status r = 200
        <-> genAI (gemini w) <> None /\ model (gemini w) <> None
            /\ exists text, head (replies w) = Some (Generated text))
    /\ (genAI (gemini w) = None -> w' = w).
Proof.
  unfold ChatbotController.testAI, GeminiService.testConnection,
    GeminiService.isAvailable, GeminiService.generateContent,
    try_catch, bind, ret.
  destruct (genAI (gemini w)) as [g |] eqn:G.
  - rewrite bool_decide_eq_true_2 by discriminate. cbn [negb].
    destruct (model (gemini w)) as [m |] eqn:Mo.
    + cbn [replies log].
      destruct (replies w) as [| [text | e] rest] eqn:R; cbn [head];
        eexists _, _; (split; [reflexivity |]); cbn [status];
        (split; [auto |]); (split; [| discriminate]).
      * split; [discriminate |]. intros (_ & _ & text & H). discriminate H.
      * split; [| reflexivity]. intros _. repeat split; try discriminate.
        now exists text.
      * split; [discriminate |]. intros (_ & _ & text & H). discriminate H.
    + eexists _, _. split; [reflexivity |]. cbn [status].
      split; [auto |]. split; [| discriminate].
      split; [discriminate |]. intros (_ & H & _). now contradiction H.
  - rewrite bool_decide_eq_false_2 by (intros H; now apply H). cbn [negb].
    eexists _, _. split; [reflexivity |]. cbn [status].
    split; [auto |]. split; [| reflexivity].
    split; [discriminate |]. intros (H & _). now contradiction H.
Qed.

Lemma ai_test_status_witness :
  exists r,
    ChatbotController.testAI (request_with [] [] []) example_world_no_key
    = (Ret r, example_world_no_key)
    /\ status r = 503.
Proof.
  destruct (ai_test_status (request_with [] [] []) example_world_no_key)
    as (r & w' & E & S & I & N).
  exists r. rewrite <- (N eq_refl) at 2. split; [exact E |].
  destruct S as [S | S]; [| exact S].
  apply I in S as (G & _). now contradiction G.
Defined.


(** ** Submitting a contact message *)

Lemma contact_sent (contactData : jsobj) (w : world) :
  store_answers w ->
  exists (contact : jsobj) w',
    let row := serialise contact
               ∪ {[ "id" := JStr (decimal (next_id (store w))) ]} in
    ContactModel.create (JObj contactData) w
    = (Ret {| data := JArr [JObj row]; error := None |}, w')
    /\ contact !! "id" = None
    /\ contact !! "name" = Some (get contactData "name")
    /\ contact !! "email" = Some (get contactData "email")
    /\ contact !! "message" = Some (get contactData "message")
    /\ contact !! "status" = Some (JStr "new")
    /\ contact !! "created_at" = Some (clock_text w)
    /\ rows_of (store w') "contact_messages"
       = rows_of (store w) "contact_messages" ++ [row]
    /\ faults w' = tail (faults w).
Proof.
  intros A. rewrite (Contact_create_reads (JObj contactData) eq_refl). cbn [field].
  unfold bind. rewrite !now_iso_eq.
  match goal with
  | |- context [dbHelpers.insert ?t ?d ?w1] =>
      destruct (insert_sent t d w1 A) as (w' & E & R & _ & F & _);
      exists d, w'
  end.
  cbv zeta in *. split; [exact E |].
  do 6 (split; [reflexivity |]). split; [exact R | exact F].
Qed.

Lemma new_row_field (record : jsobj) (k : string) (v id : jsval) :
  record !! k = Some v -> is_defined v = true ->
  get (serialise record ∪ {[ "id" := id ]}) k = v.
Proof.
  intros H D. unfold get. now rewrite (serialise_lookup record k v H D id).
Qed.

Lemma truthy_is_defined (v : jsval) : truthy v = true -> is_defined v = true.
Proof. destruct v; cbn; congruence. Qed.

(** X21.  A contact message that was submitted can be read back: when the
    submission passes validation, the identifier the database is about to
    hand out is not in use and both requests reach the database,
    [POST /api/contact] answers 201 with the new [id], the [name] and
    [email] as given and the time of the call as [created_at], and
    [GET /api/contact/:id] for that [id] then answers 200 with the stored
    row, whose [status] is ['new'] and whose [message] is the one
    given. *)
Theorem submitted_message_is_found (req : request) (w : world) :
  rejected POST_contact req = false ->
  store_answers_next 2 w ->
  existsb (has_id (JStr (decimal (next_id (store w)))))
          (rows_of (store w) "contact_messages") = false ->
  exists (row : jsobj) w1 w2,
    ContactController.submitContact req w
    = (Ret (contact_received (JStr (decimal (next_id (store w))))
                             (get (body req) "name") (get (body req) "email")
                             (clock_text w)), w1)
    /\ ContactController.getMessageById
         (lookup_request (JStr (decimal (next_id (store w))))) w1
       = (Ret (message_found row), w2)
    /\ get row "status" = JStr "new"
    /\ get row "message" = get (body req) "message".
Proof.
  intros V H Fresh.
  assert (store_answers w) as A1.
  { unfold store_answers, next_fault. unfold store_answers_next in H.
    destruct (faults w) as [| [] l]; cbn in *; congruence. }
  destruct (contact_sent (body req) w A1)
    as (contact & w1 & E & Cid & Cn & Ce & Cm & Cs & Cc & R & F1).
  cbv zeta in E, R.
  assert (store_answers w1) as A2.
  { unfold store_answers, next_fault. rewrite F1.
    unfold store_answers_next in H.
    destruct (faults w) as [| f1 [| [] l]]; cbn in *; try reflexivity;
      destruct f1; cbn in *; congruence. }
  cbn [rejected] in V.
  destruct (truthy (get (body req) "name")) eqn:Tn; [| discriminate V].
  destruct (truthy (get (body req) "email")) eqn:Te; [| discriminate V].
  destruct (truthy (get (body req) "message")) eqn:Tm; [| discriminate V].
  cbn [negb orb] in V.
  set (id := JStr (decimal (next_id (store w)))) in *.
  set (row := serialise contact ∪ {[ "id" := id ]}) in *.
  exists row, w1. eexists. split; [| split; [| split]].
  - unfold ContactController.submitContact, try_catch. cbv zeta.
    rewrite Tn, Te, Tm. cbn [negb orb]. rewrite V.
    rewrite (bind_eq_ret _ _ _ _ _ E). cbn [error data first_of first].
    rewrite !bind_ret. cbn [prop]. rewrite !bind_ret.
    unfold respond, ret, contact_received. subst row id.
    rewrite (new_row_id contact _ Cid).
    rewrite (new_row_field contact "name" _ _ Cn (truthy_is_defined _ Tn)).
    rewrite (new_row_field contact "email" _ _ Ce (truthy_is_defined _ Te)).
    rewrite (new_row_field contact "created_at" _ _ Cc eq_refl).
    reflexivity.
  - unfold ContactController.getMessageById, try_catch, lookup_request.
    cbv zeta. cbn [params].
    change (get (obj [("id", id)]) "id") with id.
    unfold ContactModel.getById.
    rewrite (bind_eq_ret _ _ _ _ _
               (bind_eq_ret _ _ _ _ _
                  (select_eq_sent ContactModel.tableName "*" "id" id w1
                                  eq_refl A2))).
    cbn [data error truthy].
    unfold ContactModel.tableName. rewrite R. subst row id.
    change (row_matches (Eq "id" (JStr (decimal (next_id (store w))))))
      with (has_id (JStr (decimal (next_id (store w))))).
    rewrite (filter_fresh _ _ _ Fresh (has_id_self contact _ Cid)).
    cbn [fmap list_fmap first truthy negb]. reflexivity.
  - subst row. apply (new_row_field contact "status" _ id Cs eq_refl).
  - subst row.
    apply (new_row_field contact "message" _ id Cm (truthy_is_defined _ Tm)).
Qed.

Lemma submitted_message_is_found_witness :
  rejected POST_contact
           (request_with [] [] [("name", JStr "Eve");
                                ("email", JStr "eve@example.com");
                                ("message", JStr "Do you cater?")]) = false
  /\ store_answers_next 2 example_world
  /\ existsb (has_id (JStr (decimal (next_id (store example_world)))))
             (rows_of (store example_world) "contact_messages") = false
  /\ exists w1,
       ContactController.submitContact
         (request_with [] [] [("name", JStr "Eve");
                              ("email", JStr "eve@example.com");
                              ("message", JStr "Do you cater?")])
         example_world
       = (Ret (contact_received (JStr "7") (JStr "Eve") (JStr "eve@example.com")
                                (JStr "2023-11-14T22:13:20.000Z")), w1).
Proof.
  split; [reflexivity |]. split; [reflexivity |]. split; [reflexivity |].
  destruct (submitted_message_is_found
              (request_with [] [] [("name", JStr "Eve");
                                   ("email", JStr "eve@example.com");
                                   ("message", JStr "Do you cater?")])
              example_world eq_refl eq_refl eq_refl)
    as (row & w1 & w2 & E & _).
  exists w1. exact E.
Defined.

(** ** Statistics when the database fails *)

Lemma guarded_select_objects q columns w :
  q_operation q = Select columns ->
  exists r w',
    try_catch
      (r <- send q ;;
       match error r with
       | Some e => throw e
       | None => ret {| data := data r; error := None |}
       end)
      (fun e => ret {| data := JNull; error := Some e |}) w = (Ret r, w')
    /\ ((exists rows : list jsobj,
            r = {| data := JArr (JObj <$> rows); error := None |})
        \/ (exists e, r = {| data := JNull; error := Some e |})).
Proof.
  intros Hq. unfold try_catch, bind, send.
  destruct (next_fault w); cbn.
  - unfold exec. rewrite Hq.
    destruct (negb _); cbn; eauto 10.
  - eauto 10.
  - eauto 10.
Qed.

Lemma select_objects table columns filters w :
  exists r w',
    dbHelpers.select table columns filters w = (Ret r, w')
    /\ ((exists rows : list jsobj,
            r = {| data := JArr (JObj <$> rows); error := None |})
        \/ (exists e, r = {| data := JNull; error := Some e |})).
Proof.
  apply guarded_select_objects with (columns := columns).
  now rewrite select_query_operation.
Qed.

(** X22.  The two statistics endpoints never report a failure of the
    database: whatever the database does, [GET /api/portfolio/stats] and
    [GET /api/contact/stats] answer 200, because they read [data] of each
    result and never its [error]; when the first request fails, the totals
    they report are 0. *)
Theorem stats_hide_store_failures (req : request) (w : world) :
  exists r1 w1 r2 w2,
    PortfolioController.getStats req w = (Ret r1, w1)
    /\ status r1 = 200
    /\ ContactController.getContactStats req w = (Ret r2, w2)
    /\ status r2 = 200
    /\ (forall e, store_fails w e ->
          reported r1 "total_dishes" = JNum 0
          /\ reported r2 "total_messages" = JNum 0).
Proof.
  destruct (select_objects DishModel.tableName "*" (obj []) w)
    as (a1 & u1 & Ea & Sa).
  destruct (run_returns Dish_getFeatured u1 eq_refl) as (a2 & u2 & Ef).
  destruct (run_returns Dish_getAvailable u2 eq_refl) as (a3 & u3 & Ev).
  destruct (select_objects ContactModel.tableName "*" (obj []) w)
    as (b1 & v1 & Eb & Sb).
  destruct (run_returns (Contact_getByStatus (JStr "new")) v1 eq_refl) as (b2 & v2 & En).
  destruct (run_returns (Contact_getRecent (JNum 30)) v2 eq_refl) as (b3 & v3 & Er).
  cbn [run] in Ef, Ev, En, Er.
  assert (forall e, store_fails w e ->
            a1 = {| data := JNull; error := Some e |}
            /\ b1 = {| data := JNull; error := Some e |}) as Fails.
  { intros e F.
    destruct (select_fails DishModel.tableName "*" (obj []) w e F) as (x & Hx).
    destruct (select_fails ContactModel.tableName "*" (obj []) w e F) as (y & Hy).
    rewrite Hx in Ea. rewrite Hy in Eb. split; congruence. }
  assert (exists r1,
             PortfolioController.getStats req w = (Ret r1, u3)
             /\ status r1 = 200
             /\ (data a1 = JNull -> reported r1 "total_dishes" = JNum 0)) as P.
  { unfold PortfolioController.getStats, try_catch.
    unfold DishModel.getAll. cbn [truthy].
    rewrite (bind_eq_ret _ _ _ _ _ Ea).
    rewrite (bind_eq_ret _ _ _ _ _ Ef).
    rewrite (bind_eq_ret _ _ _ _ _ Ev).
    destruct Sa as [(rows & ->) | (e & ->)]; cbn [data truthy elements].
    - rewrite (bind_eq_ret _ _ _ _ _ (count_by_objects _ _ _ _)).
      eexists. split; [reflexivity |]. split; [reflexivity | discriminate].
    - rewrite bind_ret.
      eexists. split; [reflexivity |]. split; reflexivity. }
  assert (exists r2,
             ContactController.getContactStats req w = (Ret r2, v3)
             /\ status r2 = 200
             /\ (data b1 = JNull -> reported r2 "total_messages" = JNum 0)) as C.
  { unfold ContactController.getContactStats, try_catch.
    unfold ContactModel.getAll. cbn [truthy].
    rewrite (bind_eq_ret _ _ _ _ _ Eb).
    unfold ContactModel.getByStatus in *.
    rewrite (bind_eq_ret _ _ _ _ _ En).
    rewrite (bind_eq_ret _ _ _ _ _ Er).
    destruct Sb as [(rows & ->) | (e & ->)]; cbn [data truthy elements].
    - rewrite (bind_eq_ret _ _ _ _ _ (count_by_objects _ _ _ _)).
      eexists. split; [reflexivity |]. split; [reflexivity | discriminate].
    - rewrite bind_ret.
      eexists. split; [reflexivity |]. split; reflexivity. }
  destruct P as (r1 & E1 & S1 & Z1). destruct C as (r2 & E2 & S2 & Z2).
  exists r1, u3, r2, v3. repeat (split; [assumption |]).
  intros e F. destruct (Fails e F) as [-> ->]. split; [apply Z1 | apply Z2];
    reflexivity.
Qed.

Lemma stats_hide_store_failures_witness :
  store_fails (failing [Rejected (Error "connection refused")])
              (Error "connection refused")
  /\ exists r1 w1,
       PortfolioController.getStats (request_with [] [] [])
         (failing [Rejected (Error "connection refused")]) = (Ret r1, w1)
       /\ status r1 = 200
       /\ reported r1 "total_dishes" = JNum 0.
Proof.
  split; [left; reflexivity |].
  destruct (stats_hide_store_failures
              (request_with [] [] [])
              (failing [Rejected (Error "connection refused")]))
    as (r1 & w1 & r2 & w2 & E1 & S1 & _ & _ & Z).
  exists r1, w1. split; [exact E1 |]. split; [exact S1 |].
  exact (proj1 (Z (Error "connection refused") (or_introl eq_refl))).
Defined.

(** ** Counting under names that objects inherit *)

Lemma count_other (counts : jsobj) (key : jsval) (k : string) :
  to_string key <> k -> count counts key !! k = counts !! k.
Proof.
  intros Ne. unfold count.
  destruct (counts !! to_string key) as [v |].
  - destruct (strict_eq v JUndefined); [reflexivity |].
    now rewrite lookup_insert_ne.
  - destruct (bool_decide _); [| reflexivity].
    now rewrite lookup_insert_ne.
Qed.

Lemma count_nan (counts : jsobj) (key : jsval) (k : string) :
  counts !! k = Some JNaN -> count counts key !! k = Some JNaN.
Proof.
  intros H. destruct (String.eqb_spec (to_string key) k) as [E | Ne].
  - unfold count. rewrite E, H. cbn [strict_eq].
    now rewrite lookup_insert_eq.
  - now rewrite count_other.
Qed.

Lemma count_inherited (counts : jsobj) (key : jsval) (k : string) :
  counts !! k = None -> to_string key = k ->
  count counts key !! k
  = if bool_decide (k ∈ object_prototype_keys) then Some JNaN else None.
Proof.
  intros H E. unfold count. rewrite E, H.
  destruct (bool_decide _); [apply lookup_insert_eq | exact H].
Qed.

Lemma counts_nan_stay (k0 : string) (rows : list jsobj) (counts : jsobj)
    (k : string) :
  counts !! k = Some JNaN ->
  foldl (fun c r => count c (get r k0)) counts rows !! k = Some JNaN.
Proof.
  revert counts. induction rows as [| r rows IH]; intros counts H;
    [exact H |].
  cbn [foldl]. apply IH. now apply count_nan.
Qed.

Lemma counts_inherited (k0 : string) (rows : list jsobj) (counts : jsobj)
    (k : string) (r : jsobj) :
  k ∈ object_prototype_keys ->
  counts !! k = None \/ counts !! k = Some JNaN ->
  r ∈ rows -> to_string (get r k0) = k ->
  foldl (fun c r => count c (get r k0)) counts rows !! k = Some JNaN.
Proof.
  intros P. revert counts.
  induction rows as [| x rows IH]; intros counts H In E.
  - now apply elem_of_nil in In.
  - cbn [foldl]. apply elem_of_cons in In as [<- | In].
    + apply counts_nan_stay. destruct H as [H | H].
      * rewrite (count_inherited _ _ _ H E).
        now rewrite bool_decide_eq_true_2.
      * now apply count_nan.
    + apply IH; [| exact In | exact E].
      destruct H as [H | H]; [| right; now apply count_nan].
      destruct (String.eqb_spec (to_string (get x k0)) k) as [Ex | Ne].
      * right. rewrite (count_inherited _ _ _ H Ex).
        now rewrite bool_decide_eq_true_2.
      * left. now rewrite count_other.
Qed.

Lemma counts_keys (k0 : string) (rows : list jsobj) (counts : jsobj)
    (k : string) :
  is_Some (foldl (fun c r => count c (get r k0)) counts rows !! k) ->
  is_Some (counts !! k)
  \/ (k ∈ object_prototype_keys
      /\ exists r, r ∈ rows /\ to_string (get r k0) = k).
Proof.
  revert counts. induction rows as [| x rows IH]; intros counts H;
    [now left |].
  cbn [foldl] in H. destruct (IH _ H) as [S | (P & r & In & E)].
  - destruct (String.eqb_spec (to_string (get x k0)) k) as [Ex | Ne].
    + destruct (counts !! k) as [v |] eqn:C; [left; eauto |].
      rewrite (count_inherited _ _ _ C Ex) in S.
      destruct (bool_decide_reflect (k ∈ object_prototype_keys)) as [P | _].
      * right. split; [exact P |]. exists x. split; [apply list_elem_of_here | exact Ex].
      * now destruct S.
    + left. now rewrite count_other in S.
  - right. split; [exact P |]. exists r.
    split; [now apply list_elem_of_further | exact E].
Qed.

Lemma getStats_counts (req : request) (w : world) :
  store_answers_next 3 w ->
  let dishes := rows_of (store w) "dishes" in
  exists w',
    PortfolioController.getStats req w
    = (Ret (stats_response
              (Z.of_nat (length dishes))
              (Z.of_nat (length (featured_dishes (store w))))
              (Z.of_nat (length (available_dishes (store w))))
              (foldl (fun c r => count c (get r "category"))
                     (obj [("appetizers", JNum 0); ("mains", JNum 0);
                           ("desserts", JNum 0); ("drinks", JNum 0);
                           ("specials", JNum 0)]) dishes)), w').
Proof.
  intros H dishes.
  pose proof (store_answers_first _ _ H) as A1.
  pose proof (store_answers_sent _ _ (supabase.from "dishes" (Select "*")) H) as H2.
  pose proof (store_answers_first _ _ H2) as A2.
  pose proof (store_answers_sent _ _
                (supabase.eq "is_featured" (JBool true)
                   (supabase.from "dishes" (Select "*"))) H2) as H3.
  pose proof (store_answers_first _ _ H3) as A3.
  eexists.
  unfold PortfolioController.getStats, try_catch.
  unfold DishModel.getAll, DishModel.getFeatured, DishModel.getAvailable.
  cbn [truthy].
  rewrite (bind_eq_ret _ _ _ _ _ (select_all_sent DishModel.tableName "*" w A1)).
  rewrite (bind_eq_ret _ _ _ _ _
             (select_eq_sent DishModel.tableName "*" "is_featured" (JBool true)
                             _ eq_refl A2)).
  rewrite (bind_eq_ret _ _ _ _ _
             (select_eq_sent DishModel.tableName "*" "is_available" (JBool true)
                             _ eq_refl A3)).
  cbn [data truthy elements].
  rewrite (bind_eq_ret _ _ _ _ _ (count_by_objects _ _ _ _)).
  unfold respond, ret, arr_length. rewrite !length_fmap. reflexivity.
Qed.

(** X23.  The category counts of [GET /api/portfolio/stats] have the five
    categories as keys and, besides them, only names that every object
    inherits ([constructor], [toString], ...): a stored dish whose
    category is such a name passes the test [!== undefined], and the
    increment stores [NaN] under that name.  No other category adds a
    key. *)
Theorem stats_inherited_categories (req : request) (w : world) :
  store_answers_next 3 w ->
  let dishes := rows_of (store w) "dishes" in
  exists categories r w',
    PortfolioController.getStats req w = (Ret r, w')
    /\ reported r "categories" = JObj categories
    /\ (forall k, is_Some (categories !! k) ->
          k ∈ counted_categories
          \/ (k ∈ object_prototype_keys
              /\ exists d, d ∈ dishes /\ to_string (get d "category") = k))
    /\ (forall k d, k ∈ object_prototype_keys -> d ∈ dishes ->
          to_string (get d "category") = k -> categories !! k = Some JNaN).
Proof.
  intros H dishes. destruct (getStats_counts req w H) as (w' & E).
  eexists _, _, w'. split; [exact E |]. split; [reflexivity |]. split.
  - intros k S. apply counts_keys in S as [S | S]; [left | now right].
    destruct (decide (k ∈ counted_categories)) as [In | Out]; [exact In |].
    exfalso. rewrite obj_lookup_none in S; [now destruct S |].
    intros Hin. apply Out. now apply list_elem_of_In.
  - intros k d P In Ek.
    apply (counts_inherited "category" dishes _ k d P); [| exact In | exact Ek].
    left. unfold object_prototype_keys in P.
    repeat (apply elem_of_cons in P as [-> | P]; [reflexivity |]).
    now apply elem_of_nil in P.
Qed.

Lemma stats_inherited_categories_witness :
  store_answers_next 3 odd_world
  /\ exists categories r w',
       PortfolioController.getStats (request_with [] [] []) odd_world
       = (Ret r, w')
       /\ reported r "categories" = JObj categories
       /\ categories !! "constructor" = Some JNaN.
Proof.
  split; [reflexivity |].
  destruct (stats_inherited_categories (request_with [] [] []) odd_world eq_refl)
    as (categories & r & w' & E & R & _ & N).
  exists categories, r, w'. split; [exact E |]. split; [exact R |].
  apply (N "constructor" odd_dish).
  - unfold object_prototype_keys. apply list_elem_of_here.
  - apply list_elem_of_further, list_elem_of_here.
  - reflexivity.
Defined.

(** ** The pattern of e-mail addresses *)

Lemma append_empty (s1 s2 : string) :
  s1 +:+ s2 = EmptyString -> s1 = EmptyString /\ s2 = EmptyString.
Proof. destruct s1; cbn; [auto | discriminate]. Qed.

Lemma nullable_lang (r : regex) : nullable r = true <-> lang r EmptyString.
Proof.
  split.
  - induction r; cbn [nullable]; intros H; try discriminate H.
    + constructor.
    + apply andb_prop in H as [H1 H2].
      change EmptyString with (EmptyString +:+ EmptyString).
      constructor; auto.
    + apply orb_prop in H as [H | H];
        [apply lang_alt_l | apply lang_alt_r]; auto.
    + constructor.
  - intros H. remember EmptyString as s eqn:E.
    induction H; cbn [nullable]; try reflexivity; try discriminate E.
    + apply append_empty in E as [-> ->].
      now rewrite IHlang1, IHlang2.
    + now rewrite IHlang.
    + rewrite IHlang by assumption. apply orb_true_r.
Qed.

Lemma lang_class_inv (p : ascii -> bool) (s : string) :
  lang (RClass p) s -> exists c, s = String c EmptyString /\ p c = true.
Proof. intros H. inversion H; subst. eauto. Qed.

Lemma lang_cat_inv (r1 r2 : regex) (s : string) :
  lang (RCat r1 r2) s ->
  exists s1 s2, s = s1 +:+ s2 /\ lang r1 s1 /\ lang r2 s2.
Proof. intros H. inversion H; subst. eauto. Qed.

Lemma lang_alt_inv (r1 r2 : regex) (s : string) :
  lang (RAlt r1 r2) s -> lang r1 s \/ lang r2 s.
Proof. intros H. inversion H; subst; auto. Qed.

Lemma lang_deriv (r : regex) (t : string) :
  lang r t -> forall c s, t = String c s -> lang (deriv c r) s.
Proof.
  induction 1 as [| p a Hp | r1 r2 s1 s2 H1 IH1 H2 IH2 | r1 r2 t H IH
                 | r1 r2 t H IH | r | r s1 s2 H1 IH1 H2 IH2];
    intros c s E; cbn [deriv].
  - discriminate E.
  - injection E as -> <-. rewrite Hp. constructor.
  - destruct s1 as [| a s1].
    + cbn in E. apply nullable_lang in H1. rewrite H1.
      apply lang_alt_r. now apply IH2.
    + cbn in E. injection E as -> <-.
      assert (lang (RCat (deriv c r1) r2) (s1 +:+ s2)) as L
        by (constructor; [now apply IH1 | exact H2]).
      destruct (nullable r1); [now apply lang_alt_l | exact L].
  - apply lang_alt_l. now apply IH.
  - apply lang_alt_r. now apply IH.
  - discriminate E.
  - destruct s1 as [| a s1].
    + cbn in E. now apply IH2.
    + cbn in E. injection E as -> <-.
      constructor; [now apply IH1 | exact H2].
Qed.

Lemma deriv_lang (c : ascii) (r : regex) (s : string) :
  lang (deriv c r) s -> lang r (String c s).
Proof.
  revert s. induction r as [| | p | r1 IH1 r2 IH2 | r1 IH1 r2 IH2 | r IH];
    intros s H; cbn [deriv] in H.
  - inversion H.
  - inversion H.
  - destruct (p c) eqn:Hp; inversion H; subst. now constructor.
  - assert (lang (RCat (deriv c r1) r2) s -> lang (RCat r1 r2) (String c s))
      as Left.
    { intros L. apply lang_cat_inv in L as (s1 & s2 & -> & L1 & L2).
      change (String c (s1 +:+ s2)) with (String c s1 +:+ s2).
      constructor; [now apply IH1 | exact L2]. }
    destruct (nullable r1) eqn:N; [| now apply Left].
    apply lang_alt_inv in H as [L | L]; [now apply Left |].
    change (String c s) with (EmptyString +:+ String c s).
    constructor; [now apply nullable_lang | now apply IH2].
  - apply lang_alt_inv in H as [L | L];
      [apply lang_alt_l; now apply IH1 | apply lang_alt_r; now apply IH2].
  - apply lang_cat_inv in H as (s1 & s2 & -> & L1 & L2).
    change (String c (s1 +:+ s2)) with (String c s1 +:+ s2).
    constructor; [now apply IH | exact L2].
Qed.

(** The matcher decides the language of the pattern. *)
Lemma matches_lang (r : regex) (s : string) : matches r s = true <-> lang r s.
Proof.
  revert r. induction s as [| c s IH]; intros r; cbn [matches].
  - apply nullable_lang.
  - rewrite IH. split; [apply deriv_lang |].
    intros H. now apply (lang_deriv r _ H).
Qed.

Lemma lang_class_star (p : ascii -> bool) (s : string) :
  lang (RStar (RClass p)) s <-> every p s = true.
Proof.
  split.
  - intros H. remember (RStar (RClass p)) as r eqn:E.
    induction H as [| | | | | r | r s1 s2 H1 _ H2 IH2]; try discriminate E.
    + reflexivity.
    + injection E as ->. apply lang_class_inv in H1 as (c & -> & Hc).
      change (String c EmptyString +:+ s2) with (String c s2).
      cbn [every]. rewrite Hc. now apply IH2.
  - induction s as [| c s IH]; cbn [every]; intros H; [constructor |].
    apply andb_prop in H as [Hc Hs].
    change (String c s) with (String c EmptyString +:+ s).
    constructor; [now constructor | now apply IH].
Qed.

Lemma lang_class_plus (p : ascii -> bool) (s : string) :
  lang (RPlus (RClass p)) s <-> s <> EmptyString /\ every p s = true.
Proof.
  unfold RPlus. split.
  - intros H. apply lang_cat_inv in H as (s1 & s2 & -> & L1 & L2).
    apply lang_class_inv in L1 as (c & -> & Hc).
    apply lang_class_star in L2.
    change (String c EmptyString +:+ s2) with (String c s2).
    cbn [every]. rewrite Hc. now split.
  - intros [Ne H]. destruct s as [| c s]; [congruence |].
    cbn [every] in H. apply andb_prop in H as [Hc Hs].
    change (String c s) with (String c EmptyString +:+ s).
    constructor; [now constructor | now apply lang_class_star].
Qed.

Lemma lang_char (c : ascii) (s : string) :
  lang (RChar c) s <-> s = String c EmptyString.
Proof.
  unfold RChar. split.
  - intros H. apply lang_class_inv in H as (a & -> & Ha).
    now apply Ascii.eqb_eq in Ha as ->.
  - intros ->. constructor. apply Ascii.eqb_refl.
Qed.

(** X24.  The test [emailRegex.test(email)] that a contact submission has
    to pass holds exactly when the text of [email] is of the form
    [local@domain.suffix], where each of the three parts is non-empty and
    contains neither white space nor [@]; the parts may contain dots.  A
    value that is not a string is tested through its text. *)
Theorem email_pattern (email : jsval) :
  regex_test ContactController.emailRegex email = true
  <-> exists local domain suffix,
        to_string email = local +:+ "@" +:+ domain +:+ "." +:+ suffix
        /\ address_part local /\ address_part domain /\ address_part suffix.
Proof.
  unfold regex_test. rewrite matches_lang.
  unfold ContactController.emailRegex, address_part. split.
  - intros H.
    apply lang_cat_inv in H as (a & s1 & E1 & La & L1).
    apply lang_cat_inv in L1 as (at_sign & s2 & E2 & Lat & L2).
    apply lang_cat_inv in L2 as (b & s3 & E3 & Lb & L3).
    apply lang_cat_inv in L3 as (dot & c & E4 & Ldot & Lc).
    apply lang_char in Lat, Ldot. subst.
    apply lang_class_plus in La, Lb, Lc.
    exists a, b, c. now repeat split.
  - intros (a & b & c & -> & Ha & Hb & Hc).
    constructor; [now apply lang_class_plus |].
    constructor; [now apply lang_char |].
    constructor; [now apply lang_class_plus |].
    constructor; [now apply lang_char | now apply lang_class_plus].
Qed.

Lemma email_pattern_witness :
  regex_test ContactController.emailRegex (JStr "eve@example.com") = true.
Proof.
  apply (proj2 (email_pattern (JStr "eve@example.com"))).
  exists "eve", "example", "com".
  repeat split; try discriminate; reflexivity.
Defined.


(** ** The filters of a selection *)

Lemma select_query_filters (l : list (string * jsval)) (q : store_query) :
  q_filters
    (foldl (fun q '(key, value) =>
              if negb (strict_eq value JUndefined) && negb (strict_eq value JNull)
              then supabase.eq key value q else q) q l)
  = q_filters q ++ omap entry_filter l.
Proof.
  revert q. induction l as [| [k v] l IH]; intros q; cbn [foldl].
  - symmetry. apply app_nil_r.
  - rewrite IH.
    change (omap entry_filter ((k, v) :: l))
      with (match entry_filter (k, v) with
            | Some f => f :: omap entry_filter l
            | None => omap entry_filter l
            end).
    change (entry_filter (k, v))
      with (if negb (strict_eq v JUndefined) && negb (strict_eq v JNull)
            then Some (Eq k v) else None).
    destruct (_ && _); [| reflexivity].
    cbn [supabase.eq supabase.add_filter q_filters].
    now rewrite <- app_assoc.
Qed.

Lemma select_query_table (l : list (string * jsval)) (q : store_query) :
  q_table
    (foldl (fun q '(key, value) =>
              if negb (strict_eq value JUndefined) && negb (strict_eq value JNull)
              then supabase.eq key value q else q) q l)
  = q_table q.
Proof.
  revert q. induction l as [| [k v] l IH]; intros q; cbn [foldl]; [reflexivity |].
  rewrite IH. now destruct (_ && _).
Qed.

Lemma entry_filter_some (k : string) (v : jsval) (f : row_filter) :
  entry_filter (k, v) = Some f
  <-> f = Eq k v /\ v <> JUndefined /\ v <> JNull.
Proof.
  unfold entry_filter. cbn [fst snd].
  destruct v; cbn; split; try (intros [= <-]; repeat split; discriminate);
    try (intros (-> & _ & _); reflexivity);
    try discriminate; intros (_ & A & B); congruence.
Qed.

(** X25.  [dbHelpers.select] sends one selection on the given table and
    columns whose filters are exactly the equalities [key = value] for the
    entries of [filters] whose value is neither [undefined] nor [null];
    such entries are skipped, so that a filter on a missing value selects
    every row instead of none. *)
Theorem select_skips_missing_values (table columns : string) (filters : jsobj)
    (w : world) :
  exists q r w',
    dbHelpers.select table columns filters w = (Ret r, w')
    /\ trace w' = trace w ++ [StoreRequest q]
    /\ q_table q = table
    /\ q_operation q = Select columns
    /\ forall f, f ∈ q_filters q
                 <-> exists k v, f = Eq k v /\ filters !! k = Some v
                                 /\ v <> JUndefined /\ v <> JNull.
Proof.
  unfold dbHelpers.select. cbv zeta.
  match goal with
  | |- context [send ?q0] =>
      set (q := q0);
      destruct (guarded_select q columns w) as (r & w' & E & T & _);
      [subst q; now rewrite select_query_operation |];
      exists q, r, w'
  end.
  split; [exact E |]. split; [exact T |].
  split; [subst q; now rewrite select_query_table |].
  split; [subst q; now rewrite select_query_operation |].
  intros f. subst q. rewrite select_query_filters.
  cbn [supabase.from q_filters app]. rewrite list_elem_of_omap. split.
  - intros ([k v] & In & F). apply elem_of_map_to_list in In.
    apply entry_filter_some in F as (-> & A & B). now exists k, v.
  - intros (k & v & -> & L & A & B). exists (k, v).
    split; [now apply elem_of_map_to_list | now apply entry_filter_some].
Qed.

Lemma select_skips_missing_values_witness :
  exists q r w',
    dbHelpers.select "dishes" "*" (obj [("category", JNull)]) example_world
    = (Ret r, w')
    /\ trace w' = trace example_world ++ [StoreRequest q]
    /\ q_table q = "dishes"
    /\ q_filters q = [].
Proof.
  destruct (select_skips_missing_values
              "dishes" "*" (obj [("category", JNull)]) example_world)
    as (q & r & w' & E & T & Tb & _ & F).
  exists q, r, w'. split; [exact E |]. split; [exact T |]. split; [exact Tb |].
  destruct (q_filters q) as [| f l]; [reflexivity |]. exfalso.
  destruct (proj1 (F f) (list_elem_of_here f l)) as (k & v & _ & L & _ & N).
  unfold obj in L. cbn [list_to_map foldr uncurry] in L.
  apply lookup_insert_Some in L as [[_ <-] | [_ L]]; [now apply N |].
  now rewrite lookup_empty in L.
Defined.


(** ** Failures of the database, as the client sees them *)

Ltac fails_with call F :=
  let w' := fresh "w'" in
  let E := fresh "E" in
  destruct (run_fails call _ _ eq_refl F) as (w' & E);
  cbn [run failure_data threshold_error default] in E;
  rewrite (bind_eq_ret _ _ _ _ _ E); cbn [error];
  eexists _, w'; repeat split; reflexivity.

(** X26.  On each of the eleven routes that make one request to the
    database and check its result, a request that passes validation while
    the database fails with an error is answered 500, with [success] false
    and the message of that error as [error]: the failure that the
    repositories return as a value reaches the client. *)
Theorem store_failure_is_500 (r : route) (req : request) (w : world)
    (e : jserror) :
  store_route r = true ->
  rejected r req = false ->
  store_fails w e ->
  exists out w',
    handler r req w = (Ret out, w')
    /\ status out = 500
    /\ get (json out) "success" = JBool false
    /\ get (json out) "error" = JStr (err_message e).
Proof.
  intros S V F. destruct r; try discriminate S; clear S;
    cbn [handler rejected] in *.
  - (* GET /api/portfolio *)
    unfold PortfolioController.getAllDishes, try_catch. cbv zeta.
    destruct (truthy (get (query req) "search"));
      [fails_with (Dish_search (get (query req) "search")) F |].
    destruct (strict_eq (get (query req) "featured") (JStr "true"));
      [fails_with Dish_getFeatured F |].
    destruct (strict_eq (get (query req) "available") (JStr "true"));
      [fails_with Dish_getAvailable F |].
    destruct (truthy (get (query req) "category"));
      [fails_with (Dish_getByCategory (get (query req) "category")) F |].
    fails_with (Dish_getAll JUndefined) F.
  - (* GET /api/portfolio/:id *)
    unfold PortfolioController.getDishById, try_catch. cbv zeta.
    fails_with (Dish_getById (get (params req) "id")) F.
  - (* POST /api/portfolio *)
    unfold PortfolioController.createDish, try_catch. cbv zeta. rewrite V.
    fails_with (Dish_create (JObj (body req))) F.
  - (* PUT /api/portfolio/:id *)
    unfold PortfolioController.updateDish, try_catch. cbv zeta.
    fails_with (Dish_update (get (params req) "id") (body req)) F.
  - (* DELETE /api/portfolio/:id *)
    unfold PortfolioController.deleteDish, try_catch. cbv zeta.
    fails_with (Dish_delete (get (params req) "id")) F.
  - (* POST /api/contact *)
    apply orb_false_elim in V as [V1 V2].
    unfold ContactController.submitContact, try_catch. cbv zeta.
    rewrite V1, V2.
    fails_with (Contact_create (JObj (body req))) F.
  - (* GET /api/contact *)
    unfold ContactController.getAllMessages, try_catch. cbv zeta.
    destruct (truthy (get (query req) "status"));
      [fails_with (Contact_getByStatus (get (query req) "status")) F |].
    fails_with (Contact_getAll JUndefined) F.
  - (* GET /api/contact/search *)
    unfold ContactController.searchMessages, try_catch. cbv zeta. rewrite V.
    fails_with (Contact_search (get (query req) "q")) F.
  - (* GET /api/contact/:id *)
    unfold ContactController.getMessageById, try_catch. cbv zeta.
    fails_with (Contact_getById (get (params req) "id")) F.
  - (* PUT /api/contact/:id/status *)
    unfold ContactController.updateMessageStatus, try_catch. cbv zeta.
    rewrite V.
    fails_with (Contact_updateStatus (get (params req) "id")
                                     (get (body req) "status")) F.
  - (* DELETE /api/contact/:id *)
    unfold ContactController.deleteMessage, try_catch. cbv zeta.
    fails_with (Contact_delete (get (params req) "id")) F.
Qed.

Lemma store_failure_is_500_witness :
  store_route PUT_portfolio_id = true
  /\ rejected PUT_portfolio_id
              (request_with [("id", JStr "1")] [] [("price", JNum 12)]) = false
  /\ store_fails (failing [Broken (Error "socket hang up")])
                 (Error "socket hang up")
  /\ exists out w',
       handler PUT_portfolio_id
               (request_with [("id", JStr "1")] [] [("price", JNum 12)])
               (failing [Broken (Error "socket hang up")]) = (Ret out, w')
       /\ status out = 500
       /\ get (json out) "error" = JStr "socket hang up".
Proof.
  split; [reflexivity |]. split; [reflexivity |].
  split; [right; reflexivity |].
  destruct (store_failure_is_500
              PUT_portfolio_id
              (request_with [("id", JStr "1")] [] [("price", JNum 12)])
              (failing [Broken (Error "socket hang up")])
              (Error "socket hang up") eq_refl eq_refl (or_intror eq_refl))
    as (out & w' & E & S & _ & M).
  exists out, w'. split; [exact E |]. split; [exact S | exact M].
Defined.
